(** * EVM client: connection pool, identity pool and transaction building

    A shallow embedding of [EVMClient] (client.ts) of the Astreus EVM plugin.

    - JavaScript values that the client branches on are modelled with their
      truthiness written out: an optional string is [option string] and is
      truthy when it is supplied and not the empty string; an optional
      bigint or number is [option Z] and is truthy when supplied and non-zero.
    - [this.providers] (a [Map] that is only read by key) is a [gmap];
      [this.wallets] (a [Map] whose insertion order is observed through
      [Array.from(this.wallets.values())[0]]) and the [networks] object are
      insertion-ordered association lists with the [set] of a JS [Map].
    - An object's association list lists its properties in the object's own
      enumeration order: array indices first, then the other keys as they
      were created. The names the client adds to [networks] are the common
      networks', none an array index, so there an assignment is the [set] of
      a [Map]; a merged object ([spread]) is built by the object's own rule.
      The keys of a map are unique, which the statements that need it assume
      as [NoDup] of the keys.
    - Numbers that the client only passes on or prints ([accountIndex],
      nonces, chain ids, block numbers) are integers ([Z]), printed in
      decimal; [Number(chainId)] is the identity on them.
    - Exceptions, the mutable client and the logger are threaded through a
      small state-and-exception monad [M]; a thrown error keeps the state
      changes made before it, as in JavaScript. An awaited promise that
      rejects is a throw.
    - The ethers library and the remote node are records of functions
      ([Ethers], and [Node] for the queries of the second part); the client
      is verified for every such record.
    - Of [EVMPlugin] (plugin.ts) the development covers the tool registry,
      the function definitions and the schema converter; a tool's [execute]
      is represented by the case of its [switch] that the tool's name
      selects. *)

From stdpp Require Import base strings gmap list pretty.
From Stdlib Require Import ZArith Lia Ascii.

Local Open Scope Z_scope.

(** ** JavaScript values *)

(** A thrown value: an [Error] object (with its [name] and [message]) or any
    other value, kept by its string rendering. *)
Inductive Thrown : Type :=
  | JsError (name message : string)
  | JsThrown (text : string).

(** [new Error(message)] *)
Definition Error (message : string) : Thrown := JsError "Error" message.

(** [`${error}`]: [Error.prototype.toString] for an error object. *)
Definition toString (e : Thrown) : string :=
  match e with
  | JsError "" m => m
  | JsError n "" => n
  | JsError n m => n +:+ ": " +:+ m
  | JsThrown t => t
  end.

(** [error instanceof Error ? error.message : String(error)] *)
Definition errorMessage (e : Thrown) : string :=
  match e with
  | JsError _ m => m
  | JsThrown t => t
  end.

Inductive result (A : Type) : Type :=
  | Ok (a : A)
  | Throw (e : Thrown).
Arguments Ok {A} a.
Arguments Throw {A} e.

(** Truthiness of an optional string: [undefined] and [""] are falsy. *)
Definition truthy (o : option string) : option string :=
  match o with
  | Some (String a s) => Some (String a s)
  | _ => None
  end.

(** Truthiness of an optional bigint / number: [undefined], [null], [0] and
    [0n] are falsy. *)
Definition truthyZ (o : option Z) : option Z :=
  match o with
  | Some 0 => None
  | Some z => Some z
  | None => None
  end.

(** [x || d] on an optional string. *)
Definition orElse (o : option string) (d : string) : string :=
  match truthy o with
  | Some s => s
  | None => d
  end.

(** A loosely typed JS value ([any]); arrays and objects are kept by their
    JSON text. *)
Inductive any : Type :=
  | Null
  | Str (s : string)
  | Num (z : Z)
  | Bool (b : bool)
  | Json (text : string).

(** ** Insertion-ordered maps (JS [Map], and plain objects used as maps) *)

Module OMap.
Section ops.
Context {V : Type}.

Fixpoint get (k : string) (m : list (string * V)) : option V :=
  match m with
  | [] => None
  | (k', v) :: m' => if decide (k = k') then Some v else get k m'
  end.

Definition has (k : string) (m : list (string * V)) : bool :=
  match get k m with Some _ => true | None => false end.

(** [m.set(k, v)]: an existing key keeps its position, a new one goes last. *)
Fixpoint set (k : string) (v : V) (m : list (string * V)) : list (string * V) :=
  match m with
  | [] => [(k, v)]
  | (k', v') :: m' =>
      if decide (k = k') then (k, v) :: m' else (k', v') :: set k v m'
  end.

Definition keys (m : list (string * V)) : list string := m.*1.
Definition values (m : list (string * V)) : list V := m.*2.
End ops.
End OMap.

(** ** Types (types.ts) *)

Record NativeCurrency := {
  nc_name : string;
  nc_symbol : string;
  nc_decimals : Z
}.

Record NetworkConfig := {
  net_name : string;
  net_chainId : Z;
  net_rpcUrl : string;
  net_nativeCurrency : option NativeCurrency;
  net_blockExplorer : option string
}.

Record EVMConfig := {
  cfg_networks : option (list (string * NetworkConfig));
  cfg_defaultNetwork : option string;
  cfg_privateKeys : option (list string);
  cfg_mnemonic : option string;
  cfg_hdPath : option string;
  cfg_accountIndex : option Z;
  cfg_providerTimeout : option Z;
  cfg_defaultGasLimit : option Z;
  cfg_defaultGasPrice : option Z;
  cfg_maxFeePerGas : option Z;
  cfg_maxPriorityFeePerGas : option Z
}.

Definition with_networks (c : EVMConfig) (n : option (list (string * NetworkConfig))) : EVMConfig :=
  {| cfg_networks := n;
     cfg_defaultNetwork := cfg_defaultNetwork c;
     cfg_privateKeys := cfg_privateKeys c;
     cfg_mnemonic := cfg_mnemonic c;
     cfg_hdPath := cfg_hdPath c;
     cfg_accountIndex := cfg_accountIndex c;
     cfg_providerTimeout := cfg_providerTimeout c;
     cfg_defaultGasLimit := cfg_defaultGasLimit c;
     cfg_defaultGasPrice := cfg_defaultGasPrice c;
     cfg_maxFeePerGas := cfg_maxFeePerGas c;
     cfg_maxPriorityFeePerGas := cfg_maxPriorityFeePerGas c |}.

(** [TransactionRequest] *)
Record TransactionRequest := {
  req_to : string;
  req_from : option string;
  req_value : option string;
  req_data : option string;
  req_gasLimit : option string;
  req_gasPrice : option string;
  req_maxFeePerGas : option string;
  req_maxPriorityFeePerGas : option string;
  req_nonce : option Z;
  req_chainId : option Z
}.

(** [TransactionResponse] (the client's normalized record) *)
Record TransactionResponse := {
  res_hash : string;
  res_from : string;
  res_to : string;
  res_value : string;
  res_data : string;
  res_gasLimit : string;
  res_gasPrice : option string;
  res_maxFeePerGas : option string;
  res_maxPriorityFeePerGas : option string;
  res_nonce : Z;
  res_chainId : Z;
  res_blockNumber : option Z;
  res_blockHash : option string;
  res_status : option Z
}.

Record GasEstimation := {
  ge_gasLimit : string;
  ge_gasPrice : option string;
  ge_maxFeePerGas : option string;
  ge_maxPriorityFeePerGas : option string;
  ge_estimatedCost : string
}.

Record ENSInfo := {
  ens_name : option string;
  ens_address : option string;
  ens_resolver : option string;
  ens_avatar : option string
}.

(** [publicKey] is declared a string; it is what [(wallet as any).publicKey]
    gives, which is [undefined] on a wallet that has no such property. *)
Record WalletInfo := {
  wi_address : string;
  wi_privateKey : option string;
  wi_publicKey : option string;
  wi_mnemonic : option string;
  wi_path : option string
}.

Record ContractCallResult := {
  ccr_result : any;
  ccr_decoded : option any;
  ccr_error : option string
}.

(** The receipt of a mined transaction, as far as the client reads it. *)
Record TransactionReceipt := {
  rcpt_blockNumber : Z;
  rcpt_blockHash : string;
  rcpt_status : option Z
}.

Record ContractTransactionResult := {
  ctr_hash : string;
  ctr_from : string;
  ctr_to : string;
  ctr_value : string;
  ctr_data : string;
  ctr_receipt : option TransactionReceipt;
  ctr_error : option string
}.

(** [ContractInterface & { transactionHash }] *)
Record DeployResult := {
  dep_address : string;
  dep_abi : list any;
  dep_transactionHash : string
}.

Definition net (name : string) (chainId : Z) (rpcUrl : string)
    (cname symbol : string) (explorer : string) : NetworkConfig :=
  {| net_name := name; net_chainId := chainId; net_rpcUrl := rpcUrl;
     net_nativeCurrency := Some {| nc_name := cname; nc_symbol := symbol; nc_decimals := 18 |};
     net_blockExplorer := Some explorer |}.

Definition COMMON_NETWORKS : list (string * NetworkConfig) :=
  [ ("mainnet", net "Ethereum Mainnet" 1 "https://eth.llamarpc.com" "Ether" "ETH" "https://etherscan.io");
    ("sepolia", net "Sepolia Testnet" 11155111 "https://sepolia.infura.io/v3/" "Sepolia Ether" "ETH" "https://sepolia.etherscan.io");
    ("polygon", net "Polygon Mainnet" 137 "https://polygon-rpc.com" "MATIC" "MATIC" "https://polygonscan.com");
    ("arbitrum", net "Arbitrum One" 42161 "https://arb1.arbitrum.io/rpc" "Ether" "ETH" "https://arbiscan.io");
    ("optimism", net "Optimism" 10 "https://mainnet.optimism.io" "Ether" "ETH" "https://optimistic.etherscan.io");
    ("base", net "Base" 8453 "https://mainnet.base.org" "Ether" "ETH" "https://basescan.org");
    ("avalanche", net "Avalanche C-Chain" 43114 "https://api.avax.network/ext/bc/C/rpc" "Avalanche" "AVAX" "https://snowtrace.io");
    ("bsc", net "BNB Smart Chain" 56 "https://bsc-dataseed.binance.org" "BNB" "BNB" "https://bscscan.com") ].

(** ** The ethers library and the remote node *)

(** A [JsonRpcProvider]: the endpoint and the network it was constructed for. *)
Record Provider := {
  prov_rpcUrl : string;
  prov_name : string;
  prov_chainId : Z
}.

Record KeyPair := {
  kp_address : string;
  kp_privateKey : string;
  kp_publicKey : string
}.

(** An [ethers.Wallet] / [HDNodeWallet]: key material and the provider it is
    connected to. *)
Record Wallet := {
  w_address : string;
  w_privateKey : string;
  w_publicKey : string;
  w_path : option string;
  w_mnemonic : option string;
  w_provider : option Provider
}.

(** [wallet.connect(provider)]: a wallet with the same keys on [provider]. *)
Definition connect (w : Wallet) (p : Provider) : Wallet :=
  {| w_address := w_address w;
     w_privateKey := w_privateKey w;
     w_publicKey := w_publicKey w;
     w_path := w_path w;
     w_mnemonic := w_mnemonic w;
     w_provider := Some p |}.

(** [ethers.TransactionRequest], as the client fills it. *)
Record EthersTx := {
  tx_to : string;
  tx_from : option string;
  tx_value : Z;
  tx_data : string;
  tx_nonce : option Z;
  tx_chainId : option Z;
  tx_gasLimit : option Z;
  tx_gasPrice : option Z;
  tx_maxFeePerGas : option Z;
  tx_maxPriorityFeePerGas : option Z
}.

(** [ethers.TransactionResponse], with the outcome of its [wait()]. *)
Record SentTx := {
  st_hash : string;
  st_from : string;
  st_to : option string;
  st_value : Z;
  st_data : string;
  st_gasLimit : Z;
  st_gasPrice : option Z;
  st_maxFeePerGas : option Z;
  st_maxPriorityFeePerGas : option Z;
  st_nonce : Z;
  st_chainId : Z;
  st_wait : result (option TransactionReceipt)
}.

Record FeeData := {
  fd_gasPrice : option Z;
  fd_maxFeePerGas : option Z;
  fd_maxPriorityFeePerGas : option Z
}.

(** An [EnsResolver] with the outcomes of its two lookups. *)
Record EnsResolver := {
  rs_getAddress : result string;
  rs_getAvatar : result (option string)
}.

Record TxOptions := {
  opt_value : option Z;
  opt_gasLimit : option Z
}.

(** [ContractTransactionResponse], with the outcome of its [wait()]. *)
Record ContractTx := {
  ct_hash : string;
  ct_from : string;
  ct_to : string;
  ct_value : Z;
  ct_data : string;
  ct_wait : result (option TransactionReceipt)
}.

(** A deployed [BaseContract], with the outcomes of the calls made on it. *)
Record Deployment := {
  dp_deploymentTransaction : option string;
  dp_waitForDeployment : result unit;
  dp_getAddress : result string
}.

(** Everything the client calls outside itself. *)
Record Ethers := {
  (* [new ethers.JsonRpcProvider(url, {name, chainId})] throws this *)
  JsonRpcProvider_rejects : string -> string -> Z -> option Thrown;
  (* [new ethers.Wallet(privateKey, _)] *)
  Wallet_keys : string -> result KeyPair;
  (* [HDNodeWallet.fromMnemonic(Mnemonic.fromPhrase(phrase), path)] *)
  HDNodeWallet_fromMnemonic : string -> string -> result KeyPair;
  parseEther : string -> result Z;
  formatEther : Z -> string;
  BigInt : string -> result Z;
  wallet_sendTransaction : Wallet -> EthersTx -> result SentTx;
  provider_estimateGas : Provider -> EthersTx -> result Z;
  provider_getFeeData : Provider -> result FeeData;
  provider_resolveName : Provider -> string -> result (option string);
  (* [None] when the provider has no [getResolver] method *)
  provider_getResolver : Provider -> option (string -> result (option EnsResolver));
  (* [new ethers.Contract(address, abi, runner)] throws this *)
  Contract_rejects : string -> list any -> option Thrown;
  (* [contract[method](...params)] on a contract bound to a provider *)
  contract_call : Provider -> string -> list any -> string -> list any -> result any;
  (* [contract[method](...params, txOptions)] on a contract bound to a wallet *)
  contract_send : Wallet -> string -> list any -> string -> list any -> TxOptions -> result ContractTx;
  (* [new ethers.ContractFactory(abi, bytecode, wallet)] throws this *)
  ContractFactory_rejects : list any -> string -> option Thrown;
  (* [contractFactory.deploy(...params, {gasLimit})] *)
  factory_deploy : Wallet -> list any -> string -> list any -> option Z -> result Deployment
}.

(** ** The client state and the monad *)

Inductive Level : Type := LevelDebug | LevelInfo | LevelError.

(** One call [logger.<level>(module, category, message)]. *)
Record LogEntry := {
  log_level : Level;
  log_module : string;
  log_category : string;
  log_message : string
}.

Record EVMClient := {
  providers : gmap string Provider;
  wallets : list (string * Wallet);
  config : EVMConfig;
  currentNetwork : string
}.

(** The client object, the logger output and the transactions handed to
    [wallet.sendTransaction] (signer and request), oldest first. *)
Record World := {
  this : EVMClient;
  logger : list LogEntry;
  submitted : list (Wallet * EthersTx)
}.

Definition M (A : Type) : Type := World -> result A * World.

Definition ret {A} (a : A) : M A := fun w => (Ok a, w).

Definition bind {A B} (m : M A) (k : A -> M B) : M B :=
  fun w => match m w with
           | (Ok a, w') => k a w'
           | (Throw e, w') => (Throw e, w')
           end.

Definition throw {A} (e : Thrown) : M A := fun w => (Throw e, w).

(** [try { body } catch (error) { handler }] *)
Definition try_catch {A} (body : M A) (handler : Thrown -> M A) : M A :=
  fun w => match body w with
           | (Ok a, w') => (Ok a, w')
           | (Throw e, w') => handler e w'
           end.

(** A call into ethers or the node. *)
Definition call {A} (r : result A) : M A := fun w => (r, w).

Definition get_this : M EVMClient := fun w => (Ok (this w), w).

Definition set_this (f : EVMClient -> EVMClient) : M unit :=
  fun w => (Ok tt, {| this := f (this w); logger := logger w; submitted := submitted w |}).

Definition log (l : Level) (module category message : string) : M unit :=
  fun w => (Ok tt,
            {| this := this w;
               logger := logger w ++ [ {| log_level := l; log_module := module;
                                          log_category := category; log_message := message |} ];
               submitted := submitted w |}).

Definition submit (signer : Wallet) (tx : EthersTx) : M unit :=
  fun w => (Ok tt, {| this := this w; logger := logger w;
                      submitted := submitted w ++ [(signer, tx)] |}).

Declare Scope m_scope.
Delimit Scope m_scope with M.
Notation "x <- m ;; k" := (bind m (fun x => k))
  (at level 100, m at next level, right associativity) : m_scope.
Notation "m ;;; k" := (bind m (fun _ => k))
  (at level 100, right associativity) : m_scope.
Local Open Scope m_scope.

Fixpoint forM_ {A} (l : list A) (body : A -> M unit) : M unit :=
  match l with
  | [] => ret tt
  | x :: l' => body x ;;; forM_ l' body
  end.

Definition when (b : bool) (m : M unit) : M unit := if b then m else ret tt.

Definition with_providers (c : EVMClient) (ps : gmap string Provider) : EVMClient :=
  {| providers := ps; wallets := wallets c; config := config c;
     currentNetwork := currentNetwork c |}.

Definition with_wallets (c : EVMClient) (ws : list (string * Wallet)) : EVMClient :=
  {| providers := providers c; wallets := ws; config := config c;
     currentNetwork := currentNetwork c |}.

Definition with_config (c : EVMClient) (cfg : EVMConfig) : EVMClient :=
  {| providers := providers c; wallets := wallets c; config := cfg;
     currentNetwork := currentNetwork c |}.

Definition with_currentNetwork (c : EVMClient) (n : string) : EVMClient :=
  {| providers := providers c; wallets := wallets c; config := config c;
     currentNetwork := n |}.

Definition set_providers (f : gmap string Provider -> gmap string Provider) : M unit :=
  set_this (fun c => with_providers c (f (providers c))).

Definition set_wallets (f : list (string * Wallet) -> list (string * Wallet)) : M unit :=
  set_this (fun c => with_wallets c (f (wallets c))).

Definition set_config (f : EVMConfig -> EVMConfig) : M unit :=
  set_this (fun c => with_config c (f (config c))).

Definition set_currentNetwork (n : string) : M unit :=
  set_this (fun c => with_currentNetwork c n).

(** ** The client (client.ts) *)

(** [from ? this.wallets.get(from) : Array.from(this.wallets.values())[0]] *)
Definition selectWallet (from : option string) (ws : list (string * Wallet)) : option Wallet :=
  match truthy from with
  | Some a => OMap.get a ws
  | None => head (OMap.values ws)
  end.

Section Client.
Variable E : Ethers.

Definition new_JsonRpcProvider (url name : string) (chainId : Z) : M Provider :=
  match JsonRpcProvider_rejects E url name chainId with
  | Some e => throw e
  | None => ret {| prov_rpcUrl := url; prov_name := name; prov_chainId := chainId |}
  end.

Definition new_Wallet (privateKey : string) (provider : Provider) : M Wallet :=
  kp <- call (Wallet_keys E privateKey) ;;
  ret {| w_address := kp_address kp; w_privateKey := kp_privateKey kp;
         w_publicKey := kp_publicKey kp; w_path := None; w_mnemonic := None;
         w_provider := Some provider |}.

Definition fromMnemonic (phrase path : string) : M Wallet :=
  kp <- call (HDNodeWallet_fromMnemonic E phrase path) ;;
  ret {| w_address := kp_address kp; w_privateKey := kp_privateKey kp;
         w_publicKey := kp_publicKey kp; w_path := Some path; w_mnemonic := Some phrase;
         w_provider := None |}.

Definition new_Contract (address : string) (abi : list any) : M unit :=
  match Contract_rejects E address abi with
  | Some e => throw e
  | None => ret tt
  end.

Definition new_ContractFactory (abi : list any) (bytecode : string) : M unit :=
  match ContractFactory_rejects E abi bytecode with
  | Some e => throw e
  | None => ret tt
  end.

(** The first loop of [initializeProviders]: common networks are added
    under the keys the configuration does not define. *)
Definition addCommonNetworks (networks : list (string * NetworkConfig))
    : list (string * NetworkConfig) :=
  fold_left (fun nets '(key, network) =>
               match OMap.get key nets with
               | None => OMap.set key network nets
               | Some _ => nets
               end) COMMON_NETWORKS networks.

(** The body of the loop that creates the providers. *)
Definition providerBody (entry : string * NetworkConfig) : M unit :=
  let '(key, network) := entry in
  try_catch
    (provider <- new_JsonRpcProvider (net_rpcUrl network) (net_name network) (net_chainId network) ;;
     set_providers (insert key provider) ;;;
     log LevelDebug "EVM Client" "Provider" ("Initialized provider for " +:+ net_name network))
    (fun error =>
     log LevelError "EVM Client" "Provider"
       ("Failed to initialize provider for " +:+ net_name network +:+ ": " +:+ toString error)).

Definition initializeProviders : M unit :=
  c <- get_this ;;
  let networks := addCommonNetworks (default [] (cfg_networks (config c))) in
  (* [networks] aliases [this.config.networks] when that is defined *)
  match cfg_networks (config c) with
  | Some _ => set_config (fun cfg => with_networks cfg (Some networks))
  | None => ret tt
  end ;;;
  forM_ networks providerBody.

Definition getProvider (network : option string) : M Provider :=
  c <- get_this ;;
  let networkKey := orElse network (currentNetwork c) in
  match providers c !! networkKey with
  | None => throw (Error ("Provider not found for network: " +:+ networkKey))
  | Some provider => ret provider
  end.

(** [this.config.hdPath || "m/44'/60'/0'/0"] *)
Definition hdPath (cfg : EVMConfig) : string :=
  orElse (cfg_hdPath cfg) "m/44'/60'/0'/0".

(** [this.config.accountIndex || 0] *)
Definition startIndex (cfg : EVMConfig) : Z :=
  default 0 (truthyZ (cfg_accountIndex cfg)).

(** [`${hdPath}/${startIndex + i}`] *)
Definition path (cfg : EVMConfig) (i : nat) : string :=
  hdPath cfg +:+ "/" +:+ pretty (startIndex cfg + Z.of_nat i).

(** The body of the loop over the private keys. *)
Definition keyBody (provider : Provider) (entry : nat * string) : M unit :=
  let '(index, privateKey) := entry in
  try_catch
    (wallet <- new_Wallet privateKey provider ;;
     set_wallets (OMap.set (w_address wallet) wallet) ;;;
     log LevelDebug "EVM Client" "Wallet"
       ("Initialized wallet " +:+ pretty index +:+ ": " +:+ w_address wallet))
    (fun error =>
     log LevelError "EVM Client" "Wallet"
       ("Failed to initialize wallet from private key: " +:+ toString error)).

(** First block of [initializeWallets]: one wallet per configured key. *)
Definition initializeFromPrivateKeys (provider : Provider) : M unit :=
  c <- get_this ;;
  match cfg_privateKeys (config c) with
  | Some privateKeys =>
      if bool_decide (0 < length privateKeys)%nat then
        forM_ (imap pair privateKeys) (keyBody provider)
      else ret tt
  | None => ret tt
  end.

(** The body of the loop over the ten HD indices. *)
Definition hdBody (provider : Provider) (mnemonic : string) (cfg : EVMConfig) (i : nat)
    : M unit :=
  node <- fromMnemonic mnemonic (path cfg i) ;;
  let wallet := connect node provider in
  set_wallets (OMap.set (w_address wallet) wallet) ;;;
  log LevelDebug "EVM Client" "HD Wallet"
    ("Initialized HD wallet " +:+ pretty i +:+ ": " +:+ w_address wallet
       +:+ " (" +:+ path cfg i +:+ ")").

(** Second block of [initializeWallets]: ten HD wallets from the mnemonic. *)
Definition initializeFromMnemonic (provider : Provider) : M unit :=
  c <- get_this ;;
  match truthy (cfg_mnemonic (config c)) with
  | Some mnemonic =>
      try_catch
        (forM_ (seq 0 10) (hdBody provider mnemonic (config c)))
        (fun error =>
         log LevelError "EVM Client" "HD Wallet"
           ("Failed to initialize HD wallet: " +:+ toString error))
  | None => ret tt
  end.

Definition initializeWallets : M unit :=
  provider <- getProvider None ;;
  initializeFromPrivateKeys provider ;;;
  initializeFromMnemonic provider.

Definition constructor : M unit :=
  initializeProviders ;;;
  initializeWallets.

(** The object under construction: [this.config = config],
    [this.currentNetwork = config.defaultNetwork || 'mainnet'], empty maps. *)
Definition fresh (cfg : EVMConfig) : World :=
  {| this := {| providers := ∅; wallets := []; config := cfg;
                currentNetwork := orElse (cfg_defaultNetwork cfg) "mainnet" |};
     logger := [];
     submitted := [] |}.

(** [new EVMClient(config)] *)
Definition new_EVMClient (cfg : EVMConfig) : result unit * World :=
  constructor (fresh cfg).

(** The loop re-sets keys the Map already has, which neither adds nor moves
    an entry: iterating the live Map visits the entries it had at the start. *)
Definition switchNetwork (network : string) : M unit :=
  c <- get_this ;;
  match providers c !! network with
  | None => throw (Error ("Network not configured: " +:+ network))
  | Some _ =>
      set_currentNetwork network ;;;
      log LevelInfo "EVM Client" "Network" ("Switched to network: " +:+ network) ;;;
      provider <- getProvider None ;;
      c' <- get_this ;;
      forM_ (wallets c') (fun '(address, wallet) =>
        set_wallets (OMap.set address (connect wallet provider)))
  end.

(** The fee fields of [sendTransaction]'s request object, set on [tx]. *)
Definition with_gasLimit (tx : EthersTx) (g : Z) : EthersTx :=
  {| tx_to := tx_to tx; tx_from := tx_from tx; tx_value := tx_value tx;
     tx_data := tx_data tx; tx_nonce := tx_nonce tx; tx_chainId := tx_chainId tx;
     tx_gasLimit := Some g; tx_gasPrice := tx_gasPrice tx;
     tx_maxFeePerGas := tx_maxFeePerGas tx;
     tx_maxPriorityFeePerGas := tx_maxPriorityFeePerGas tx |}.

Definition with_gasPrice (tx : EthersTx) (g : Z) : EthersTx :=
  {| tx_to := tx_to tx; tx_from := tx_from tx; tx_value := tx_value tx;
     tx_data := tx_data tx; tx_nonce := tx_nonce tx; tx_chainId := tx_chainId tx;
     tx_gasLimit := tx_gasLimit tx; tx_gasPrice := Some g;
     tx_maxFeePerGas := tx_maxFeePerGas tx;
     tx_maxPriorityFeePerGas := tx_maxPriorityFeePerGas tx |}.

Definition with_maxFeePerGas (tx : EthersTx) (g : Z) : EthersTx :=
  {| tx_to := tx_to tx; tx_from := tx_from tx; tx_value := tx_value tx;
     tx_data := tx_data tx; tx_nonce := tx_nonce tx; tx_chainId := tx_chainId tx;
     tx_gasLimit := tx_gasLimit tx; tx_gasPrice := tx_gasPrice tx;
     tx_maxFeePerGas := Some g;
     tx_maxPriorityFeePerGas := tx_maxPriorityFeePerGas tx |}.

Definition with_maxPriorityFeePerGas (tx : EthersTx) (g : Z) : EthersTx :=
  {| tx_to := tx_to tx; tx_from := tx_from tx; tx_value := tx_value tx;
     tx_data := tx_data tx; tx_nonce := tx_nonce tx; tx_chainId := tx_chainId tx;
     tx_gasLimit := tx_gasLimit tx; tx_gasPrice := tx_gasPrice tx;
     tx_maxFeePerGas := tx_maxFeePerGas tx;
     tx_maxPriorityFeePerGas := Some g |}.

(** [request.value ? ethers.parseEther(request.value) : 0] *)
Definition valueOf (value : option string) : M Z :=
  match truthy value with
  | Some v => call (parseEther E v)
  | None => ret 0
  end.

(** Lines "Build transaction" and "Set gas parameters" of [sendTransaction]. *)
Definition buildTransaction (request : TransactionRequest) : M EthersTx :=
  value <- valueOf (req_value request) ;;
  let tx := {| tx_to := req_to request; tx_from := None; tx_value := value;
               tx_data := orElse (req_data request) "0x";
               tx_nonce := req_nonce request; tx_chainId := req_chainId request;
               tx_gasLimit := None; tx_gasPrice := None;
               tx_maxFeePerGas := None; tx_maxPriorityFeePerGas := None |} in
  tx <- match truthy (req_gasLimit request) with
        | Some g => gasLimit <- call (BigInt E g) ;; ret (with_gasLimit tx gasLimit)
        | None => ret tx
        end ;;
  match truthy (req_maxFeePerGas request), truthy (req_maxPriorityFeePerGas request) with
  | Some mf, Some mp =>
      (* EIP-1559 transaction *)
      maxFeePerGas <- call (BigInt E mf) ;;
      let tx := with_maxFeePerGas tx maxFeePerGas in
      maxPriorityFeePerGas <- call (BigInt E mp) ;;
      ret (with_maxPriorityFeePerGas tx maxPriorityFeePerGas)
  | _, _ =>
      match truthy (req_gasPrice request) with
      | Some gp => gasPrice <- call (BigInt E gp) ;; ret (with_gasPrice tx gasPrice)
      | None => ret tx
      end
  end.

Definition sendTransaction (request : TransactionRequest) : M TransactionResponse :=
  provider <- getProvider None ;;
  c <- get_this ;;
  match selectWallet (req_from request) (wallets c) with
  | None => throw (Error "No wallet available for sending transaction")
  | Some wallet =>
      tx <- buildTransaction request ;;
      log LevelInfo "EVM Client" "Transaction"
        ("Sending " +:+ orElse (req_value request) "0" +:+ " ETH from " +:+ w_address wallet
           +:+ " to " +:+ req_to request) ;;;
      submit wallet tx ;;;
      txResponse <- call (wallet_sendTransaction E wallet tx) ;;
      log LevelInfo "EVM Client" "Transaction" ("Transaction sent: " +:+ st_hash txResponse) ;;;
      receipt <- call (st_wait txResponse) ;;
      log LevelInfo "EVM Client" "Transaction"
        ("Transaction confirmed in block "
           +:+ from_option (fun r => pretty (rcpt_blockNumber r)) "undefined" receipt) ;;;
      ret {| res_hash := st_hash txResponse;
             res_from := st_from txResponse;
             res_to := orElse (st_to txResponse) "";
             res_value := pretty (st_value txResponse);
             res_data := st_data txResponse;
             res_gasLimit := pretty (st_gasLimit txResponse);
             res_gasPrice := pretty <$> st_gasPrice txResponse;
             res_maxFeePerGas := pretty <$> st_maxFeePerGas txResponse;
             res_maxPriorityFeePerGas := pretty <$> st_maxPriorityFeePerGas txResponse;
             res_nonce := st_nonce txResponse;
             res_chainId := st_chainId txResponse;
             res_blockNumber := rcpt_blockNumber <$> receipt;
             res_blockHash := rcpt_blockHash <$> receipt;
             res_status := receipt ≫= rcpt_status |}
  end.

Definition estimateGas (request : TransactionRequest) : M GasEstimation :=
  provider <- getProvider None ;;
  value <- valueOf (req_value request) ;;
  let tx := {| tx_to := req_to request; tx_from := req_from request; tx_value := value;
               tx_data := orElse (req_data request) "0x";
               tx_nonce := None; tx_chainId := None;
               tx_gasLimit := None; tx_gasPrice := None;
               tx_maxFeePerGas := None; tx_maxPriorityFeePerGas := None |} in
  gasLimit <- call (provider_estimateGas E provider tx) ;;
  feeData <- call (provider_getFeeData E provider) ;;
  match truthyZ (fd_maxFeePerGas feeData), truthyZ (fd_maxPriorityFeePerGas feeData) with
  | Some maxFeePerGas, Some maxPriorityFeePerGas =>
      (* EIP-1559 *)
      ret {| ge_gasLimit := pretty gasLimit;
             ge_gasPrice := None;
             ge_maxFeePerGas := Some (pretty maxFeePerGas);
             ge_maxPriorityFeePerGas := Some (pretty maxPriorityFeePerGas);
             ge_estimatedCost := formatEther E (gasLimit * maxFeePerGas) |}
  | _, _ =>
      match truthyZ (fd_gasPrice feeData) with
      | Some gasPrice =>
          (* Legacy *)
          ret {| ge_gasLimit := pretty gasLimit;
                 ge_gasPrice := Some (pretty gasPrice);
                 ge_maxFeePerGas := None;
                 ge_maxPriorityFeePerGas := None;
                 ge_estimatedCost := formatEther E (gasLimit * gasPrice) |}
      | None =>
          ret {| ge_gasLimit := pretty gasLimit;
                 ge_gasPrice := None;
                 ge_maxFeePerGas := None;
                 ge_maxPriorityFeePerGas := None;
                 ge_estimatedCost := "0" |}
      end
  end.

Definition resolveENS (name : string) : M ENSInfo :=
  provider <- getProvider None ;;
  address <- call (provider_resolveName E provider name) ;;
  resolver <- match provider_getResolver E provider with
              | Some getResolver => call (getResolver name)
              | None => ret None
              end ;;
  let info := {| ens_name := Some name; ens_address := truthy address;
                 ens_resolver := None; ens_avatar := None |} in
  match resolver with
  | Some resolver =>
      resolverAddress <- call (rs_getAddress resolver) ;;
      let info := {| ens_name := ens_name info; ens_address := ens_address info;
                     ens_resolver := Some resolverAddress; ens_avatar := None |} in
      try_catch
        (avatar <- call (rs_getAvatar resolver) ;;
         match truthy avatar with
         | Some avatar =>
             ret {| ens_name := ens_name info; ens_address := ens_address info;
                    ens_resolver := ens_resolver info; ens_avatar := Some avatar |}
         | None => ret info
         end)
        (fun error => (* Avatar might not be set *) ret info)
  | None => ret info
  end.

Definition importWallet (privateKey : string) : M WalletInfo :=
  provider <- getProvider None ;;
  wallet <- new_Wallet privateKey provider ;;
  set_wallets (OMap.set (w_address wallet) wallet) ;;;
  ret {| wi_address := w_address wallet;
         wi_privateKey := Some (w_privateKey wallet);
         (* an [ethers.Wallet] has no [publicKey] property *)
         wi_publicKey := None;
         wi_mnemonic := None;
         wi_path := None |}.

Definition getWalletAddresses : M (list string) :=
  c <- get_this ;;
  ret (OMap.keys (wallets c)).

Definition callContract (contractAddress : string) (abi : list any) (method : string)
    (params : list any) : M ContractCallResult :=
  try_catch
    (provider <- getProvider None ;;
     new_Contract contractAddress abi ;;;
     result <- call (contract_call E provider contractAddress abi method params) ;;
     ret {| ccr_result := result; ccr_decoded := Some result; ccr_error := None |})
    (fun error =>
     ret {| ccr_result := Null; ccr_decoded := None;
            ccr_error := Some (errorMessage error) |}).

Definition sendContractTransaction (contractAddress : string) (abi : list any)
    (method : string) (params : list any)
    (from value gasLimit : option string) : M ContractTransactionResult :=
  try_catch
    (c <- get_this ;;
     match selectWallet from (wallets c) with
     | None => throw (Error "No wallet available for sending transaction")
     | Some wallet =>
         new_Contract contractAddress abi ;;;
         txValue <- match truthy value with
                    | Some v => v' <- call (parseEther E v) ;; ret (Some v')
                    | None => ret None
                    end ;;
         txGasLimit <- match truthy gasLimit with
                       | Some g => g' <- call (BigInt E g) ;; ret (Some g')
                       | None => ret None
                       end ;;
         let txOptions := {| opt_value := txValue; opt_gasLimit := txGasLimit |} in
         log LevelInfo "EVM Client" "Contract"
           ("Calling " +:+ method +:+ " on " +:+ contractAddress) ;;;
         tx <- call (contract_send E wallet contractAddress abi method params txOptions) ;;
         log LevelInfo "EVM Client" "Contract" ("Transaction sent: " +:+ ct_hash tx) ;;;
         receipt <- call (ct_wait tx) ;;
         match receipt with
         | None =>
             (* [receipt.blockNumber] on [null] *)
             throw (JsError "TypeError" "Cannot read properties of null (reading 'blockNumber')")
         | Some receipt =>
             log LevelInfo "EVM Client" "Contract"
               ("Transaction confirmed in block " +:+ pretty (rcpt_blockNumber receipt)) ;;;
             ret {| ctr_hash := ct_hash tx; ctr_from := ct_from tx; ctr_to := ct_to tx;
                    ctr_value := pretty (ct_value tx); ctr_data := ct_data tx;
                    ctr_receipt := Some receipt; ctr_error := None |}
         end
     end)
    (fun error =>
     ret {| ctr_hash := ""; ctr_from := ""; ctr_to := contractAddress;
            ctr_value := "0"; ctr_data := "0x"; ctr_receipt := None;
            ctr_error := Some (errorMessage error) |}).

Definition deployContract (abi : list any) (bytecode : string) (params : list any)
    (from gasLimit : option string) : M DeployResult :=
  c <- get_this ;;
  match selectWallet from (wallets c) with
  | None => throw (Error "No wallet available for deployment")
  | Some wallet =>
      new_ContractFactory abi bytecode ;;;
      log LevelInfo "EVM Client" "Deploy" "Deploying contract..." ;;;
      deployGasLimit <- match truthy gasLimit with
                        | Some g => g' <- call (BigInt E g) ;; ret (Some g')
                        | None => ret None
                        end ;;
      contract <- call (factory_deploy E wallet abi bytecode params deployGasLimit) ;;
      log LevelInfo "EVM Client" "Deploy"
        ("Contract deployment tx: " +:+ default "undefined" (dp_deploymentTransaction contract)) ;;;
      call (dp_waitForDeployment contract) ;;;
      address <- call (dp_getAddress contract) ;;
      log LevelInfo "EVM Client" "Deploy" ("Contract deployed at: " +:+ address) ;;;
      ret {| dep_address := address; dep_abi := abi;
             dep_transactionHash := orElse (dp_deploymentTransaction contract) "" |}
  end.
End Client.

(** * Vocabulary of the statements *)

(** Every wallet of the pool connected to [p], keys and order unchanged. *)
Definition rebind (p : Provider) (ws : list (string * Wallet)) : list (string * Wallet) :=
  prod_map id (fun wallet => connect wallet p) <$> ws.

(** A request field is present when it is supplied and not the empty
    string: this is the test the client applies ([if (request.f)]), and a
    decimal string is never empty. *)
Definition present (o : option string) : Prop := is_Some (truthy o).

(** The request object [estimateGas] hands to the node. *)
Definition estimateRequest (request : TransactionRequest) (value : Z) : EthersTx :=
  {| tx_to := req_to request; tx_from := req_from request; tx_value := value;
     tx_data := orElse (req_data request) "0x";
     tx_nonce := None; tx_chainId := None; tx_gasLimit := None; tx_gasPrice := None;
     tx_maxFeePerGas := None; tx_maxPriorityFeePerGas := None |}.

(** The provider constructed for [network]. *)
Definition providerOf (network : NetworkConfig) : Provider :=
  {| prov_rpcUrl := net_rpcUrl network; prov_name := net_name network;
     prov_chainId := net_chainId network |}.

(** What constructing the provider of [network] throws, if anything. *)
Definition rejected (E : Ethers) (network : NetworkConfig) : option Thrown :=
  JsonRpcProvider_rejects E (net_rpcUrl network) (net_name network) (net_chainId network).

(** The log entry for a provider that could not be constructed. *)
Definition providerFailure (network : NetworkConfig) (e : Thrown) : LogEntry :=
  {| log_level := LevelError; log_module := "EVM Client"; log_category := "Provider";
     log_message := "Failed to initialize provider for " +:+ net_name network
                      +:+ ": " +:+ toString e |}.

(** What one iteration of the provider loop logs. *)
Definition providerLog (E : Ethers) (entry : string * NetworkConfig) : LogEntry :=
  match rejected E entry.2 with
  | None => {| log_level := LevelDebug; log_module := "EVM Client";
               log_category := "Provider";
               log_message := "Initialized provider for " +:+ net_name entry.2 |}
  | Some e => providerFailure entry.2 e
  end.

(** What one iteration of the provider loop does to the pool. *)
Definition addProvider (E : Ethers) (ps : gmap string Provider)
    (entry : string * NetworkConfig) : gmap string Provider :=
  match rejected E entry.2 with
  | None => <[entry.1 := providerOf entry.2]> ps
  | Some _ => ps
  end.

(** One iteration of the second loop of [initializeProviders]. *)
Definition providerStep (E : Ethers) (entry : string * NetworkConfig) (w : World) : World :=
  {| this := with_providers (this w) (addProvider E (providers (this w)) entry);
     logger := logger w ++ [providerLog E entry];
     submitted := submitted w |}.

(** [w'] has the providers, cursor, configuration and submissions of [w],
    and at least its log. *)
Definition extends (w w' : World) : Prop :=
  providers (this w') = providers (this w)
  /\ currentNetwork (this w') = currentNetwork (this w)
  /\ config (this w') = config (this w)
  /\ submitted w' = submitted w
  /\ forall entry, entry ∈ logger w -> entry ∈ logger w'.

(** The networks a client for [cfg] creates providers for. *)
Definition registry (cfg : EVMConfig) : list (string * NetworkConfig) :=
  addCommonNetworks (default [] (cfg_networks cfg)).

(** The state after [initializeProviders], for a client under construction. *)
Definition connected (E : Ethers) (cfg : EVMConfig) : World :=
  {| this := {| providers := fold_left (addProvider E) (registry cfg) ∅;
                wallets := [];
                config := match cfg_networks cfg with
                          | Some _ => with_networks cfg (Some (registry cfg))
                          | None => cfg
                          end;
                currentNetwork := orElse (cfg_defaultNetwork cfg) "mainnet" |};
     logger := providerLog E <$> registry cfg;
     submitted := [] |}.

(** The log entry for a private key that ethers refuses. *)
Definition keyFailure (e : Thrown) : LogEntry :=
  {| log_level := LevelError; log_module := "EVM Client"; log_category := "Wallet";
     log_message := "Failed to initialize wallet from private key: " +:+ toString e |}.

(** Unique keys in the pool of [w] give unique keys in the pool of [w']. *)
Definition unique_after (w w' : World) : Prop :=
  NoDup (OMap.keys (wallets (this w))) -> NoDup (OMap.keys (wallets (this w'))).

(** The pool holds, under [address], a wallet with that address that is
    connected to [provider]. *)
Definition holds (provider : Provider) (address : string) (w : World) : Prop :=
  exists wallet,
    OMap.get address (wallets (this w)) = Some wallet
    /\ w_address wallet = address
    /\ w_provider wallet = Some provider.

(** The wallet derived at [path], connected to [provider]. *)
Definition hdWallet (kp : KeyPair) (mnemonic path : string) (provider : Provider) : Wallet :=
  {| w_address := kp_address kp; w_privateKey := kp_privateKey kp;
     w_publicKey := kp_publicKey kp; w_path := Some path; w_mnemonic := Some mnemonic;
     w_provider := Some provider |}.

(** The log entry for the HD wallet derived at position [i]. *)
Definition hdLog (cfg : EVMConfig) (kp : nat -> KeyPair) (i : nat) : LogEntry :=
  {| log_level := LevelDebug; log_module := "EVM Client"; log_category := "HD Wallet";
     log_message := "Initialized HD wallet " +:+ pretty i +:+ ": " +:+ kp_address (kp i)
                      +:+ " (" +:+ path cfg i +:+ ")" |}.

(** The log entry for a derivation that throws. *)
Definition hdFailure (e : Thrown) : LogEntry :=
  {| log_level := LevelError; log_module := "EVM Client"; log_category := "HD Wallet";
     log_message := "Failed to initialize HD wallet: " +:+ toString e |}.

(** The pool after setting the wallets derived at [indices], in order. *)
Definition hdPool (provider : Provider) (mnemonic : string) (cfg : EVMConfig)
    (kp : nat -> KeyPair) (indices : list nat) (ws : list (string * Wallet))
    : list (string * Wallet) :=
  fold_left (fun ws i =>
               OMap.set (kp_address (kp i)) (hdWallet (kp i) mnemonic (path cfg i) provider) ws)
            indices ws.

(** The keys of a pool after setting the [addresses], in order. *)
Definition keysAfter (addresses : list string) (ks : list string) : list string :=
  fold_left (fun ks a => if decide (a ∈ ks) then ks else ks ++ [a]) addresses ks.

(** The transaction [sendTransaction] hands to the signer for [request],
    given the converted value and the converted gas fields. *)
Definition transactionOf (request : TransactionRequest) (value : Z)
    (gasLimit gasPrice maxFeePerGas maxPriorityFeePerGas : option Z) : EthersTx :=
  {| tx_to := req_to request; tx_from := None; tx_value := value;
     tx_data := orElse (req_data request) "0x";
     tx_nonce := req_nonce request; tx_chainId := req_chainId request;
     tx_gasLimit := gasLimit; tx_gasPrice := gasPrice;
     tx_maxFeePerGas := maxFeePerGas; tx_maxPriorityFeePerGas := maxPriorityFeePerGas |}.

(** [BigInt] turns the request field into [z]: a present field converts to
    the number in [z], an absent field gives no number. *)
Definition converted (E : Ethers) (field : option string) (z : option Z) : Prop :=
  match truthy field with
  | Some s => exists n, BigInt E s = Ok n /\ z = Some n
  | None => z = None
  end.

(** The wallet [new ethers.Wallet(privateKey, provider)] is for the keys
    [kp]. *)
Definition keyWallet (kp : KeyPair) (provider : Provider) : Wallet :=
  {| w_address := kp_address kp; w_privateKey := kp_privateKey kp;
     w_publicKey := kp_publicKey kp; w_path := None; w_mnemonic := None;
     w_provider := Some provider |}.

(** The keys of the private keys that ethers accepts, in order. *)
Definition accepted (E : Ethers) (privateKeys : list string) : list KeyPair :=
  omap (fun privateKey => match Wallet_keys E privateKey with
                          | Ok kp => Some kp
                          | Throw _ => None
                          end) privateKeys.

(** The pool after setting the wallets of [kps], in order. *)
Definition keyPool (provider : Provider) (kps : list KeyPair) (ws : list (string * Wallet))
    : list (string * Wallet) :=
  fold_left (fun ws kp => OMap.set (kp_address kp) (keyWallet kp provider) ws) kps ws.

(** What the iteration for the private key at [index] logs. *)
Definition keyLog (E : Ethers) (index : nat) (privateKey : string) : LogEntry :=
  match Wallet_keys E privateKey with
  | Ok kp => {| log_level := LevelDebug; log_module := "EVM Client";
                log_category := "Wallet";
                log_message := "Initialized wallet " +:+ pretty index +:+ ": "
                                 +:+ kp_address kp |}
  | Throw e => keyFailure e
  end.

(** The state after the loop over [privateKeys], started in [w]. *)
Definition afterKeys (E : Ethers) (provider : Provider) (privateKeys : list string)
    (w : World) : World :=
  {| this := with_wallets (this w)
               (keyPool provider (accepted E privateKeys) (wallets (this w)));
     logger := logger w ++ imap (keyLog E) privateKeys;
     submitted := submitted w |}.

(** ** A test double for ethers and the node

    Used to run the client on concrete inputs: hardhat's well-known test
    mnemonic and accounts, a node that answers every query, a provider
    constructor that refuses a chain id that is not a safe integer (as the
    [Network] object of ethers does, and as it does not refuse any URL), and
    an ENS resolver lookup that fails for one unreachable name. *)

Module Stub.

Definition digit (a : Ascii.ascii) : option Z :=
  let n := Z.of_N (Ascii.N_of_ascii a) in
  if bool_decide (48 <= n <= 57) then Some (n - 48) else None.

Fixpoint digits (acc : Z) (s : string) : option Z :=
  match s with
  | "" => Some acc
  | String a s' => d ← digit a; digits (10 * acc + d) s'
  end.

(** Decimal strings only. *)
Definition bigint (s : string) : result Z :=
  match s with
  | "" => Ok 0
  | _ => match digits 0 s with
         | Some z => Ok z
         | None => Throw (JsError "SyntaxError" ("Cannot convert " +:+ s +:+ " to a BigInt"))
         end
  end.

Fixpoint splitDot (s : string) : string * option string :=
  match s with
  | "" => ("", None)
  | String "." s' => ("", Some s')
  | String a s' => let '(i, f) := splitDot s' in (String a i, f)
  end.

Definition ether (s : string) : result Z :=
  let bad := Throw (JsError "TypeError" "invalid FixedNumber string value") in
  let '(i, f) := splitDot s in
  let f := default "" f in
  if bool_decide (18 < String.length f)%nat then bad
  else if bool_decide (s = "" ∨ s = ".") then bad
  else match digits 0 i, digits 0 f with
       | Some a, Some b => Ok (a * 10 ^ 18 + b * 10 ^ (18 - Z.of_nat (String.length f)))
       | _, _ => bad
       end.

Fixpoint stripZeros (rev : list Ascii.ascii) : list Ascii.ascii :=
  match rev with
  | "0"%char :: (_ :: _) as r => stripZeros r
  | r => r
  end.

(** Non-negative amounts only. *)
Definition format (z : Z) : string :=
  let whole := z / 10 ^ 18 in
  let frac := pretty (10 ^ 18 + z mod 10 ^ 18) in
  let fracDigits := match frac with String _ r => r | "" => "" end in
  pretty whole +:+ "."
    +:+ String.string_of_list_ascii (rev (stripZeros (rev (String.list_ascii_of_string fracDigits)))).

Definition mnemonic : string :=
  "test test test test test test test test test test test junk".

Definition account0 : KeyPair :=
  {| kp_address := "0xf39Fd6e51aad88F6F4ce6aB8827279cffFb92266";
     kp_privateKey := "0xac0974bec39a17e36ba4a6b4d238ff944bacb478cbed5efcae784d7bf4f2ff80";
     kp_publicKey := "0x038318535b54105d4a7aae60c08fc45f9687181b4fdfc625bd1a753fa7397fed75" |}.

Definition account1 : KeyPair :=
  {| kp_address := "0x70997970C51812dc3A010C7d01b50e0d17dc79C8";
     kp_privateKey := "0x59c6995e998f97a5a0044966f0945389dc9e86dae88c7a8412f4603b6b78690d";
     kp_publicKey := "0x02ba5734d8f7091719471e7f7ed6b9df170dc70cc661ca05e688601ad984f068b0" |}.

(** An account that stands for the keys derived at [path]. *)
Definition derived (path : string) (address : string) : KeyPair :=
  {| kp_address := address;
     kp_privateKey := "0x" +:+ "key of " +:+ path;
     kp_publicKey := "0x" +:+ "public key of " +:+ path |}.

Definition keysOf (privateKey : string) : result KeyPair :=
  if decide (privateKey = kp_privateKey account0) then Ok account0
  else if decide (privateKey = kp_privateKey account1) then Ok account1
  else Throw (JsError "TypeError" "invalid private key").

(** The ten hardhat accounts, and the last two indices below 2^31; an
    index of 2^31 or more is not a valid unhardened path component. *)
Definition hdTable : list (string * KeyPair) :=
  [ ("m/44'/60'/0'/0/0", account0);
    ("m/44'/60'/0'/0/1", account1);
    ("m/44'/60'/0'/0/2", derived "m/44'/60'/0'/0/2" "0x3C44CdDdB6a900fa2b585dd299e03d12FA4293BC");
    ("m/44'/60'/0'/0/3", derived "m/44'/60'/0'/0/3" "0x90F79bf6EB2c4f870365E785982E1f101E93b906");
    ("m/44'/60'/0'/0/4", derived "m/44'/60'/0'/0/4" "0x15d34AAf54267DB7D7c367839AAf71A00a2C6A65");
    ("m/44'/60'/0'/0/5", derived "m/44'/60'/0'/0/5" "0x9965507D1a55bcC2695C58ba16FB37d819B0A4dc");
    ("m/44'/60'/0'/0/6", derived "m/44'/60'/0'/0/6" "0x976EA74026E726554dB657fA54763abd0C3a0aa9");
    ("m/44'/60'/0'/0/7", derived "m/44'/60'/0'/0/7" "0x14dC79964da2C08b23698B3D3cc7Ca32193d9955");
    ("m/44'/60'/0'/0/8", derived "m/44'/60'/0'/0/8" "0x23618e81E3f5cdF7f54C3d65f7FBc0aBf5B21E8f");
    ("m/44'/60'/0'/0/9", derived "m/44'/60'/0'/0/9" "0xa0Ee7A142d267C1f36714E4a8F75612F20a79720");
    ("m/44'/60'/0'/0/2147483646", derived "m/44'/60'/0'/0/2147483646" "0x1CBd3b2770909D4e10f157cABC84C7264073C9Ec");
    ("m/44'/60'/0'/0/2147483647", derived "m/44'/60'/0'/0/2147483647" "0xdF3e18d64BC6A983f673Ab319CCaE4f1a57C7097") ].

Definition derive (phrase path : string) : result KeyPair :=
  if decide (phrase = mnemonic) then
    match OMap.get path hdTable with
    | Some kp => Ok kp
    | None => Throw (JsError "TypeError" ("invalid path index: " +:+ path))
    end
  else Throw (JsError "TypeError" "invalid mnemonic").

(** The chain id of a network must lie within the safe integers; the URL is
    not looked at when the provider is constructed. *)
Definition rejects (url name : string) (chainId : Z) : option Thrown :=
  if bool_decide (- (2 ^ 53 - 1) <= chainId <= 2 ^ 53 - 1) then None
  else Some (JsError "TypeError" "overflow").

Definition receipt : TransactionReceipt :=
  {| rcpt_blockNumber := 1;
     rcpt_blockHash := "0xb10c";
     rcpt_status := Some 1 |}.

Definition send (wallet : Wallet) (tx : EthersTx) : result SentTx :=
  Ok {| st_hash := "0x7a";
        st_from := w_address wallet;
        st_to := Some (tx_to tx);
        st_value := tx_value tx;
        st_data := tx_data tx;
        st_gasLimit := default 21000 (tx_gasLimit tx);
        st_gasPrice := tx_gasPrice tx;
        st_maxFeePerGas := tx_maxFeePerGas tx;
        st_maxPriorityFeePerGas := tx_maxPriorityFeePerGas tx;
        st_nonce := default 0 (tx_nonce tx);
        st_chainId := from_option prov_chainId 1 (w_provider wallet);
        st_wait := Ok (Some receipt) |}.

Definition resolver : EnsResolver :=
  {| rs_getAddress := Ok "0x231b0Ee14048e9dCcD1d247744d114a4EB5E8E63";
     rs_getAvatar := Throw (JsError "Error" "unsupported avatar") |}.

Definition getResolver (name : string) : result (option EnsResolver) :=
  if decide (name = "unreachable.eth") then Throw (JsError "Error" "could not detect network")
  else Ok (Some resolver).

Definition ethers : Ethers :=
  {| JsonRpcProvider_rejects := rejects;
     Wallet_keys := keysOf;
     HDNodeWallet_fromMnemonic := derive;
     parseEther := ether;
     formatEther := format;
     BigInt := bigint;
     wallet_sendTransaction := send;
     provider_estimateGas := fun _ _ => Ok 21000;
     provider_getFeeData := fun _ =>
       Ok {| fd_gasPrice := Some 20000000000;
             fd_maxFeePerGas := Some 40000000000;
             fd_maxPriorityFeePerGas := Some 1000000000 |};
     provider_resolveName := fun _ _ => Ok (Some "0xd8dA6BF26964aF9D7eEd9e03E53415D37aA96045");
     provider_getResolver := fun _ => Some getResolver;
     Contract_rejects := fun _ _ => None;
     contract_call := fun _ _ _ method _ =>
       if decide (method = "balanceOf") then Ok (Num 0)
       else Throw (JsError "Error" "execution reverted");
     contract_send := fun wallet address _ method _ options =>
       if decide (method = "transfer") then
         Ok {| ct_hash := "0x7b"; ct_from := w_address wallet; ct_to := address;
               ct_value := default 0 (opt_value options); ct_data := "0xa9059cbb";
               ct_wait := Ok (Some receipt) |}
       else Throw (JsError "Error" "execution reverted");
     ContractFactory_rejects := fun _ _ => None;
     factory_deploy := fun _ _ _ _ _ =>
       Ok {| dp_deploymentTransaction := Some "0x7c";
             dp_waitForDeployment := Ok tt;
             dp_getAddress := Ok "0x5FbDB2315678afecb367f032d93F642f64180aa3" |} |}.

Definition emptyConfig : EVMConfig :=
  {| cfg_networks := None; cfg_defaultNetwork := None; cfg_privateKeys := None;
     cfg_mnemonic := None; cfg_hdPath := None; cfg_accountIndex := None;
     cfg_providerTimeout := None; cfg_defaultGasLimit := None;
     cfg_defaultGasPrice := None; cfg_maxFeePerGas := None;
     cfg_maxPriorityFeePerGas := None |}.

End Stub.

(** ** Concrete configurations, clients and requests *)

Module Scenario.

Definition mainnet : Provider :=
  {| prov_rpcUrl := "https://eth.llamarpc.com"; prov_name := "Ethereum Mainnet";
     prov_chainId := 1 |}.

Definition polygon : Provider :=
  {| prov_rpcUrl := "https://polygon-rpc.com"; prov_name := "Polygon Mainnet";
     prov_chainId := 137 |}.

(** Two good keys around a malformed one. *)
Definition keysConfig : EVMConfig :=
  {| cfg_networks := None; cfg_defaultNetwork := None;
     cfg_privateKeys := Some [kp_privateKey Stub.account0; "0x1234";
                              kp_privateKey Stub.account1];
     cfg_mnemonic := None; cfg_hdPath := None; cfg_accountIndex := None;
     cfg_providerTimeout := None; cfg_defaultGasLimit := None;
     cfg_defaultGasPrice := None; cfg_maxFeePerGas := None;
     cfg_maxPriorityFeePerGas := None |}.

(** The test mnemonic with the default path and index. *)
Definition hdConfig : EVMConfig :=
  {| cfg_networks := None; cfg_defaultNetwork := None; cfg_privateKeys := None;
     cfg_mnemonic := Some Stub.mnemonic; cfg_hdPath := None; cfg_accountIndex := None;
     cfg_providerTimeout := None; cfg_defaultGasLimit := None;
     cfg_defaultGasPrice := None; cfg_maxFeePerGas := None;
     cfg_maxPriorityFeePerGas := None |}.

(** The test mnemonic, starting two indices below 2^31. *)
Definition lastIndicesConfig : EVMConfig :=
  {| cfg_networks := None; cfg_defaultNetwork := None; cfg_privateKeys := None;
     cfg_mnemonic := Some Stub.mnemonic; cfg_hdPath := None;
     cfg_accountIndex := Some 2147483646;
     cfg_providerTimeout := None; cfg_defaultGasLimit := None;
     cfg_defaultGasPrice := None; cfg_maxFeePerGas := None;
     cfg_maxPriorityFeePerGas := None |}.

(** A network whose chain id, 2^53, is not a safe integer. *)
Definition broken (name rpcUrl : string) : NetworkConfig :=
  {| net_name := name; net_chainId := 9007199254740992; net_rpcUrl := rpcUrl;
     net_nativeCurrency := None; net_blockExplorer := None |}.

(** The polygon network overridden by one whose provider cannot be
    constructed. *)
Definition brokenPolygonConfig : EVMConfig :=
  {| cfg_networks := Some [("polygon", broken "Polygon" "https://polygon-rpc.com")];
     cfg_defaultNetwork := None; cfg_privateKeys := None;
     cfg_mnemonic := None; cfg_hdPath := None; cfg_accountIndex := None;
     cfg_providerTimeout := None; cfg_defaultGasLimit := None;
     cfg_defaultGasPrice := None; cfg_maxFeePerGas := None;
     cfg_maxPriorityFeePerGas := None |}.

(** The default network overridden by one whose provider cannot be
    constructed. *)
Definition brokenMainnetConfig : EVMConfig :=
  {| cfg_networks := Some [("mainnet", broken "Mainnet" "https://eth.llamarpc.com")];
     cfg_defaultNetwork := None; cfg_privateKeys := None;
     cfg_mnemonic := None; cfg_hdPath := None; cfg_accountIndex := None;
     cfg_providerTimeout := None; cfg_defaultGasLimit := None;
     cfg_defaultGasPrice := None; cfg_maxFeePerGas := None;
     cfg_maxPriorityFeePerGas := None |}.

(** A default network that is neither configured nor a common network. *)
Definition unregisteredDefaultConfig : EVMConfig :=
  {| cfg_networks := None;
     cfg_defaultNetwork := Some "goerli"; cfg_privateKeys := None;
     cfg_mnemonic := None; cfg_hdPath := None; cfg_accountIndex := None;
     cfg_providerTimeout := None; cfg_defaultGasLimit := None;
     cfg_defaultGasPrice := None; cfg_maxFeePerGas := None;
     cfg_maxPriorityFeePerGas := None |}.

(** A client without wallets, and one with the wallets of [keysConfig]. *)
Definition emptyClient : World := (new_EVMClient Stub.ethers Stub.emptyConfig).2.
Definition client : World := (new_EVMClient Stub.ethers keysConfig).2.

Definition signer : Wallet :=
  {| w_address := kp_address Stub.account0;
     w_privateKey := kp_privateKey Stub.account0;
     w_publicKey := kp_publicKey Stub.account0;
     w_path := None; w_mnemonic := None; w_provider := Some mainnet |}.

(** A transfer of 0.1 with both a legacy price and the fee pair. *)
Definition request : TransactionRequest :=
  {| req_to := kp_address Stub.account1; req_from := None; req_value := Some "0.1";
     req_data := None; req_gasLimit := None; req_gasPrice := Some "5";
     req_maxFeePerGas := Some "10"; req_maxPriorityFeePerGas := Some "1";
     req_nonce := None; req_chainId := None |}.

Definition built : EthersTx :=
  {| tx_to := kp_address Stub.account1; tx_from := None;
     tx_value := 100000000000000000; tx_data := "0x";
     tx_nonce := None; tx_chainId := None; tx_gasLimit := None; tx_gasPrice := None;
     tx_maxFeePerGas := Some 10; tx_maxPriorityFeePerGas := Some 1 |}.

(** The same transfer with a gas limit and a legacy price only, and the
    transaction built for it. *)
Definition legacy : TransactionRequest :=
  {| req_to := kp_address Stub.account1; req_from := None; req_value := Some "0.1";
     req_data := None; req_gasLimit := Some "21000"; req_gasPrice := Some "5";
     req_maxFeePerGas := Some "10"; req_maxPriorityFeePerGas := None;
     req_nonce := None; req_chainId := None |}.

Definition builtLegacy : EthersTx :=
  {| tx_to := kp_address Stub.account1; tx_from := None;
     tx_value := 100000000000000000; tx_data := "0x";
     tx_nonce := None; tx_chainId := None; tx_gasLimit := Some 21000;
     tx_gasPrice := Some 5; tx_maxFeePerGas := None; tx_maxPriorityFeePerGas := None |}.

(** The transaction built for a transfer without any fee field. *)
Definition builtPlain : EthersTx :=
  {| tx_to := kp_address Stub.account1; tx_from := None;
     tx_value := 100000000000000000; tx_data := "0x";
     tx_nonce := None; tx_chainId := None; tx_gasLimit := None;
     tx_gasPrice := None; tx_maxFeePerGas := None; tx_maxPriorityFeePerGas := None |}.

(** A plain transfer, optionally from a given address. *)
Definition transfer (from : option string) : TransactionRequest :=
  {| req_to := kp_address Stub.account1; req_from := from; req_value := Some "0.1";
     req_data := None; req_gasLimit := None; req_gasPrice := None;
     req_maxFeePerGas := None; req_maxPriorityFeePerGas := None;
     req_nonce := None; req_chainId := None |}.

(** The keys the test double derives at position [i] for [cfg]. *)
Definition hdKeys (cfg : EVMConfig) (i : nat) : KeyPair :=
  match Stub.derive Stub.mnemonic (path cfg i) with
  | Ok kp => kp
  | Throw _ => Stub.account0
  end.

(** The states in which the wallets of these configurations are initialized. *)
Definition keysStart : World := connected Stub.ethers keysConfig.
Definition hdStart : World := connected Stub.ethers hdConfig.
Definition lastIndicesStart : World := connected Stub.ethers lastIndicesConfig.

(** The address of account 0 as ethers reports it, and in lower case. *)
Definition checksummed : string := "0xf39Fd6e51aad88F6F4ce6aB8827279cffFb92266".
Definition lowercased : string := "0xf39fd6e51aad88f6f4ce6ab8827279cfffb92266".

(** ASCII lower case, for comparing addresses up to letter case. *)
Definition lowerChar (a : Ascii.ascii) : Ascii.ascii :=
  let n := Ascii.N_of_ascii a in
  if bool_decide (65 <= n <= 90)%N then Ascii.ascii_of_N (n + 32) else a.

Fixpoint lower (s : string) : string :=
  match s with
  | "" => ""
  | String a s' => String (lowerChar a) (lower s')
  end.

End Scenario.

(** * The rest of the client, and the plugin around it *)

(** ** Further types (types.ts) and node answers *)

Record AccountBalance := {
  ab_address : string;
  ab_balance : string;
  ab_formattedBalance : string;
  ab_nonce : Z
}.

Record BlockInfo := {
  bi_number : Z;
  bi_hash : string;
  bi_parentHash : string;
  bi_timestamp : Z;
  bi_gasLimit : string;
  bi_gasUsed : string;
  bi_baseFeePerGas : option string;
  bi_transactions : list string
}.

Record EventLog := {
  el_address : string;
  el_topics : list string;
  el_data : string;
  el_blockNumber : Z;
  el_transactionHash : string;
  el_transactionIndex : Z;
  el_logIndex : Z;
  el_removed : bool;
  el_event : option string;
  el_args : option (list any)
}.

(** The result of [getGasPrices]. *)
Record GasPrices := {
  gp_gasPrice : option string;
  gp_maxFeePerGas : option string;
  gp_maxPriorityFeePerGas : option string
}.

(** The argument of [provider.getBlock]: a block number or ['latest']. *)
Inductive BlockTag : Type :=
  | Latest
  | BlockNumber (n : Z).

(** [ethers.Block], as far as the client reads it. *)
Record Block := {
  blk_number : Z;
  blk_hash : option string;
  blk_parentHash : string;
  blk_timestamp : Z;
  blk_gasLimit : Z;
  blk_gasUsed : Z;
  blk_baseFeePerGas : option Z;
  blk_transactions : list string
}.

(** [ethers.Log], as far as the client reads it. *)
Record Log := {
  lg_address : string;
  lg_topics : list string;
  lg_data : string;
  lg_blockNumber : Z;
  lg_transactionHash : string;
  lg_transactionIndex : Z;
  lg_index : Z;
  lg_removed : bool
}.

(** [ethers.Filter]; the client hands it to the node as it is. *)
Record Filter := {
  flt_address : option string;
  flt_fromBlock : option Z;
  flt_toBlock : option Z;
  flt_topics : option (list string)
}.

(** What the remaining operations call outside the client. *)
Record Node := {
  (* the chain id of [await provider.getNetwork()] *)
  provider_getNetwork : Provider -> result Z;
  provider_getBalance : Provider -> string -> result Z;
  provider_getTransactionCount : Provider -> string -> result Z;
  provider_getBlock : Provider -> BlockTag -> result (option Block);
  provider_getTransaction : Provider -> string -> result (option SentTx);
  provider_getLogs : Provider -> Filter -> result (list Log);
  provider_waitForTransaction : Provider -> string -> Z -> result (option TransactionReceipt);
  wallet_signMessage : Wallet -> string -> result string;
  ethers_verifyMessage : string -> string -> result string
}.

(** ** The remaining operations of the client (client.ts) *)

(** The own properties of a JS object enumerate with the array indices
    first (the canonical decimal strings below 2^32 - 1), in ascending order,
    and then the other keys in the order in which they were created. *)
Fixpoint natural (acc : N) (s : string) : option N :=
  match s with
  | "" => Some acc
  | String a s' =>
      let d := Ascii.N_of_ascii a in
      if bool_decide (48 <= d <= 57)%N then natural (10 * acc + (d - 48)) s' else None
  end.

Definition arrayIndex (key : string) : option N :=
  match key with
  | "" => None
  | _ =>
      match natural 0 key with
      | Some n => if bool_decide (pretty n = key /\ (n < 2 ^ 32 - 1)%N) then Some n else None
      | None => None
      end
  end.

(** Where a new array index [i] goes in an object. *)
Fixpoint insertIndex {V} (i : N) (key : string) (value : V) (o : list (string * V))
    : list (string * V) :=
  match o with
  | [] => [(key, value)]
  | (k, v) :: o' =>
      match arrayIndex k with
      | Some j =>
          if bool_decide (j < i)%N then (k, v) :: insertIndex i key value o'
          else (key, value) :: o
      | None => (key, value) :: o
      end
  end.

(** [o[key] = value] on a plain object: an existing property keeps its
    place; a new one goes among the array indices or, otherwise, last. *)
Definition define {V} (key : string) (value : V) (o : list (string * V))
    : list (string * V) :=
  match OMap.get key o with
  | Some _ => OMap.set key value o
  | None =>
      match arrayIndex key with
      | Some i => insertIndex i key value o
      | None => o ++ [(key, value)]
      end
  end.

(** [{ ...base, ...over }]: the properties of [base], then those of [over]
    defined on the copy, in the enumeration order of [over]. *)
Definition spread {V} (base over : list (string * V)) : list (string * V) :=
  fold_left (fun acc '(key, value) => define key value acc) over base.

(** The normalized record built from a transaction and its receipt, as in
    [sendTransaction] and [getTransaction]. *)
Definition responseOf (tx : SentTx) (receipt : option TransactionReceipt)
    : TransactionResponse :=
  {| res_hash := st_hash tx;
     res_from := st_from tx;
     res_to := orElse (st_to tx) "";
     res_value := pretty (st_value tx);
     res_data := st_data tx;
     res_gasLimit := pretty (st_gasLimit tx);
     res_gasPrice := pretty <$> st_gasPrice tx;
     res_maxFeePerGas := pretty <$> st_maxFeePerGas tx;
     res_maxPriorityFeePerGas := pretty <$> st_maxPriorityFeePerGas tx;
     res_nonce := st_nonce tx;
     res_chainId := st_chainId tx;
     res_blockNumber := rcpt_blockNumber <$> receipt;
     res_blockHash := rcpt_blockHash <$> receipt;
     res_status := receipt ≫= rcpt_status |}.

Section Queries.
Variable E : Ethers.
Variable N : Node.

Definition getNetwork : M (option NetworkConfig) :=
  provider <- getProvider None ;;
  network <- call (provider_getNetwork N provider) ;;
  c <- get_this ;;
  let networks := spread COMMON_NETWORKS (default [] (cfg_networks (config c))) in
  ret (List.find (fun n => bool_decide (net_chainId n = network)) (OMap.values networks)).

Definition getBalance (address : string) : M AccountBalance :=
  provider <- getProvider None ;;
  balance <- call (provider_getBalance N provider address) ;;
  nonce <- call (provider_getTransactionCount N provider address) ;;
  ret {| ab_address := address;
         ab_balance := pretty balance;
         ab_formattedBalance := formatEther E balance;
         ab_nonce := nonce |}.

(** [blockNumber || 'latest'] *)
Definition blockTag (blockNumber : option Z) : BlockTag :=
  match truthyZ blockNumber with
  | Some n => BlockNumber n
  | None => Latest
  end.

Definition getBlock (blockNumber : option Z) : M (option BlockInfo) :=
  provider <- getProvider None ;;
  block <- call (provider_getBlock N provider (blockTag blockNumber)) ;;
  match block with
  | None => ret None
  | Some block =>
      ret (Some {| bi_number := blk_number block;
                   bi_hash := orElse (blk_hash block) "";
                   bi_parentHash := blk_parentHash block;
                   bi_timestamp := blk_timestamp block;
                   bi_gasLimit := pretty (blk_gasLimit block);
                   bi_gasUsed := pretty (blk_gasUsed block);
                   bi_baseFeePerGas := pretty <$> blk_baseFeePerGas block;
                   bi_transactions := blk_transactions block |})
  end.

Definition getTransaction (hash : string) : M (option TransactionResponse) :=
  provider <- getProvider None ;;
  tx <- call (provider_getTransaction N provider hash) ;;
  match tx with
  | None => ret None
  | Some tx =>
      receipt <- call (st_wait tx) ;;
      ret (Some (responseOf tx receipt))
  end.

Definition getLogs (filter : Filter) : M (list EventLog) :=
  provider <- getProvider None ;;
  logs <- call (provider_getLogs N provider filter) ;;
  ret ((fun log =>
          {| el_address := lg_address log;
             el_topics := lg_topics log;
             el_data := lg_data log;
             el_blockNumber := lg_blockNumber log;
             el_transactionHash := lg_transactionHash log;
             el_transactionIndex := lg_transactionIndex log;
             el_logIndex := lg_index log;
             el_removed := lg_removed log;
             el_event := None;
             el_args := None |}) <$> logs).

(** [createWallet], for the wallet [ethers.Wallet.createRandom()] returns. *)
Definition createWallet (random : Wallet) : M WalletInfo :=
  provider <- getProvider None ;;
  let connectedWallet := connect random provider in
  set_wallets (OMap.set (w_address random) connectedWallet) ;;;
  ret {| wi_address := w_address random;
         wi_privateKey := Some (w_privateKey random);
         (* [createRandom()] returns an [HDNodeWallet], which has one *)
         wi_publicKey := Some (w_publicKey random);
         wi_mnemonic := w_mnemonic random;
         wi_path := None |}.

Definition getGasPrices : M GasPrices :=
  provider <- getProvider None ;;
  feeData <- call (provider_getFeeData E provider) ;;
  ret {| gp_gasPrice := pretty <$> fd_gasPrice feeData;
         gp_maxFeePerGas := pretty <$> fd_maxFeePerGas feeData;
         gp_maxPriorityFeePerGas := pretty <$> fd_maxPriorityFeePerGas feeData |}.

(** [confirmations = 1] when omitted. *)
Definition waitForTransaction (hash : string) (confirmations : option Z)
    : M (option TransactionReceipt) :=
  provider <- getProvider None ;;
  call (provider_waitForTransaction N provider hash (default 1 confirmations)).

Definition signMessage (message : string) (address : option string) : M string :=
  c <- get_this ;;
  match selectWallet address (wallets c) with
  | None => throw (Error "No wallet available for signing")
  | Some wallet => call (wallet_signMessage N wallet message)
  end.

Definition verifyMessage (message signature : string) : M string :=
  call (ethers_verifyMessage N message signature).
End Queries.

(** ** The plugin (plugin.ts) *)

(** One entry of [properties] in a function definition's JSON schema. *)
Record SchemaProperty := {
  sp_type : option string;
  sp_description : option string;
  sp_pattern : option string;
  sp_default : option any;
  sp_enum : option (list string)
}.

Record OpenAISchema := {
  os_type : string;
  os_properties : option (list (string * SchemaProperty));
  os_required : option (list string)
}.

(** [OpenAIFunctionDefinition] *)
Record FunctionDefinition := {
  fn_name : string;
  fn_description : string;
  fn_parameters : option OpenAISchema
}.

Record ToolParameterSchema := {
  tp_name : string;
  tp_type : option string;
  tp_description : string;
  tp_required : bool;
  tp_default : option any
}.

(** A tool ([Plugin] of the framework). Its [execute] closure is not a field
    here: for the plugin's own tools it is determined by the tool's name. *)
Record Plugin := {
  pl_name : string;
  pl_description : string;
  pl_parameters : list ToolParameterSchema
}.

(** The fields of [EVMPlugin] that its tool registry reads and writes;
    [plg_config_tools] is [this.config.tools]. *)
Record EVMPlugin := {
  plg_client : option EVMClient;
  plg_evmConfig : EVMConfig;
  plg_tools : list (string * Plugin);
  plg_functionDefinitions : list (string * FunctionDefinition);
  plg_config_tools : list Plugin
}.

(** [values.join(sep)] *)
Definition join (sep : string) (values : list string) : string :=
  String.concat sep values.

(** The body of the loop of [convertOpenAISchemaToToolParameters]. *)
Definition convertParameter (requiredParams : list string) (entry : string * SchemaProperty)
    : ToolParameterSchema :=
  let '(name, prop) := entry in
  let description := orElse (sp_description prop) ("Parameter " +:+ name) in
  {| tp_name := name;
     tp_type := sp_type prop;
     tp_description :=
       match sp_enum prop with
       | Some values => description +:+ " (Allowed values: " +:+ join ", " values +:+ ")"
       | None => description
       end;
     tp_required := bool_decide (name ∈ requiredParams);
     tp_default := sp_default prop |}.

Definition convertOpenAISchemaToToolParameters (openAISchema : option OpenAISchema)
    : list ToolParameterSchema :=
  match openAISchema with
  | None => []
  | Some schema =>
      match os_properties schema with
      | None => []
      | Some properties =>
          convertParameter (default [] (os_required schema)) <$> properties
      end
  end.

(** [m.delete(k)] on an insertion-ordered map. *)
Fixpoint omap_delete {V} (k : string) (m : list (string * V)) : list (string * V) :=
  match m with
  | [] => []
  | (k', v) :: m' => if decide (k = k') then m' else (k', v) :: omap_delete k m'
  end.

(** The tool [initializeTools] builds for a function definition. *)
Definition toolOf (funcDef : FunctionDefinition) : Plugin :=
  {| pl_name := fn_name funcDef;
     pl_description := fn_description funcDef;
     pl_parameters := convertOpenAISchemaToToolParameters (fn_parameters funcDef) |}.

Definition with_tools (p : EVMPlugin) (tools : list (string * Plugin)) : EVMPlugin :=
  {| plg_client := plg_client p; plg_evmConfig := plg_evmConfig p;
     plg_tools := tools; plg_functionDefinitions := plg_functionDefinitions p;
     plg_config_tools := plg_config_tools p |}.

Definition with_functionDefinitions (p : EVMPlugin)
    (defs : list (string * FunctionDefinition)) : EVMPlugin :=
  {| plg_client := plg_client p; plg_evmConfig := plg_evmConfig p;
     plg_tools := plg_tools p; plg_functionDefinitions := defs;
     plg_config_tools := plg_config_tools p |}.

(** [this.config.tools = Array.from(this.tools.values())] *)
Definition updateConfigTools (p : EVMPlugin) : EVMPlugin :=
  {| plg_client := plg_client p; plg_evmConfig := plg_evmConfig p;
     plg_tools := plg_tools p; plg_functionDefinitions := plg_functionDefinitions p;
     plg_config_tools := OMap.values (plg_tools p) |}.

(** [initializeTools], for the list [getFunctionDefinitions()] returns. *)
Definition initializeTools (functionDefs : list FunctionDefinition) (p : EVMPlugin)
    : EVMPlugin :=
  updateConfigTools
    (fold_left (fun p funcDef =>
                  let p := with_functionDefinitions p
                             (OMap.set (fn_name funcDef) funcDef (plg_functionDefinitions p)) in
                  with_tools p (OMap.set (fn_name funcDef) (toolOf funcDef) (plg_tools p)))
               functionDefs p).

(** [new EVMPlugin(config)] with a configuration object: the fields above
    after the constructor. *)
Definition new_EVMPlugin (functionDefs : list FunctionDefinition) (config : EVMConfig)
    : EVMPlugin :=
  initializeTools functionDefs
    {| plg_client := None; plg_evmConfig := config; plg_tools := [];
       plg_functionDefinitions := []; plg_config_tools := [] |}.

Definition getTools (p : EVMPlugin) : list Plugin := OMap.values (plg_tools p).

Definition getTool (name : string) (p : EVMPlugin) : option Plugin :=
  OMap.get name (plg_tools p).

Definition registerTool (tool : Plugin) (p : EVMPlugin) : EVMPlugin :=
  updateConfigTools (with_tools p (OMap.set (pl_name tool) tool (plg_tools p))).

Definition removeTool (name : string) (p : EVMPlugin) : bool * EVMPlugin :=
  let result := OMap.has name (plg_tools p) in
  (result, updateConfigTools (with_tools p (omap_delete name (plg_tools p)))).

Definition hasTool (name : string) (p : EVMPlugin) : bool := OMap.has name (plg_tools p).

Definition getToolCount (p : EVMPlugin) : nat := length (plg_tools p).

(** [s.replace(pattern, replacement)] with a string pattern: the first
    occurrence only. *)
Fixpoint replace (pattern replacement s : string) : string :=
  if String.prefix pattern s
  then replacement +:+ String.substring (String.length pattern)
                         (String.length s - String.length pattern) s
  else match s with
       | "" => ""
       | String a s' => String a (replace pattern replacement s')
       end.

(** The cases of the [switch] in a tool's [execute]. *)
Inductive Method : Type :=
  | get_balance | send_transaction | estimate_gas | get_block | get_transaction
  | get_logs | resolve_ens | create_wallet | import_wallet | list_wallets
  | switch_network | get_network | call_contract | send_contract_transaction
  | deploy_contract | get_gas_prices | sign_message | verify_message.

Definition cases : list (string * Method) :=
  [ ("get_balance", get_balance); ("send_transaction", send_transaction);
    ("estimate_gas", estimate_gas); ("get_block", get_block);
    ("get_transaction", get_transaction); ("get_logs", get_logs);
    ("resolve_ens", resolve_ens); ("create_wallet", create_wallet);
    ("import_wallet", import_wallet); ("list_wallets", list_wallets);
    ("switch_network", switch_network); ("get_network", get_network);
    ("call_contract", call_contract);
    ("send_contract_transaction", send_contract_transaction);
    ("deploy_contract", deploy_contract); ("get_gas_prices", get_gas_prices);
    ("sign_message", sign_message); ("verify_message", verify_message) ].

(** The case [execute] takes for the tool [name]; [Throw] is the [default]
    case. *)
Definition dispatch (name : string) : result Method :=
  let methodName := replace "evm_" "" name in
  match OMap.get methodName cases with
  | Some method => Ok method
  | None => Throw (Error ("Unknown method: " +:+ methodName))
  end.

(** The double-quote character, for the descriptions that quote an example. *)
Definition dquote : string := String (Ascii.ascii_of_nat 34) EmptyString.

(** [getFunctionDefinitions()]. The [items] of an array property, which the
    plugin does not read, are left out. *)
Definition getFunctionDefinitions : list FunctionDefinition :=
  [
    {| fn_name := "evm_get_balance";
       fn_description := "Get the balance of an Ethereum address";
       fn_parameters :=
         Some {| os_type := "object";
                 os_properties := Some [
                   ("address",
                    {| sp_type := Some "string";
                       sp_description := Some "The Ethereum address to check balance for";
                       sp_pattern := Some "^0x[a-fA-F0-9]{40}$"; sp_default := None; sp_enum := None |}) ];
                 os_required := Some ["address"] |} |};
    {| fn_name := "evm_send_transaction";
       fn_description := "Send native currency (ETH, MATIC, etc.) to an address";
       fn_parameters :=
         Some {| os_type := "object";
                 os_properties := Some [
                   ("to",
                    {| sp_type := Some "string";
                       sp_description := Some "The recipient address";
                       sp_pattern := Some "^0x[a-fA-F0-9]{40}$"; sp_default := None; sp_enum := None |});
                   ("value",
                    {| sp_type := Some "string";
                       sp_description := Some ("The amount to send in ETH (e.g., " +:+ dquote +:+ "0.1" +:+ dquote +:+ ")");
                       sp_pattern := None; sp_default := None; sp_enum := None |});
                   ("from",
                    {| sp_type := Some "string";
                       sp_description := Some "The sender address (optional, uses default wallet if not specified)";
                       sp_pattern := Some "^0x[a-fA-F0-9]{40}$"; sp_default := None; sp_enum := None |});
                   ("data",
                    {| sp_type := Some "string";
                       sp_description := Some "Transaction data in hex (optional)";
                       sp_pattern := None; sp_default := None; sp_enum := None |});
                   ("gasLimit",
                    {| sp_type := Some "string";
                       sp_description := Some "Gas limit for the transaction (optional)";
                       sp_pattern := None; sp_default := None; sp_enum := None |}) ];
                 os_required := Some ["to"; "value"] |} |};
    {| fn_name := "evm_estimate_gas";
       fn_description := "Estimate gas for a transaction";
       fn_parameters :=
         Some {| os_type := "object";
                 os_properties := Some [
                   ("to",
                    {| sp_type := Some "string";
                       sp_description := Some "The recipient address";
                       sp_pattern := Some "^0x[a-fA-F0-9]{40}$"; sp_default := None; sp_enum := None |});
                   ("value",
                    {| sp_type := Some "string";
                       sp_description := Some ("The amount to send in ETH (e.g., " +:+ dquote +:+ "0.1" +:+ dquote +:+ ")");
                       sp_pattern := None; sp_default := None; sp_enum := None |});
                   ("from",
                    {| sp_type := Some "string";
                       sp_description := Some "The sender address (optional)";
                       sp_pattern := Some "^0x[a-fA-F0-9]{40}$"; sp_default := None; sp_enum := None |});
                   ("data",
                    {| sp_type := Some "string";
                       sp_description := Some "Transaction data in hex (optional)";
                       sp_pattern := None; sp_default := None; sp_enum := None |}) ];
                 os_required := Some ["to"] |} |};
    {| fn_name := "evm_get_block";
       fn_description := "Get block information";
       fn_parameters :=
         Some {| os_type := "object";
                 os_properties := Some [
                   ("blockNumber",
                    {| sp_type := Some "integer";
                       sp_description := Some "The block number (optional, defaults to latest)";
                       sp_pattern := None; sp_default := None; sp_enum := None |}) ];
                 os_required := Some [] |} |};
    {| fn_name := "evm_get_transaction";
       fn_description := "Get transaction details by hash";
       fn_parameters :=
         Some {| os_type := "object";
                 os_properties := Some [
                   ("hash",
                    {| sp_type := Some "string";
                       sp_description := Some "The transaction hash";
                       sp_pattern := Some "^0x[a-fA-F0-9]{64}$"; sp_default := None; sp_enum := None |}) ];
                 os_required := Some ["hash"] |} |};
    {| fn_name := "evm_get_logs";
       fn_description := "Get event logs";
       fn_parameters :=
         Some {| os_type := "object";
                 os_properties := Some [
                   ("address",
                    {| sp_type := Some "string";
                       sp_description := Some "The contract address";
                       sp_pattern := Some "^0x[a-fA-F0-9]{40}$"; sp_default := None; sp_enum := None |});
                   ("fromBlock",
                    {| sp_type := Some "integer";
                       sp_description := Some "Starting block number";
                       sp_pattern := None; sp_default := None; sp_enum := None |});
                   ("toBlock",
                    {| sp_type := Some "integer";
                       sp_description := Some "Ending block number";
                       sp_pattern := None; sp_default := None; sp_enum := None |});
                   ("topics",
                    {| sp_type := Some "array";
                       sp_description := Some "Array of topic filters";
                       sp_pattern := None; sp_default := None; sp_enum := None |}) ];
                 os_required := Some [] |} |};
    {| fn_name := "evm_resolve_ens";
       fn_description := "Resolve an ENS name to an address";
       fn_parameters :=
         Some {| os_type := "object";
                 os_properties := Some [
                   ("name",
                    {| sp_type := Some "string";
                       sp_description := Some ("The ENS name to resolve (e.g., " +:+ dquote +:+ "vitalik.eth" +:+ dquote +:+ ")");
                       sp_pattern := None; sp_default := None; sp_enum := None |}) ];
                 os_required := Some ["name"] |} |};
    {| fn_name := "evm_create_wallet";
       fn_description := "Create a new Ethereum wallet";
       fn_parameters :=
         Some {| os_type := "object";
                 os_properties := Some [];
                 os_required := Some [] |} |};
    {| fn_name := "evm_import_wallet";
       fn_description := "Import a wallet from private key";
       fn_parameters :=
         Some {| os_type := "object";
                 os_properties := Some [
                   ("privateKey",
                    {| sp_type := Some "string";
                       sp_description := Some "The private key to import";
                       sp_pattern := Some "^0x[a-fA-F0-9]{64}$"; sp_default := None; sp_enum := None |}) ];
                 os_required := Some ["privateKey"] |} |};
    {| fn_name := "evm_list_wallets";
       fn_description := "List all wallet addresses";
       fn_parameters :=
         Some {| os_type := "object";
                 os_properties := Some [];
                 os_required := Some [] |} |};
    {| fn_name := "evm_switch_network";
       fn_description := "Switch to a different network";
       fn_parameters :=
         Some {| os_type := "object";
                 os_properties := Some [
                   ("network",
                    {| sp_type := Some "string";
                       sp_description := Some ("The network to switch to (e.g., " +:+ dquote +:+ "mainnet" +:+ dquote +:+ ", " +:+ dquote +:+ "polygon" +:+ dquote +:+ ", " +:+ dquote +:+ "arbitrum" +:+ dquote +:+ ")");
                       sp_pattern := None; sp_default := None; sp_enum := Some (OMap.keys COMMON_NETWORKS) |}) ];
                 os_required := Some ["network"] |} |};
    {| fn_name := "evm_get_network";
       fn_description := "Get current network information";
       fn_parameters :=
         Some {| os_type := "object";
                 os_properties := Some [];
                 os_required := Some [] |} |};
    {| fn_name := "evm_call_contract";
       fn_description := "Call a smart contract method (read-only)";
       fn_parameters :=
         Some {| os_type := "object";
                 os_properties := Some [
                   ("address",
                    {| sp_type := Some "string";
                       sp_description := Some "The contract address";
                       sp_pattern := Some "^0x[a-fA-F0-9]{40}$"; sp_default := None; sp_enum := None |});
                   ("abi",
                    {| sp_type := Some "array";
                       sp_description := Some "The contract ABI";
                       sp_pattern := None; sp_default := None; sp_enum := None |});
                   ("method",
                    {| sp_type := Some "string";
                       sp_description := Some "The method name to call";
                       sp_pattern := None; sp_default := None; sp_enum := None |});
                   ("params",
                    {| sp_type := Some "array";
                       sp_description := Some "Method parameters";
                       sp_pattern := None; sp_default := Some (Json "[]"); sp_enum := None |}) ];
                 os_required := Some ["address"; "abi"; "method"] |} |};
    {| fn_name := "evm_send_contract_transaction";
       fn_description := "Send a transaction to a smart contract";
       fn_parameters :=
         Some {| os_type := "object";
                 os_properties := Some [
                   ("address",
                    {| sp_type := Some "string";
                       sp_description := Some "The contract address";
                       sp_pattern := Some "^0x[a-fA-F0-9]{40}$"; sp_default := None; sp_enum := None |});
                   ("abi",
                    {| sp_type := Some "array";
                       sp_description := Some "The contract ABI";
                       sp_pattern := None; sp_default := None; sp_enum := None |});
                   ("method",
                    {| sp_type := Some "string";
                       sp_description := Some "The method name to call";
                       sp_pattern := None; sp_default := None; sp_enum := None |});
                   ("params",
                    {| sp_type := Some "array";
                       sp_description := Some "Method parameters";
                       sp_pattern := None; sp_default := Some (Json "[]"); sp_enum := None |});
                   ("value",
                    {| sp_type := Some "string";
                       sp_description := Some "ETH value to send with transaction (optional)";
                       sp_pattern := None; sp_default := None; sp_enum := None |});
                   ("from",
                    {| sp_type := Some "string";
                       sp_description := Some "The sender address (optional)";
                       sp_pattern := Some "^0x[a-fA-F0-9]{40}$"; sp_default := None; sp_enum := None |}) ];
                 os_required := Some ["address"; "abi"; "method"] |} |};
    {| fn_name := "evm_deploy_contract";
       fn_description := "Deploy a new smart contract";
       fn_parameters :=
         Some {| os_type := "object";
                 os_properties := Some [
                   ("abi",
                    {| sp_type := Some "array";
                       sp_description := Some "The contract ABI";
                       sp_pattern := None; sp_default := None; sp_enum := None |});
                   ("bytecode",
                    {| sp_type := Some "string";
                       sp_description := Some "The contract bytecode";
                       sp_pattern := None; sp_default := None; sp_enum := None |});
                   ("params",
                    {| sp_type := Some "array";
                       sp_description := Some "Constructor parameters";
                       sp_pattern := None; sp_default := Some (Json "[]"); sp_enum := None |});
                   ("from",
                    {| sp_type := Some "string";
                       sp_description := Some "The deployer address (optional)";
                       sp_pattern := Some "^0x[a-fA-F0-9]{40}$"; sp_default := None; sp_enum := None |}) ];
                 os_required := Some ["abi"; "bytecode"] |} |};
    {| fn_name := "evm_get_gas_prices";
       fn_description := "Get current gas prices";
       fn_parameters :=
         Some {| os_type := "object";
                 os_properties := Some [];
                 os_required := Some [] |} |};
    {| fn_name := "evm_sign_message";
       fn_description := "Sign a message with a wallet";
       fn_parameters :=
         Some {| os_type := "object";
                 os_properties := Some [
                   ("message",
                    {| sp_type := Some "string";
                       sp_description := Some "The message to sign";
                       sp_pattern := None; sp_default := None; sp_enum := None |});
                   ("address",
                    {| sp_type := Some "string";
                       sp_description := Some "The address to sign with (optional)";
                       sp_pattern := Some "^0x[a-fA-F0-9]{40}$"; sp_default := None; sp_enum := None |}) ];
                 os_required := Some ["message"] |} |};
    {| fn_name := "evm_verify_message";
       fn_description := "Verify a signed message";
       fn_parameters :=
         Some {| os_type := "object";
                 os_properties := Some [
                   ("message",
                    {| sp_type := Some "string";
                       sp_description := Some "The original message";
                       sp_pattern := None; sp_default := None; sp_enum := None |});
                   ("signature",
                    {| sp_type := Some "string";
                       sp_description := Some "The signature to verify";
                       sp_pattern := None; sp_default := None; sp_enum := None |}) ];
                 os_required := Some ["message"; "signature"] |} |} ].

(** ** Vocabulary of the further statements *)

(** Every wallet of [ws] is stored under its own address and is connected
    to [p]. *)
Definition attached (p : Provider) (ws : list (string * Wallet)) : Prop :=
  forall address wallet,
    (address, wallet) ∈ ws -> w_address wallet = address /\ w_provider wallet = Some p.

(** The current network has a provider, and every wallet of the pool is
    stored once, under its own address, connected to that provider. *)
Definition bound (w : World) : Prop :=
  NoDup (OMap.keys (wallets (this w)))
  /\ exists provider,
       providers (this w) !! currentNetwork (this w) = Some provider
       /\ attached provider (wallets (this w)).

(** A fee that [getGasPrices] reports and that is not zero. *)
Definition nonzeroFee (fee : option string) : bool :=
  match fee with
  | Some s => bool_decide (s <> "0")
  | None => false
  end.

(** [w'] has the connection pool and the configuration of [w]; its log and
    its submissions start with those of [w]. *)
Definition frame (w w' : World) : Prop :=
  providers (this w') = providers (this w)
  /\ config (this w') = config (this w)
  /\ logger w `prefix_of` logger w'
  /\ submitted w `prefix_of` submitted w'.

(** One call of a public method of the client, from state [w] to [w']. *)
Inductive calls (E : Ethers) (N : Node) (w : World) : World -> Prop :=
  | calls_getProvider network : calls E N w (getProvider network w).2
  | calls_switchNetwork network : calls E N w (switchNetwork network w).2
  | calls_getNetwork : calls E N w (getNetwork N w).2
  | calls_getBalance address : calls E N w (getBalance E N address w).2
  | calls_sendTransaction request : calls E N w (sendTransaction E request w).2
  | calls_estimateGas request : calls E N w (estimateGas E request w).2
  | calls_getBlock blockNumber : calls E N w (getBlock N blockNumber w).2
  | calls_getTransaction hash : calls E N w (getTransaction N hash w).2
  | calls_getLogs filter : calls E N w (getLogs N filter w).2
  | calls_resolveENS name : calls E N w (resolveENS E name w).2
  | calls_createWallet random : calls E N w (createWallet random w).2
  | calls_importWallet privateKey : calls E N w (importWallet E privateKey w).2
  | calls_getWalletAddresses : calls E N w (getWalletAddresses w).2
  | calls_callContract address abi method params :
      calls E N w (callContract E address abi method params w).2
  | calls_sendContractTransaction address abi method params from value gasLimit :
      calls E N w (sendContractTransaction E address abi method params from value gasLimit w).2
  | calls_deployContract abi bytecode params from gasLimit :
      calls E N w (deployContract E abi bytecode params from gasLimit w).2
  | calls_getGasPrices : calls E N w (getGasPrices E w).2
  | calls_waitForTransaction hash confirmations :
      calls E N w (waitForTransaction N hash confirmations w).2
  | calls_signMessage message address : calls E N w (signMessage N message address w).2
  | calls_verifyMessage message signature :
      calls E N w (verifyMessage N message signature w).2.

(** The states of a client: the state a completed construction leaves, and
    those that calls of its methods lead to. *)
Inductive reachable (E : Ethers) (N : Node) : World -> Prop :=
  | reachable_new cfg :
      (new_EVMClient E cfg).1 = Ok tt -> reachable E N (new_EVMClient E cfg).2
  | reachable_call w w' : reachable E N w -> calls E N w w' -> reachable E N w'.

(** ** A test double for the node, and further inputs *)

Module Chain.

(** What the node holds for the transaction of [Scenario.request]. *)
Definition sent : option SentTx :=
  match Stub.send Scenario.signer Scenario.built with
  | Ok tx => Some tx
  | Throw _ => None
  end.

(** A node on the chain of its provider, which knows one transaction. *)
Definition node : Node :=
  {| provider_getNetwork := fun provider => Ok (prov_chainId provider);
     provider_getBalance := fun _ _ => Ok 1000000000000000000;
     provider_getTransactionCount := fun _ _ => Ok 0;
     provider_getBlock := fun _ _ => Ok None;
     provider_getTransaction := fun _ hash =>
       if decide (hash = "0x7a") then Ok sent else Ok None;
     provider_getLogs := fun _ _ => Ok [];
     provider_waitForTransaction := fun _ _ _ => Ok (Some Stub.receipt);
     wallet_signMessage := fun wallet message =>
       Ok ("signature of " +:+ w_address wallet +:+ " over " +:+ message);
     ethers_verifyMessage := fun _ _ => Ok (kp_address Stub.account0) |}.

End Chain.

Module Session.

(** [Scenario.client] after a switch to polygon. *)
Definition onPolygon : World := (switchNetwork "polygon" Scenario.client).2.

Definition arbitrum : Provider :=
  {| prov_rpcUrl := "https://arb1.arbitrum.io/rpc"; prov_name := "Arbitrum One";
     prov_chainId := 42161 |}.

(** The record [importWallet] returns for the key of account 1, and the
    client without wallets after that import. *)
Definition imported : WalletInfo :=
  {| wi_address := kp_address Stub.account1;
     wi_privateKey := Some (kp_privateKey Stub.account1);
     wi_publicKey := None;
     wi_mnemonic := None; wi_path := None |}.

Definition afterImport : World :=
  (importWallet Stub.ethers (kp_privateKey Stub.account1) Scenario.emptyClient).2.

(** The wallet of account 1 on mainnet. *)
Definition importedWallet : Wallet :=
  {| w_address := kp_address Stub.account1;
     w_privateKey := kp_privateKey Stub.account1;
     w_publicKey := kp_publicKey Stub.account1;
     w_path := None; w_mnemonic := None; w_provider := Some Scenario.mainnet |}.

(** A wallet as [ethers.Wallet.createRandom()] returns it: with a mnemonic
    and no provider. *)
Definition random : Wallet :=
  {| w_address := "0x3C44CdDdB6a900fa2b585dd299e03d12FA4293BC";
     w_privateKey := "0x5de4111afa1a4b94908f83103eb1f1706367c2e68ca870fc3fb9a804cdab365a";
     w_publicKey := "0x039d9031e97dd78ff8c15aa86939de9b1e791066a0224e331bc962a2099a7b1f04";
     w_path := Some "m/44'/60'/0'/0/0";
     w_mnemonic := Some "legal winner thank year wave sausage worth useful legal winner thank yellow";
     w_provider := None |}.

(** [Scenario.client] after [createWallet] returned [random]. *)
Definition afterCreate : World := (createWallet random Scenario.client).2.

(** The "mainnet" entry of the common networks. *)
Definition mainnetConfig : NetworkConfig :=
  net "Ethereum Mainnet" 1 "https://eth.llamarpc.com" "Ether" "ETH" "https://etherscan.io".

(** What [sendTransaction] returns for [Scenario.request], and the state it
    leaves. *)
Definition response : TransactionResponse :=
  {| res_hash := "0x7a";
     res_from := kp_address Stub.account0;
     res_to := kp_address Stub.account1;
     res_value := "100000000000000000";
     res_data := "0x";
     res_gasLimit := "21000";
     res_gasPrice := None;
     res_maxFeePerGas := Some "10";
     res_maxPriorityFeePerGas := Some "1";
     res_nonce := 0;
     res_chainId := 1;
     res_blockNumber := Some 1;
     res_blockHash := Some "0xb10c";
     res_status := Some 1 |}.

Definition afterSend : World := (sendTransaction Stub.ethers Scenario.request Scenario.client).2.

(** What [estimateGas] returns for [Scenario.request]. *)
Definition estimation : GasEstimation :=
  {| ge_gasLimit := "21000";
     ge_gasPrice := None;
     ge_maxFeePerGas := Some "40000000000";
     ge_maxPriorityFeePerGas := Some "1000000000";
     ge_estimatedCost := "0.00084" |}.

(** What [getGasPrices] returns on the same node. *)
Definition prices : GasPrices :=
  {| gp_gasPrice := Some "20000000000";
     gp_maxFeePerGas := Some "40000000000";
     gp_maxPriorityFeePerGas := Some "1000000000" |}.



(** The plugin as constructed, a tool of another name, and the schema of
    the tool that sends a transaction. *)
Definition plugin : EVMPlugin := new_EVMPlugin getFunctionDefinitions Stub.emptyConfig.

Definition echo : Plugin :=
  {| pl_name := "echo"; pl_description := "Returns its input"; pl_parameters := [] |}.

Definition sendSchema : option OpenAISchema :=
  d ← List.find (fun d => bool_decide (fn_name d = "evm_send_transaction"))
        getFunctionDefinitions;
  fn_parameters d.

(** The schema of the tool that switches networks, whose property has an
    [enum], and a schema whose only property has no description. *)
Definition switchSchema : option OpenAISchema :=
  d ← List.find (fun d => bool_decide (fn_name d = "evm_switch_network"))
        getFunctionDefinitions;
  fn_parameters d.

Definition bareSchema : option OpenAISchema :=
  Some {| os_type := "object";
          os_properties :=
            Some [("amount", {| sp_type := Some "string"; sp_description := None;
                                sp_pattern := None; sp_default := None;
                                sp_enum := Some ["1"; "2"] |})];
          os_required := None |}.

End Session.

(** * Properties *)

(** ** Insertion-ordered maps *)

Section OMapFacts.
Context {V : Type}.
Implicit Types (m : list (string * V)) (k : string) (v : V).

Lemma get_set k k' v m :
  OMap.get k (OMap.set k' v m) = if decide (k = k') then Some v else OMap.get k m.
Proof.
  induction m as [|[k0 v0] m IH]; simpl.
  - repeat case_decide; congruence.
  - destruct (decide (k' = k0)) as [->|Hne]; simpl.
    + destruct (decide (k = k0)); reflexivity.
    + destruct (decide (k = k0)) as [->|]; simpl.
      * destruct (decide (k0 = k')); congruence.
      * exact IH.
Qed.

Lemma get_None k m : OMap.get k m = None <-> k ∉ OMap.keys m.
Proof.
  unfold OMap.keys. induction m as [|[k0 v0] m IH]; simpl.
  - split; [intros _; apply not_elem_of_nil | reflexivity].
  - rewrite not_elem_of_cons. destruct (decide (k = k0)); split; intros H.
    + discriminate.
    + destruct H; congruence.
    + split; [assumption | apply IH, H].
    + apply IH, H.
Qed.

Lemma get_Some_elem k v m : OMap.get k m = Some v -> (k, v) ∈ m.
Proof.
  induction m as [|[k0 v0] m IH]; simpl; [discriminate|].
  destruct (decide (k = k0)) as [->|]; intros H.
  - injection H as ->. apply elem_of_cons; left; reflexivity.
  - apply elem_of_cons; right; auto.
Qed.

Lemma elem_get k v m : NoDup (OMap.keys m) -> (k, v) ∈ m -> OMap.get k m = Some v.
Proof.
  unfold OMap.keys. induction m as [|[k0 v0] m IH]; simpl; intros Hnd Hin.
  - apply elem_of_nil in Hin as [].
  - apply NoDup_cons in Hnd as [Hk0 Hnd].
    apply elem_of_cons in Hin as [Heq|Hin].
    + injection Heq as -> ->. case_decide; [reflexivity | congruence].
    + destruct (decide (k = k0)) as [->|]; [|auto].
      exfalso. apply Hk0. apply list_elem_of_fmap. exists (k0, v). auto.
Qed.

Lemma keys_set_old k v m :
  k ∈ OMap.keys m -> OMap.keys (OMap.set k v m) = OMap.keys m.
Proof.
  unfold OMap.keys. induction m as [|[k0 v0] m IH]; simpl; intros Hin.
  - apply elem_of_nil in Hin as [].
  - case_decide as Hk; simpl; [congruence|].
    apply elem_of_cons in Hin as [?|Hin]; [congruence|]. f_equal. apply IH, Hin.
Qed.

Lemma keys_set_new k v m :
  k ∉ OMap.keys m -> OMap.keys (OMap.set k v m) = OMap.keys m ++ [k].
Proof.
  unfold OMap.keys. induction m as [|[k0 v0] m IH]; simpl; intros Hin.
  - reflexivity.
  - apply not_elem_of_cons in Hin as [Hne Hin].
    case_decide; simpl; [congruence|]. f_equal. apply IH, Hin.
Qed.

Lemma NoDup_keys_set k v m : NoDup (OMap.keys m) -> NoDup (OMap.keys (OMap.set k v m)).
Proof.
  intros Hnd. destruct (decide (k ∈ OMap.keys m)) as [Hin|Hnin].
  - rewrite keys_set_old; assumption.
  - rewrite keys_set_new by assumption.
    apply NoDup_app. split; [assumption|]. split.
    + intros x Hx Hx'. apply list_elem_of_singleton in Hx' as ->. contradiction.
    + apply NoDup_singleton.
Qed.

(** Setting a key that occurs once replaces its value in place. *)
Lemma set_middle k v v0 pre post :
  k ∉ OMap.keys pre ->
  OMap.set k v (pre ++ (k, v0) :: post) = pre ++ (k, v) :: post.
Proof.
  unfold OMap.keys. induction pre as [|[k1 v1] pre IH]; simpl; intros Hk.
  - case_decide; [reflexivity | congruence].
  - apply not_elem_of_cons in Hk as [Hne Hk].
    case_decide; [congruence|]. f_equal. apply IH, Hk.
Qed.
End OMapFacts.

(** ** Running the monad *)

Lemma with_wallets_twice c ws ws' : with_wallets (with_wallets c ws) ws' = with_wallets c ws'.
Proof. reflexivity. Qed.

Lemma forM__app {A} (l1 l2 : list A) (body : A -> M unit) w :
  forM_ (l1 ++ l2) body w
  = match forM_ l1 body w with
    | (Ok _, w') => forM_ l2 body w'
    | (Throw e, w') => (Throw e, w')
    end.
Proof.
  revert w. induction l1 as [|x l1 IH]; intros w; simpl; [reflexivity|].
  unfold bind. destruct (body x w) as [[[]|e] w']; [apply IH | reflexivity].
Qed.

Lemma getProvider_current (w : World) :
  getProvider None w
  = match providers (this w) !! currentNetwork (this w) with
    | Some provider => (Ok provider, w)
    | None => (Throw (Error ("Provider not found for network: "
                               +:+ currentNetwork (this w))), w)
    end.
Proof.
  unfold getProvider, bind, get_this.
  change (orElse None (currentNetwork (this w))) with (currentNetwork (this w)).
  destruct (providers (this w) !! currentNetwork (this w)); reflexivity.
Qed.

(** ** Network switch *)

Lemma rebind_loop p post : forall pre c lg sb,
  NoDup (OMap.keys (pre ++ post)) ->
  forM_ post (fun '(address, wallet) => set_wallets (OMap.set address (connect wallet p)))
    {| this := with_wallets c (pre ++ post); logger := lg; submitted := sb |}
  = (Ok tt, {| this := with_wallets c (pre ++ rebind p post); logger := lg; submitted := sb |}).
Proof.
  induction post as [|[a wl] post IH]; intros pre c lg sb Hnd; [reflexivity|].
  simpl. unfold bind, set_wallets, set_this. simpl.
  assert (Ha : a ∉ OMap.keys pre).
  { unfold OMap.keys in *. rewrite fmap_app in Hnd. simpl in Hnd.
    apply NoDup_app in Hnd as (_ & Hdis & _). intros Hin.
    apply (Hdis a Hin). apply elem_of_cons. auto. }
  rewrite set_middle by exact Ha.
  rewrite with_wallets_twice.
  specialize (IH (pre ++ [(a, connect wl p)]) c lg sb).
  rewrite <- !app_assoc in IH. simpl in IH. apply IH.
  unfold OMap.keys in *. rewrite !fmap_app in *. simpl in *. exact Hnd.
Qed.

(** [switchNetwork], run. *)
Lemma switchNetwork_run (w : World) (n : string) :
  NoDup (OMap.keys (wallets (this w))) ->
  switchNetwork n w
  = match providers (this w) !! n with
    | None => (Throw (Error ("Network not configured: " +:+ n)), w)
    | Some p =>
        (Ok tt,
         {| this := {| providers := providers (this w);
                       wallets := rebind p (wallets (this w));
                       config := config (this w);
                       currentNetwork := n |};
            logger := logger w ++ [ {| log_level := LevelInfo; log_module := "EVM Client";
                                       log_category := "Network";
                                       log_message := "Switched to network: " +:+ n |} ];
            submitted := submitted w |})
    end.
Proof.
  intros Hnd. unfold switchNetwork, bind, get_this.
  destruct (providers (this w) !! n) as [p|] eqn:Hp; [|reflexivity].
  unfold set_currentNetwork, set_this, log, getProvider, bind, get_this. simpl.
  change (orElse None n) with n. rewrite Hp. unfold ret.
  pose proof (rebind_loop p (wallets (this w)) [] (with_currentNetwork (this w) n)
                (logger w ++ [ {| log_level := LevelInfo; log_module := "EVM Client";
                                  log_category := "Network";
                                  log_message := "Switched to network: " +:+ n |} ])
                (submitted w) Hnd) as Hloop.
  simpl in Hloop. exact Hloop.
Qed.

(** C2. [switchNetwork(n)] throws "Network not configured" and changes
    nothing when [n] has no provider; otherwise it sets the cursor to [n] and
    replaces every held wallet, under its key, by the same wallet connected
    to the provider of [n]: addresses and private keys are those held before. *)
Theorem switchNetwork_spec (w : World) (n : string) :
  NoDup (OMap.keys (wallets (this w))) ->
  switchNetwork n w
  = match providers (this w) !! n with
    | None => (Throw (Error ("Network not configured: " +:+ n)), w)
    | Some p =>
        (Ok tt,
         {| this := {| providers := providers (this w);
                       wallets := rebind p (wallets (this w));
                       config := config (this w);
                       currentNetwork := n |};
            logger := logger w ++ [ {| log_level := LevelInfo; log_module := "EVM Client";
                                       log_category := "Network";
                                       log_message := "Switched to network: " +:+ n |} ];
            submitted := submitted w |})
    end
  /\ forall p, Forall2 (fun old new =>
                 new.1 = old.1 /\ w_address new.2 = w_address old.2
                 /\ w_privateKey new.2 = w_privateKey old.2
                 /\ w_provider new.2 = Some p)
               (wallets (this w)) (rebind p (wallets (this w))).
Proof.
  intros Hnd. split; [exact (switchNetwork_run w n Hnd)|].
  clear Hnd. intros p. unfold rebind.
  induction (wallets (this w)) as [|[a wl] ws IH]; simpl.
  - constructor.
  - constructor; [simpl; auto | exact IH].
Qed.

(** ** Fee-field selection *)

Lemma truthy_Some o s : truthy o = Some s -> o = Some s.
Proof. destruct o as [[|a s']|]; simpl; congruence. Qed.

Lemma present_nonempty s : s <> "" -> present (Some s).
Proof. destruct s; [congruence|]. intros _. eexists. reflexivity. Qed.

Ltac run :=
  unfold bind, ret, call, throw, log, submit, get_this, set_wallets, set_providers,
    set_config, set_currentNetwork, set_this in *; simpl in *.

(** Building the transaction reads the request only. *)
Lemma buildTransaction_world (E : Ethers) (request : TransactionRequest) (w : World) :
  (buildTransaction E request w).2 = w.
Proof.
  unfold buildTransaction, valueOf. run.
  repeat match goal with
         | |- context [truthy ?o] => destruct (truthy o) eqn:?; simpl
         | |- context [parseEther E ?s] => destruct (parseEther E s) eqn:?; simpl
         | |- context [BigInt E ?s] => destruct (BigInt E s) eqn:?; simpl
         end; reflexivity.
Qed.

(** [buildTransaction], run: the gas limit is converted first, then the fee
    pair when both parts are present, else the gas price when it is present. *)
Lemma buildTransaction_run (E : Ethers) (request : TransactionRequest) (w : World)
    (value : Z) (gasLimit : option Z) :
  valueOf E (req_value request) w = (Ok value, w) ->
  converted E (req_gasLimit request) gasLimit ->
  (forall a b,
     converted E (req_maxFeePerGas request) (Some a) ->
     converted E (req_maxPriorityFeePerGas request) (Some b) ->
     buildTransaction E request w
     = (Ok (transactionOf request value gasLimit None (Some a) (Some b)), w))
  /\ (forall g,
        ~ (present (req_maxFeePerGas request) /\ present (req_maxPriorityFeePerGas request)) ->
        converted E (req_gasPrice request) (Some g) ->
        buildTransaction E request w
        = (Ok (transactionOf request value gasLimit (Some g) None None), w))
  /\ (~ (present (req_maxFeePerGas request) /\ present (req_maxPriorityFeePerGas request)) ->
      ~ present (req_gasPrice request) ->
      buildTransaction E request w
      = (Ok (transactionOf request value gasLimit None None None), w)).
Proof.
  intros Hv Hgl.
  unfold converted, present, transactionOf in *.
  (split; [|split]); [intros a b Ha Hb | intros g Hnot Hg | intros Hnot Hgp];
    unfold buildTransaction; unfold bind at 1; rewrite Hv; clear Hv.
  - destruct (truthy (req_maxFeePerGas request)) as [mf|]; [|discriminate].
    destruct (truthy (req_maxPriorityFeePerGas request)) as [mp|]; [|discriminate].
    destruct Ha as (a' & Ha & Heq). injection Heq as <-.
    destruct Hb as (b' & Hb & Heq). injection Heq as <-.
    destruct (truthy (req_gasLimit request)) as [g|];
      [destruct Hgl as (n & Hn & ->)|subst gasLimit]; run; rewrite ?Hn, ?Ha, ?Hb;
      reflexivity.
  - destruct (truthy (req_gasPrice request)) as [gp|]; [|discriminate].
    destruct Hg as (g' & Hg & Heq). injection Heq as <-.
    destruct (truthy (req_maxFeePerGas request)) as [mf|],
      (truthy (req_maxPriorityFeePerGas request)) as [mp|];
      try (exfalso; apply Hnot; split; eauto; fail);
      (destruct (truthy (req_gasLimit request)) as [gl|];
       [destruct Hgl as (n & Hn & ->)|subst gasLimit]; run; rewrite ?Hn, ?Hg;
       reflexivity).
  - destruct (truthy (req_gasPrice request)) as [gp|]; [exfalso; apply Hgp; eauto|].
    destruct (truthy (req_maxFeePerGas request)) as [mf|],
      (truthy (req_maxPriorityFeePerGas request)) as [mp|];
      try (exfalso; apply Hnot; split; eauto; fail);
      (destruct (truthy (req_gasLimit request)) as [gl|];
       [destruct Hgl as (n & Hn & ->)|subst gasLimit]; run; rewrite ?Hn;
       reflexivity).
Qed.

(** A built transaction is handed to the selected wallet, once. *)
Lemma sendTransaction_submits (E : Ethers) (request : TransactionRequest) (w : World)
    (provider : Provider) (wallet : Wallet) (tx : EthersTx) :
  providers (this w) !! currentNetwork (this w) = Some provider ->
  selectWallet (req_from request) (wallets (this w)) = Some wallet ->
  buildTransaction E request w = (Ok tx, w) ->
  submitted (sendTransaction E request w).2 = submitted w ++ [(wallet, tx)].
Proof.
  intros Hp Hw Hb.
  unfold sendTransaction, bind at 1. rewrite getProvider_current, Hp.
  unfold bind at 1, get_this at 1. rewrite Hw. unfold bind at 1. rewrite Hb. run.
  destruct (wallet_sendTransaction E wallet tx) as [sent|e]; simpl;
    [destruct (st_wait sent)|]; reflexivity.
Qed.

(** C1. When [sendTransaction] has a provider and a signer and the value and
    the gas limit of the request convert, it hands exactly one transaction to
    the signer, and the fee fields of that transaction follow the selection
    rule. With both [maxFeePerGas] and [maxPriorityFeePerGas] present (and
    converting) the pair is set and no [gasPrice] appears, whatever legacy
    [gasPrice] the request carries, convertible or not. Otherwise a present
    [gasPrice] is set alone. Otherwise no fee field is set. In each case the
    submitted transaction is given in full: recipient, converted value, data,
    nonce, chain id and gas limit are the request's. [converted _ f (Some z)]
    says that the field [f] is present and that [BigInt] turns it into [z]. *)
Theorem sendTransaction_fee_selection (E : Ethers) (request : TransactionRequest)
    (w : World) (provider : Provider) (wallet : Wallet) (value : Z) (gasLimit : option Z) :
  providers (this w) !! currentNetwork (this w) = Some provider ->
  selectWallet (req_from request) (wallets (this w)) = Some wallet ->
  valueOf E (req_value request) w = (Ok value, w) ->
  converted E (req_gasLimit request) gasLimit ->
  (forall a b,
     converted E (req_maxFeePerGas request) (Some a) ->
     converted E (req_maxPriorityFeePerGas request) (Some b) ->
     submitted (sendTransaction E request w).2
     = submitted w
       ++ [(wallet, transactionOf request value gasLimit None (Some a) (Some b))])
  /\ (forall g,
        ~ (present (req_maxFeePerGas request) /\ present (req_maxPriorityFeePerGas request)) ->
        converted E (req_gasPrice request) (Some g) ->
        submitted (sendTransaction E request w).2
        = submitted w ++ [(wallet, transactionOf request value gasLimit (Some g) None None)])
  /\ (~ (present (req_maxFeePerGas request) /\ present (req_maxPriorityFeePerGas request)) ->
      ~ present (req_gasPrice request) ->
      submitted (sendTransaction E request w).2
      = submitted w ++ [(wallet, transactionOf request value gasLimit None None None)]).
Proof.
  intros Hp Hw Hv Hgl.
  destruct (buildTransaction_run E request w value gasLimit Hv Hgl) as (Hpair & Hlegacy & Hplain).
  split; [|split].
  - intros a b Ha Hb.
    exact (sendTransaction_submits E request w provider wallet _ Hp Hw (Hpair a b Ha Hb)).
  - intros g Hnot Hg.
    exact (sendTransaction_submits E request w provider wallet _ Hp Hw (Hlegacy g Hnot Hg)).
  - intros Hnot Hgp.
    exact (sendTransaction_submits E request w provider wallet _ Hp Hw (Hplain Hnot Hgp)).
Qed.

(** ** Gas estimation *)

Lemma estimateGas_run (E : Ethers) (request : TransactionRequest)
    (provider : Provider) (value gasLimit : Z) (feeData : FeeData) :
  provider_estimateGas E provider (estimateRequest request value) = Ok gasLimit ->
  provider_getFeeData E provider = Ok feeData ->
  exists estimation,
    ge_gasLimit estimation = pretty gasLimit
    /\ forall w, providers (this w) !! currentNetwork (this w) = Some provider ->
                 valueOf E (req_value request) w = (Ok value, w) ->
                 estimateGas E request w = (Ok estimation, w).
Proof.
  intros Hg Hf.
  eexists (match truthyZ (fd_maxFeePerGas feeData),
                 truthyZ (fd_maxPriorityFeePerGas feeData) with
           | Some mf, Some mp => _
           | _, _ => match truthyZ (fd_gasPrice feeData) with
                     | Some gp => _
                     | None => _
                     end
           end).
  split.
  2:{ intros w Hp Hv.
      unfold estimateGas, getProvider. unfold bind at 1 2. unfold get_this.
      change (orElse None (currentNetwork (this w))) with (currentNetwork (this w)).
      rewrite Hp. unfold ret at 1. unfold bind at 1. rewrite Hv.
      fold (estimateRequest request value). run. rewrite Hg, Hf.
      destruct (truthyZ (fd_maxFeePerGas feeData)),
        (truthyZ (fd_maxPriorityFeePerGas feeData)),
        (truthyZ (fd_gasPrice feeData)); reflexivity. }
  destruct (truthyZ (fd_maxFeePerGas feeData)),
    (truthyZ (fd_maxPriorityFeePerGas feeData)),
    (truthyZ (fd_gasPrice feeData)); reflexivity.
Qed.

(** C4 (amended). [estimateGas] converts the value and defaults the data as
    [sendTransaction] does, but resolves no signer: [request.from] goes to the
    node unchanged, the identity pool is never read, and whenever the current
    network has a provider, the value converts and the node answers, the
    estimate is returned, for every content of the pool, the empty pool
    included. *)
Theorem estimateGas_ignores_identity_pool (E : Ethers) (request : TransactionRequest)
    (w : World) (provider : Provider) (value gasLimit : Z) (feeData : FeeData) :
  providers (this w) !! currentNetwork (this w) = Some provider ->
  valueOf E (req_value request) w = (Ok value, w) ->
  provider_estimateGas E provider (estimateRequest request value) = Ok gasLimit ->
  provider_getFeeData E provider = Ok feeData ->
  exists estimation,
    ge_gasLimit estimation = pretty gasLimit
    /\ forall pool : list (string * Wallet),
         let w' := {| this := with_wallets (this w) pool; logger := logger w;
                      submitted := submitted w |} in
         estimateGas E request w' = (Ok estimation, w').
Proof.
  intros Hp Hv Hg Hf.
  destruct (estimateGas_run E request provider value gasLimit feeData Hg Hf)
    as (estimation & Hgl & Hrun).
  exists estimation. split; [exact Hgl|].
  intros pool w'. apply Hrun; [exact Hp|].
  unfold valueOf in *. destruct (truthy (req_value request)); run; congruence.
Qed.

(** ** Signer lookup *)

(** C5 (amended). The pool is read with the request's from-address as it is
    written, by exact string equality with the stored keys: a non-empty
    from-address that equals no stored key makes [sendTransaction] throw "No
    wallet available", and one that equals a stored key selects the wallet
    held under that key. An empty from-address counts as none: the first
    wallet of the pool is selected. A wallet is stored under the address
    ethers reports for it, unchanged: an imported wallet is selected by that
    very string. *)
Theorem sendTransaction_exact_address_lookup (E : Ethers) (request : TransactionRequest)
    (w : World) (provider : Provider) (from : string) :
  providers (this w) !! currentNetwork (this w) = Some provider ->
  req_from request = Some from ->
  (from <> "" ->
   from ∉ OMap.keys (wallets (this w)) ->
   sendTransaction E request w
   = (Throw (Error "No wallet available for sending transaction"), w))
  /\ (from <> "" ->
      forall wallet, (from, wallet) ∈ wallets (this w) ->
                     NoDup (OMap.keys (wallets (this w))) ->
                     selectWallet (req_from request) (wallets (this w)) = Some wallet)
  /\ (from = "" ->
      selectWallet (req_from request) (wallets (this w))
      = head (OMap.values (wallets (this w))))
  /\ (forall privateKey kp,
        Wallet_keys E privateKey = Ok kp ->
        kp_address kp <> "" ->
        selectWallet (Some (kp_address kp)) (wallets (this (importWallet E privateKey w).2))
        = Some {| w_address := kp_address kp; w_privateKey := kp_privateKey kp;
                  w_publicKey := kp_publicKey kp; w_path := None; w_mnemonic := None;
                  w_provider := Some provider |}).
Proof.
  intros Hp Hfrom.
  assert (Hsel : from <> "" ->
                 selectWallet (req_from request) (wallets (this w))
                 = OMap.get from (wallets (this w))).
  { intros Hne. rewrite Hfrom. unfold selectWallet.
    destruct from; [congruence | reflexivity]. }
  split; [|split; [|split]].
  - intros Hne Hnot. apply get_None in Hnot.
    unfold sendTransaction, getProvider. unfold bind at 1 2. unfold get_this at 1.
    change (orElse None (currentNetwork (this w))) with (currentNetwork (this w)).
    rewrite Hp. unfold ret at 1. unfold bind at 1. unfold get_this at 1.
    rewrite (Hsel Hne), Hnot. reflexivity.
  - intros Hne wallet Hin Hnd. rewrite (Hsel Hne). apply elem_get; assumption.
  - intros ->. rewrite Hfrom. reflexivity.
  - intros privateKey kp Hkeys Haddr.
    unfold importWallet, bind. rewrite getProvider_current, Hp.
    unfold new_Wallet. run. rewrite Hkeys. simpl.
    unfold selectWallet. destruct (kp_address kp) as [|c address] eqn:Ha; [congruence|].
    simpl. rewrite get_set. case_decide; [reflexivity | congruence].
Qed.

(** ** Contract calls *)

Lemma try_catch_returns {A} (body : M A) (handler : Thrown -> M A) (w : World) :
  (forall e w1, exists a w2, handler e w1 = (Ok a, w2)) ->
  exists a w', try_catch body handler w = (Ok a, w').
Proof.
  intros Hh. unfold try_catch. destruct (body w) as [[a|e] w1]; eauto.
Qed.


(** ** Name resolution *)


(** ** Loops *)

(** A loop whose body always returns, returns. *)
Lemma forM__returns {A} (l : list A) (body : A -> M unit) :
  (forall x w, exists w', body x w = (Ok tt, w')) ->
  forall w, exists w', forM_ l body w = (Ok tt, w').
Proof.
  intros Hb. induction l as [|x l IH]; intros w; simpl.
  - eexists. reflexivity.
  - unfold bind. destruct (Hb x w) as [w1 ->]. apply IH.
Qed.

(** A relation between the states before and after each iteration holds
    between the states before and after the loop, whether it throws or not. *)
Lemma forM__preserves {A} (R : World -> World -> Prop) (l : list A) (body : A -> M unit) :
  (forall w, R w w) ->
  (forall w1 w2 w3, R w1 w2 -> R w2 w3 -> R w1 w3) ->
  (forall x w, R w (body x w).2) ->
  forall w, R w (forM_ l body w).2.
Proof.
  intros Hrefl Htrans Hb. induction l as [|x l IH]; intros w; simpl.
  - apply Hrefl.
  - unfold bind. specialize (Hb x w). destruct (body x w) as [[[]|e] w1]; simpl in *.
    + eapply Htrans; [exact Hb | apply IH].
    + exact Hb.
Qed.

(** In a loop that never throws, what one iteration establishes and the
    others keep holds at the end. *)
Lemma forM__establishes {A} (P : World -> Prop) (l : list A) (body : A -> M unit) (x : A) :
  x ∈ l ->
  (forall y w, (body y w).1 = Ok tt) ->
  (forall w, P (body x w).2) ->
  (forall y w, P w -> P (body y w).2) ->
  forall w, P (forM_ l body w).2.
Proof.
  intros Hin Hok Hx Hkeep.
  assert (Hall : forall l' w, P w -> P (forM_ l' body w).2).
  { induction l' as [|y l' IH]; intros w Hw; simpl; [exact Hw|].
    unfold bind. specialize (Hok y w). specialize (Hkeep y w Hw).
    destruct (body y w) as [[[]|e] w1]; simpl in *; [apply IH; assumption | discriminate]. }
  induction l as [|y l IH]; intros w; [apply elem_of_nil in Hin as []|].
  simpl. unfold bind. apply elem_of_cons in Hin as [<-|Hin].
  - specialize (Hok x w). specialize (Hx w).
    destruct (body x w) as [[[]|e] w1]; simpl in *; [apply Hall; assumption | discriminate].
  - specialize (Hok y w). destruct (body y w) as [[[]|e] w1]; simpl in *;
      [apply IH; assumption | discriminate].
Qed.

(** A loop whose body is a state update is the fold of that update. *)
Lemma forM__run {A} (l : list A) (body : A -> M unit) (step : A -> World -> World) :
  (forall x w, body x w = (Ok tt, step x w)) ->
  forall w, forM_ l body w = (Ok tt, fold_left (fun w x => step x w) l w).
Proof.
  intros Hb. induction l as [|x l IH]; intros w; simpl; [reflexivity|].
  unfold bind. rewrite Hb. apply IH.
Qed.

(** ** The connection pool *)

(** The second loop of [initializeProviders], run. *)
Lemma providers_loop (E : Ethers) (nets : list (string * NetworkConfig)) :
  forall ps ws cfg cur lg sb,
    forM_ nets (providerBody E)
      {| this := {| providers := ps; wallets := ws; config := cfg; currentNetwork := cur |};
         logger := lg; submitted := sb |}
    = (Ok tt,
       {| this := {| providers := fold_left (addProvider E) nets ps; wallets := ws;
                     config := cfg; currentNetwork := cur |};
          logger := lg ++ (providerLog E <$> nets); submitted := sb |}).
Proof.
  intros ps ws cfg cur lg sb.
  rewrite (forM__run _ _ (providerStep E)).
  2:{ intros [key network] [c lg' sb'].
      unfold providerBody, try_catch, new_JsonRpcProvider, providerStep, addProvider,
        providerLog, rejected.
      simpl. destruct (JsonRpcProvider_rejects E _ _ _); [|reflexivity].
      destruct c; reflexivity. }
  f_equal. revert ps lg.
  induction nets as [|entry nets IH]; intros ps lg; simpl.
  - rewrite app_nil_r. reflexivity.
  - unfold providerStep at 2. simpl. unfold with_providers. simpl.
    rewrite IH. rewrite <- app_assoc. reflexivity.
Qed.

(** The pool after the loop, key by key. *)
Lemma fold_addProvider_lookup (E : Ethers) (nets : list (string * NetworkConfig)) :
  NoDup (OMap.keys nets) ->
  forall ps k,
    fold_left (addProvider E) nets ps !! k
    = match OMap.get k nets with
      | Some network => match rejected E network with
                        | None => Some (providerOf network)
                        | Some _ => ps !! k
                        end
      | None => ps !! k
      end.
Proof.
  unfold OMap.keys. induction nets as [|[k0 n0] nets IH]; intros Hnd ps k; [reflexivity|].
  simpl in Hnd. apply NoDup_cons in Hnd as [Hk0 Hnd].
  simpl. rewrite (IH Hnd). unfold addProvider. simpl.
  destruct (decide (k = k0)) as [->|Hne].
  - apply get_None in Hk0. rewrite Hk0.
    destruct (rejected E n0); [reflexivity | apply lookup_insert_eq].
  - destruct (OMap.get k nets) as [n|].
    + destruct (rejected E n); [|reflexivity].
      destruct (rejected E n0); [reflexivity | apply lookup_insert_ne; congruence].
    + destruct (rejected E n0); [reflexivity | apply lookup_insert_ne; congruence].
Qed.

Lemma addCommonNetworks_NoDup (nets : list (string * NetworkConfig)) :
  NoDup (OMap.keys nets) -> NoDup (OMap.keys (addCommonNetworks nets)).
Proof.
  unfold addCommonNetworks. generalize COMMON_NETWORKS. intros common. revert nets.
  induction common as [|[key network] common IH]; intros nets Hnd; simpl; [exact Hnd|].
  apply IH. destruct (OMap.get key nets); [exact Hnd | apply NoDup_keys_set, Hnd].
Qed.

(** ** Wallet initialization leaves the connection pool alone *)

Lemma extends_refl w : extends w w.
Proof. unfold extends. auto. Qed.

Lemma extends_trans w1 w2 w3 : extends w1 w2 -> extends w2 w3 -> extends w1 w3.
Proof.
  unfold extends. intros (? & ? & ? & ? & ?) (? & ? & ? & ? & ?).
  repeat split; try congruence. auto.
Qed.

Section WalletLoops.
Variable E : Ethers.
Variable provider : Provider.

Lemma initializeFromPrivateKeys_unfold w :
  initializeFromPrivateKeys E provider w
  = match cfg_privateKeys (config (this w)) with
    | Some privateKeys =>
        if bool_decide (0 < length privateKeys)%nat
        then forM_ (imap pair privateKeys) (keyBody E provider) w
        else (Ok tt, w)
    | None => (Ok tt, w)
    end.
Proof.
  unfold initializeFromPrivateKeys. unfold bind at 1. unfold get_this.
  destruct (cfg_privateKeys (config (this w))) as [privateKeys|]; [|reflexivity].
  case_bool_decide; [|reflexivity].
  f_equal.
Qed.

Lemma initializeFromMnemonic_unfold w :
  initializeFromMnemonic E provider w
  = match truthy (cfg_mnemonic (config (this w))) with
    | Some mnemonic =>
        try_catch (forM_ (seq 0 10) (hdBody E provider mnemonic (config (this w))))
          (fun error =>
           log LevelError "EVM Client" "HD Wallet"
             ("Failed to initialize HD wallet: " +:+ toString error)) w
    | None => (Ok tt, w)
    end.
Proof.
  unfold initializeFromMnemonic. unfold bind at 1. unfold get_this.
  destruct (truthy (cfg_mnemonic (config (this w)))); reflexivity.
Qed.

Lemma keyBody_returns entry w : exists w', (keyBody E provider) entry w = (Ok tt, w').
Proof.
  destruct entry as [index privateKey]. unfold keyBody.
  destruct (try_catch_returns
              (wallet <- new_Wallet E privateKey provider ;;
               set_wallets (OMap.set (w_address wallet) wallet) ;;;
               log LevelDebug "EVM Client" "Wallet"
                 ("Initialized wallet " +:+ pretty index +:+ ": " +:+ w_address wallet))
              (fun error =>
               log LevelError "EVM Client" "Wallet"
                 ("Failed to initialize wallet from private key: " +:+ toString error)) w)
    as ([] & w' & Hr).
  - intros e w1. eexists _, _. reflexivity.
  - eauto.
Qed.

Lemma keyBody_extends entry w : extends w (keyBody E provider entry w).2.
Proof.
  destruct entry as [index privateKey].
  unfold keyBody, try_catch, new_Wallet, extends. run.
  destruct (Wallet_keys E privateKey); simpl; repeat split; intros;
    rewrite ?elem_of_app; auto.
Qed.

Lemma hdBody_extends mnemonic cfg i w : extends w (hdBody E provider mnemonic cfg i w).2.
Proof.
  unfold hdBody, fromMnemonic, extends. run.
  destruct (HDNodeWallet_fromMnemonic E mnemonic (path cfg i)); simpl; repeat split;
    intros; rewrite ?elem_of_app; auto.
Qed.

Lemma initializeFromPrivateKeys_returns w :
  exists w', initializeFromPrivateKeys E provider w = (Ok tt, w') /\ extends w w'.
Proof.
  rewrite initializeFromPrivateKeys_unfold.
  destruct (cfg_privateKeys (config (this w))) as [privateKeys|];
    [|eauto using extends_refl].
  case_bool_decide; [|eauto using extends_refl].
  destruct (forM__returns (imap pair privateKeys) (keyBody E provider) keyBody_returns w) as [w' Hr].
  exists w'. split; [exact Hr|].
  pose proof (forM__preserves extends (imap pair privateKeys) (keyBody E provider)
                extends_refl extends_trans keyBody_extends w) as Hext.
  rewrite Hr in Hext. exact Hext.
Qed.

Lemma initializeFromMnemonic_returns w :
  exists w', initializeFromMnemonic E provider w = (Ok tt, w') /\ extends w w'.
Proof.
  rewrite initializeFromMnemonic_unfold.
  destruct (truthy (cfg_mnemonic (config (this w)))) as [mnemonic|];
    [|eauto using extends_refl].
  pose proof (forM__preserves extends (seq 0 10) (hdBody E provider mnemonic (config (this w)))
                extends_refl extends_trans (hdBody_extends mnemonic (config (this w))) w)
    as Hext.
  unfold try_catch.
  destruct (forM_ (seq 0 10) (hdBody E provider mnemonic (config (this w))) w) as [[[]|e] w1];
    simpl in Hext.
  - eauto.
  - eexists. split; [reflexivity|].
    eapply extends_trans; [exact Hext|].
    unfold extends. simpl. repeat split. intros. rewrite elem_of_app. auto.
Qed.
End WalletLoops.

(** [initializeWallets] fails exactly when the current network has no
    provider; otherwise it returns, whatever the keys and the mnemonic are. *)
Lemma initializeWallets_returns (E : Ethers) (w : World) :
  match providers (this w) !! currentNetwork (this w) with
  | None =>
      initializeWallets E w
      = (Throw (Error ("Provider not found for network: " +:+ currentNetwork (this w))), w)
  | Some provider =>
      exists w1 w',
        initializeFromPrivateKeys E provider w = (Ok tt, w1)
        /\ initializeFromMnemonic E provider w1 = (Ok tt, w')
        /\ initializeWallets E w = (Ok tt, w')
        /\ extends w w1 /\ extends w1 w'
  end.
Proof.
  unfold initializeWallets, bind. rewrite getProvider_current.
  destruct (providers (this w) !! currentNetwork (this w)) as [provider|]; [|reflexivity].
  destruct (initializeFromPrivateKeys_returns E provider w) as (w1 & Hk & Hext1).
  destruct (initializeFromMnemonic_returns E provider w1) as (w' & Hm & Hext2).
  exists w1, w'. rewrite Hk, Hm. auto.
Qed.

(** ** Construction *)

Lemma initializeProviders_fresh (E : Ethers) (cfg : EVMConfig) :
  initializeProviders E (fresh cfg) = (Ok tt, connected E cfg).
Proof.
  unfold initializeProviders, connected, registry. unfold bind at 1.
  unfold get_this, fresh. cbn [this config].
  generalize (addCommonNetworks (default [] (cfg_networks cfg))). intros nets.
  unfold bind at 1.
  destruct (cfg_networks cfg); unfold set_config, set_this, ret, with_config;
    cbn [this config providers wallets currentNetwork logger submitted];
    rewrite providers_loop; reflexivity.
Qed.

Lemma connected_lookup (E : Ethers) (cfg : EVMConfig) (key : string) :
  NoDup (OMap.keys (default [] (cfg_networks cfg))) ->
  providers (this (connected E cfg)) !! key
  = match OMap.get key (registry cfg) with
    | Some network => match rejected E network with
                      | None => Some (providerOf network)
                      | Some _ => None
                      end
    | None => None
    end.
Proof.
  intros Hnd. simpl.
  rewrite fold_addProvider_lookup by (apply addCommonNetworks_NoDup, Hnd).
  rewrite lookup_empty. reflexivity.
Qed.

(** C3 (amended). Constructing a client never aborts on a network whose
    provider cannot be constructed: the failure is logged and the network has
    no entry in the pool, while every other registered network has its
    provider. Construction completes exactly when the default network is
    registered and its provider was constructed; otherwise it throws
    "Provider not found for network". *)
Theorem constructor_tolerates_other_networks (E : Ethers) (cfg : EVMConfig) :
  NoDup (OMap.keys (default [] (cfg_networks cfg))) ->
  let current := orElse (cfg_defaultNetwork cfg) "mainnet" in
  let r := (new_EVMClient E cfg).1 in
  let w' := (new_EVMClient E cfg).2 in
  (forall key network,
     OMap.get key (registry cfg) = Some network ->
     match rejected E network with
     | Some e => providers (this w') !! key = None /\ providerFailure network e ∈ logger w'
     | None => providers (this w') !! key = Some (providerOf network)
     end)
  /\ match OMap.get current (registry cfg) with
     | Some network =>
         match rejected E network with
         | None => r = Ok tt
         | Some _ => r = Throw (Error ("Provider not found for network: " +:+ current))
         end
     | None => r = Throw (Error ("Provider not found for network: " +:+ current))
     end.
Proof.
  intros Hnd current r w'. subst r w'.
  unfold new_EVMClient, constructor, bind. rewrite initializeProviders_fresh.
  pose proof (initializeWallets_returns E (connected E cfg)) as Hw.
  pose proof (connected_lookup E cfg) as Hlook.
  assert (Hext : extends (connected E cfg) (initializeWallets E (connected E cfg)).2).
  { destruct (providers (this (connected E cfg)) !! currentNetwork (this (connected E cfg))).
    - destruct Hw as (w1 & w' & _ & _ & -> & H1 & H2). eapply extends_trans; eassumption.
    - rewrite Hw. apply extends_refl. }
  destruct Hext as (Hps & _ & _ & _ & Hlog).
  split.
  - intros key network Hget. rewrite Hps, Hlook by exact Hnd. rewrite Hget.
    destruct (rejected E network) as [e|] eqn:Hrej; [|reflexivity].
    split; [reflexivity|]. apply Hlog. simpl.
    apply list_elem_of_fmap. exists (key, network). split.
    + unfold providerLog. simpl. rewrite Hrej. reflexivity.
    + apply get_Some_elem, Hget.
  - change (currentNetwork (this (connected E cfg))) with current in Hw.
    rewrite Hlook in Hw by exact Hnd.
    destruct (OMap.get current (registry cfg)) as [network|].
    + destruct (rejected E network).
      * rewrite Hw. reflexivity.
      * destruct Hw as (w1 & w' & _ & _ & -> & _). reflexivity.
    + rewrite Hw. reflexivity.
Qed.

(** ** Wallets from private keys *)

Section KeyLoop.
Variable E : Ethers.
Variable provider : Provider.

Lemma holds_set address wallet w lg sb :
  w_provider wallet = Some provider ->
  holds provider address w ->
  holds provider address
    {| this := with_wallets (this w) (OMap.set (w_address wallet) wallet (wallets (this w)));
       logger := lg; submitted := sb |}.
Proof.
  intros Hprov (wl & Hget & Ha & Hp). unfold holds. simpl. rewrite get_set.
  case_decide as Heq; eauto.
Qed.

Lemma keyBody_holds_keep address entry w :
  holds provider address w -> holds provider address (keyBody E provider entry w).2.
Proof.
  intros Hh. destruct entry as [index privateKey].
  unfold keyBody, try_catch, new_Wallet. run.
  destruct (Wallet_keys E privateKey) as [kp|e]; simpl.
  - apply (holds_set address
             {| w_address := kp_address kp; w_privateKey := kp_privateKey kp;
                w_publicKey := kp_publicKey kp; w_path := None; w_mnemonic := None;
                w_provider := Some provider |} w); [reflexivity | exact Hh].
  - exact Hh.
Qed.

Lemma keyBody_holds_new index privateKey kp w :
  Wallet_keys E privateKey = Ok kp ->
  holds provider (kp_address kp) (keyBody E provider (index, privateKey) w).2.
Proof.
  intros Hk. unfold keyBody, try_catch, new_Wallet, holds. run. rewrite Hk. simpl.
  eexists. rewrite get_set. rewrite decide_True by reflexivity. repeat split.
Qed.

Lemma keyBody_logs_failure index privateKey e w :
  Wallet_keys E privateKey = Throw e ->
  keyFailure e ∈ logger (keyBody E provider (index, privateKey) w).2.
Proof.
  intros Hk. unfold keyBody, try_catch, new_Wallet. run. rewrite Hk. simpl.
  apply elem_of_app. right. apply list_elem_of_singleton. reflexivity.
Qed.

Lemma hdBody_holds_keep address mnemonic cfg i w :
  holds provider address w -> holds provider address (hdBody E provider mnemonic cfg i w).2.
Proof.
  intros Hh. unfold hdBody, fromMnemonic. run.
  destruct (HDNodeWallet_fromMnemonic E mnemonic (path cfg i)) as [kp|e]; simpl.
  - apply (holds_set address
             (connect {| w_address := kp_address kp; w_privateKey := kp_privateKey kp;
                         w_publicKey := kp_publicKey kp; w_path := Some (path cfg i);
                         w_mnemonic := Some mnemonic; w_provider := None |} provider) w);
      [reflexivity | exact Hh].
  - exact Hh.
Qed.

Lemma initializeFromMnemonic_holds_keep address w :
  holds provider address w ->
  holds provider address (initializeFromMnemonic E provider w).2.
Proof.
  intros Hh. rewrite initializeFromMnemonic_unfold.
  destruct (truthy (cfg_mnemonic (config (this w)))) as [mnemonic|]; [|exact Hh].
  pose proof (forM__preserves
                (fun w1 w2 => holds provider address w1 -> holds provider address w2)
                (seq 0 10) (hdBody E provider mnemonic (config (this w)))
                (fun _ H => H) (fun _ _ _ H1 H2 H => H2 (H1 H))
                (fun i w1 => hdBody_holds_keep address mnemonic (config (this w)) i w1)
                w Hh) as Hloop.
  unfold try_catch.
  destruct (forM_ (seq 0 10) (hdBody E provider mnemonic (config (this w))) w)
    as [[[]|e] w1]; simpl in *; exact Hloop.
Qed.
(** One iteration of the loop over the private keys, run. *)
Lemma keyBody_run index privateKey ps ws cf cur lg sb :
  keyBody E provider (index, privateKey)
    {| this := {| providers := ps; wallets := ws; config := cf; currentNetwork := cur |};
       logger := lg; submitted := sb |}
  = (Ok tt,
     {| this := {| providers := ps;
                   wallets := keyPool provider (accepted E [privateKey]) ws;
                   config := cf; currentNetwork := cur |};
        logger := lg ++ [keyLog E index privateKey]; submitted := sb |}).
Proof.
  unfold keyBody, try_catch, new_Wallet, accepted, keyPool, keyLog, keyFailure. run.
  destruct (Wallet_keys E privateKey); reflexivity.
Qed.

Lemma keyPool_cons privateKey privateKeys ws :
  keyPool provider (accepted E (privateKey :: privateKeys)) ws
  = keyPool provider (accepted E privateKeys) (keyPool provider (accepted E [privateKey]) ws).
Proof.
  unfold accepted, keyPool. simpl. destruct (Wallet_keys E privateKey); reflexivity.
Qed.

(** The loop over the private keys, run: the wallets of the accepted keys
    are set, in order, nothing is set for a refused key, and every key
    leaves one log entry. *)
Lemma key_loop privateKeys : forall (f : nat -> nat) ps ws cf cur lg sb,
  forM_ (imap (fun i privateKey => (f i, privateKey)) privateKeys) (keyBody E provider)
    {| this := {| providers := ps; wallets := ws; config := cf; currentNetwork := cur |};
       logger := lg; submitted := sb |}
  = (Ok tt,
     {| this := {| providers := ps;
                   wallets := keyPool provider (accepted E privateKeys) ws;
                   config := cf; currentNetwork := cur |};
        logger := lg ++ imap (fun i => keyLog E (f i)) privateKeys; submitted := sb |}).
Proof.
  induction privateKeys as [|privateKey privateKeys IH]; intros f ps ws cf cur lg sb.
  - simpl. rewrite app_nil_r. reflexivity.
  - rewrite !imap_cons. cbn [forM_]. unfold bind. rewrite keyBody_run.
    etrans; [exact (IH (fun i => f (S i)) _ _ _ _ _ _)|].
    rewrite (keyPool_cons privateKey privateKeys ws), <- app_assoc. reflexivity.
Qed.

Lemma initializeFromPrivateKeys_run privateKeys w :
  cfg_privateKeys (config (this w)) = Some privateKeys ->
  initializeFromPrivateKeys E provider w = (Ok tt, afterKeys E provider privateKeys w).
Proof.
  intros Hcfg. rewrite initializeFromPrivateKeys_unfold, Hcfg. unfold afterKeys.
  destruct w as [[ps ws cf cur] lg sb]. cbn [this logger submitted wallets with_wallets].
  case_bool_decide as Hlen.
  - exact (key_loop privateKeys (fun i => i) ps ws cf cur lg sb).
  - destruct privateKeys; [|simpl in Hlen; lia]. simpl. rewrite app_nil_r. reflexivity.
Qed.
End KeyLoop.

(** C8. With a provider for the current network, [initializeWallets] returns
    for every list of configured private keys. The loop over the keys leaves
    exactly the pool obtained by setting the wallets of the keys that ethers
    accepts, in order: a key that ethers refuses is skipped, it adds, changes
    and removes nothing in the pool, and its failure is logged. Each accepted
    key has, at the end, a wallet with its address in the pool, connected to
    that provider; without a mnemonic, the state after the keys is the final
    state. *)
Theorem initializeWallets_skips_bad_keys (E : Ethers) (w : World) (provider : Provider)
    (privateKeys : list string) :
  providers (this w) !! currentNetwork (this w) = Some provider ->
  cfg_privateKeys (config (this w)) = Some privateKeys ->
  initializeFromPrivateKeys E provider w = (Ok tt, afterKeys E provider privateKeys w)
  /\ exists w',
       initializeWallets E w = (Ok tt, w')
       /\ initializeFromMnemonic E provider (afterKeys E provider privateKeys w) = (Ok tt, w')
       /\ (truthy (cfg_mnemonic (config (this w))) = None ->
           w' = afterKeys E provider privateKeys w)
       /\ (forall privateKey kp,
             privateKey ∈ privateKeys -> Wallet_keys E privateKey = Ok kp ->
             holds provider (kp_address kp) w')
       /\ (forall privateKey e,
             privateKey ∈ privateKeys -> Wallet_keys E privateKey = Throw e ->
             keyFailure e ∈ logger w').
Proof.
  intros Hp Hcfg.
  pose proof (initializeFromPrivateKeys_run E provider privateKeys w Hcfg) as Hrun.
  split; [exact Hrun|].
  pose proof (initializeWallets_returns E w) as Hret. rewrite Hp in Hret.
  destruct Hret as (w1 & w' & Hk & Hm & Hall & Hext1 & Hext2).
  assert (Hw1 : w1 = afterKeys E provider privateKeys w) by congruence.
  exists w'. split; [exact Hall|]. split; [rewrite <- Hw1; exact Hm|].
  split.
  { intros Hnone. rewrite <- Hw1.
    rewrite initializeFromMnemonic_unfold in Hm.
    destruct Hext1 as (_ & _ & Hc1 & _). rewrite Hc1, Hnone in Hm. congruence. }
  rewrite initializeFromPrivateKeys_unfold, Hcfg in Hk.
  assert (Hloop : forM_ (imap pair privateKeys) (keyBody E provider) w = (Ok tt, w1)
                  \/ privateKeys = []).
  { case_bool_decide as Hlen; [left; exact Hk | right].
    destruct privateKeys; [reflexivity | simpl in Hlen; lia]. }
  assert (Hok : forall y w0, (keyBody E provider y w0).1 = Ok tt).
  { intros y w0. destruct (keyBody_returns E provider y w0) as [w2 ->]. reflexivity. }
  clear Hw1 Hrun. split.
  - intros privateKey kp Hin Hkeys.
    replace w' with (initializeFromMnemonic E provider w1).2 by (rewrite Hm; reflexivity).
    apply initializeFromMnemonic_holds_keep.
    destruct Hloop as [Hloop | ->]; [|apply elem_of_nil in Hin as []].
    apply list_elem_of_lookup in Hin as [index Hidx].
    replace w1 with (forM_ (imap pair privateKeys) (keyBody E provider) w).2
      by (rewrite Hloop; reflexivity).
    apply (forM__establishes (holds provider (kp_address kp)) _ _ (index, privateKey)).
    + apply elem_of_lookup_imap. eauto.
    + exact Hok.
    + intros w0. apply keyBody_holds_new, Hkeys.
    + intros y w0. apply keyBody_holds_keep.
  - intros privateKey e Hin Hkeys.
    destruct Hext2 as (_ & _ & _ & _ & Hlog). apply Hlog.
    destruct Hloop as [Hloop | ->]; [|apply elem_of_nil in Hin as []].
    apply list_elem_of_lookup in Hin as [index Hidx].
    replace w1 with (forM_ (imap pair privateKeys) (keyBody E provider) w).2
      by (rewrite Hloop; reflexivity).
    apply (forM__establishes (fun w0 => keyFailure e ∈ logger w0) _ _ (index, privateKey)).
    + apply elem_of_lookup_imap. eauto.
    + exact Hok.
    + intros w0. apply keyBody_logs_failure, Hkeys.
    + intros y w0 Hin. apply (keyBody_extends E provider y w0). exact Hin.
Qed.

(** ** Wallets from the mnemonic *)

Lemma keys_hdPool provider mnemonic cfg kp indices ws :
  OMap.keys (hdPool provider mnemonic cfg kp indices ws)
  = keysAfter ((fun i => kp_address (kp i)) <$> indices) (OMap.keys ws).
Proof.
  unfold hdPool, keysAfter. revert ws. induction indices as [|i indices IH]; intros ws; [reflexivity|].
  cbn [fold_left fmap list_fmap]. rewrite IH. f_equal.
  case_decide as Hin; [apply keys_set_old | apply keys_set_new]; exact Hin.
Qed.

Lemma keysAfter_fresh addresses ks :
  NoDup (ks ++ addresses) -> keysAfter addresses ks = ks ++ addresses.
Proof.
  unfold keysAfter. revert ks. induction addresses as [|a l IH]; intros ks Hnd; simpl.
  - rewrite app_nil_r. reflexivity.
  - assert (Ha : a ∉ ks).
    { apply NoDup_app in Hnd as (_ & Hdis & _). intros Hin.
      apply (Hdis a Hin). apply elem_of_cons. auto. }
    rewrite decide_False by exact Ha.
    rewrite IH; rewrite <- app_assoc; [reflexivity | exact Hnd].
Qed.

Lemma length_keysAfter addresses ks :
  (length (keysAfter addresses ks) <= length ks + length addresses)%nat.
Proof.
  unfold keysAfter. revert ks. induction addresses as [|a l IH]; intros ks; simpl; [lia|].
  etransitivity; [apply IH|]. case_decide; rewrite ?length_app; simpl; lia.
Qed.

Section HDLoop.
Variable E : Ethers.
Variable provider : Provider.
Variable mnemonic : string.
Variable cfg : EVMConfig.
Variable kp : nat -> KeyPair.

Lemma hdBody_ok i ps ws cf cur lg sb :
  HDNodeWallet_fromMnemonic E mnemonic (path cfg i) = Ok (kp i) ->
  hdBody E provider mnemonic cfg i
    {| this := {| providers := ps; wallets := ws; config := cf; currentNetwork := cur |};
       logger := lg; submitted := sb |}
  = (Ok tt,
     {| this := {| providers := ps; wallets := hdPool provider mnemonic cfg kp [i] ws;
                   config := cf; currentNetwork := cur |};
        logger := lg ++ [hdLog cfg kp i]; submitted := sb |}).
Proof.
  intros Hd. unfold hdBody, fromMnemonic. run. rewrite Hd. reflexivity.
Qed.

Lemma hdBody_fail i e w :
  HDNodeWallet_fromMnemonic E mnemonic (path cfg i) = Throw e ->
  hdBody E provider mnemonic cfg i w = (Throw e, w).
Proof.
  intros Hd. unfold hdBody, fromMnemonic. run. rewrite Hd. reflexivity.
Qed.

(** The loop over indices that all derive. *)
Lemma hd_loop_ok indices :
  (forall i, i ∈ indices -> HDNodeWallet_fromMnemonic E mnemonic (path cfg i) = Ok (kp i)) ->
  forall ps ws cf cur lg sb,
    forM_ indices (hdBody E provider mnemonic cfg)
      {| this := {| providers := ps; wallets := ws; config := cf; currentNetwork := cur |};
         logger := lg; submitted := sb |}
    = (Ok tt,
       {| this := {| providers := ps; wallets := hdPool provider mnemonic cfg kp indices ws;
                     config := cf; currentNetwork := cur |};
          logger := lg ++ (hdLog cfg kp <$> indices); submitted := sb |}).
Proof.
  induction indices as [|i indices IH]; intros Hd ps ws cf cur lg sb.
  - simpl. rewrite app_nil_r. reflexivity.
  - cbn [forM_]. unfold bind. rewrite hdBody_ok by (apply Hd, elem_of_cons; auto).
    rewrite IH by (intros j Hj; apply Hd, elem_of_cons; auto).
    cbn [fmap list_fmap]. rewrite <- app_assoc. reflexivity.
Qed.

(** The loop stops at the first index that does not derive. *)
Lemma hd_loop_fail pre i post e :
  (forall j, j ∈ pre -> HDNodeWallet_fromMnemonic E mnemonic (path cfg j) = Ok (kp j)) ->
  HDNodeWallet_fromMnemonic E mnemonic (path cfg i) = Throw e ->
  forall ps ws cf cur lg sb,
    forM_ (pre ++ i :: post) (hdBody E provider mnemonic cfg)
      {| this := {| providers := ps; wallets := ws; config := cf; currentNetwork := cur |};
         logger := lg; submitted := sb |}
    = (Throw e,
       {| this := {| providers := ps; wallets := hdPool provider mnemonic cfg kp pre ws;
                     config := cf; currentNetwork := cur |};
          logger := lg ++ (hdLog cfg kp <$> pre); submitted := sb |}).
Proof.
  intros Hpre Hi ps ws cf cur lg sb.
  rewrite forM__app, hd_loop_ok by exact Hpre.
  cbn [forM_]. unfold bind. rewrite (hdBody_fail i e) by exact Hi. reflexivity.
Qed.
End HDLoop.

Lemma hdPool_snoc provider mnemonic cfg kp indices i ws :
  hdPool provider mnemonic cfg kp (indices ++ [i]) ws
  = OMap.set (kp_address (kp i)) (hdWallet (kp i) mnemonic (path cfg i) provider)
      (hdPool provider mnemonic cfg kp indices ws).
Proof. unfold hdPool. rewrite fold_left_app. reflexivity. Qed.

(** Every index set into the pool has a wallet under its address. *)
Lemma hdPool_holds provider mnemonic cfg kp indices ws j lg sb c :
  j ∈ indices ->
  holds provider (kp_address (kp j))
    {| this := with_wallets c (hdPool provider mnemonic cfg kp indices ws);
       logger := lg; submitted := sb |}.
Proof.
  unfold holds. simpl. induction indices as [|i indices IH] using rev_ind; intros Hin.
  - apply elem_of_nil in Hin as [].
  - rewrite hdPool_snoc, get_set. case_decide as Heq.
    + eexists. split; [reflexivity|]. simpl. auto.
    + apply elem_of_app in Hin as [Hin|Hin]; [auto|].
      apply list_elem_of_singleton in Hin. congruence.
Qed.

Lemma length_hdPool provider mnemonic cfg kp indices ws :
  (length (hdPool provider mnemonic cfg kp indices ws) <= length ws + length indices)%nat.
Proof.
  pose proof (length_keysAfter ((fun i => kp_address (kp i)) <$> indices) (OMap.keys ws)) as H.
  rewrite <- (keys_hdPool provider mnemonic cfg) in H. unfold OMap.keys in H.
  rewrite !length_fmap in H. exact H.
Qed.

(** C6 (amended). With a mnemonic in the configuration, and when ethers
    derives each of the ten accounts, the second block of [initializeWallets] sets exactly the
    ten wallets derived at [hdPath/(accountIndex + i)], i = 0..9, in that
    order, each connected to the provider; [hdPath] defaults to
    [m/44'/60'/0'/0] and [accountIndex] to 0. Into an empty pool, and the
    addresses being distinct, the pool's addresses are the ten derived
    addresses in order. The addresses depend on the mnemonic, the path and the
    index alone: a second initialization that agrees on them, from a pool
    with the same addresses, gives the same addresses in the same order. *)
Theorem initializeFromMnemonic_derives_ten (E : Ethers) (provider : Provider) (w : World)
    (mnemonic : string) (kp : nat -> KeyPair) :
  let cfg := config (this w) in
  let pool := hdPool provider mnemonic cfg kp (seq 0 10) (wallets (this w)) in
  truthy (cfg_mnemonic cfg) = Some mnemonic ->
  (forall i, (i < 10)%nat ->
             HDNodeWallet_fromMnemonic E mnemonic (path cfg i) = Ok (kp i)) ->
  initializeFromMnemonic E provider w
  = (Ok tt, {| this := with_wallets (this w) pool;
               logger := logger w ++ (hdLog cfg kp <$> seq 0 10);
               submitted := submitted w |})
  /\ (forall i, path cfg i
                = orElse (cfg_hdPath cfg) "m/44'/60'/0'/0" +:+ "/"
                    +:+ pretty (default 0 (truthyZ (cfg_accountIndex cfg)) + Z.of_nat i))
  /\ (cfg_hdPath cfg = None -> cfg_accountIndex cfg = None ->
      forall i, path cfg i = "m/44'/60'/0'/0/" +:+ pretty (Z.of_nat i))
  /\ (wallets (this w) = [] ->
      NoDup ((fun i => kp_address (kp i)) <$> seq 0 10) ->
      OMap.keys pool = (fun i => kp_address (kp i)) <$> seq 0 10
      /\ length pool = 10%nat)
  /\ (forall provider2 w2,
        cfg_mnemonic (config (this w2)) = cfg_mnemonic cfg ->
        cfg_hdPath (config (this w2)) = cfg_hdPath cfg ->
        cfg_accountIndex (config (this w2)) = cfg_accountIndex cfg ->
        OMap.keys (wallets (this w2)) = OMap.keys (wallets (this w)) ->
        exists w2',
          initializeFromMnemonic E provider2 w2 = (Ok tt, w2')
          /\ OMap.keys (wallets (this w2')) = OMap.keys pool).
Proof.
  intros cfg pool Hm Hd.
  assert (Hrun : forall p w0,
            truthy (cfg_mnemonic (config (this w0))) = Some mnemonic ->
            (forall i, path (config (this w0)) i = path cfg i) ->
            initializeFromMnemonic E p w0
            = (Ok tt, {| this := with_wallets (this w0)
                                   (hdPool p mnemonic cfg kp (seq 0 10) (wallets (this w0)));
                         logger := logger w0 ++ (hdLog cfg kp <$> seq 0 10);
                         submitted := submitted w0 |})).
  { intros p w0 Hm0 Hpath. rewrite initializeFromMnemonic_unfold, Hm0.
    assert (Hbody : forall i w1, hdBody E p mnemonic (config (this w0)) i w1
                                 = hdBody E p mnemonic cfg i w1).
    { intros i w1. unfold hdBody. rewrite Hpath. reflexivity. }
    assert (Hloop : forall l w1, forM_ l (hdBody E p mnemonic (config (this w0))) w1
                                 = forM_ l (hdBody E p mnemonic cfg) w1).
    { induction l as [|i l IH]; intros w1; [reflexivity|].
      cbn [forM_]. unfold bind. rewrite Hbody.
      destruct (hdBody E p mnemonic cfg i w1) as [[[]|e] w2]; [apply IH | reflexivity]. }
    unfold try_catch. rewrite Hloop.
    destruct w0 as [[ps ws cf cur] lg sb].
    rewrite (hd_loop_ok E p mnemonic cfg kp); [reflexivity|].
    intros i Hi. apply Hd. apply elem_of_seq in Hi. lia. }
  split; [apply Hrun; auto|].
  split; [reflexivity|].
  split.
  { intros Hh Ha i. unfold path, hdPath, startIndex. rewrite Hh, Ha. reflexivity. }
  split.
  { intros Hempty Hnd. subst pool. rewrite Hempty.
    assert (Hkeys : OMap.keys (hdPool provider mnemonic cfg kp (seq 0 10) [])
                    = (fun i => kp_address (kp i)) <$> seq 0 10).
    { rewrite keys_hdPool. apply (keysAfter_fresh _ []). exact Hnd. }
    split; [exact Hkeys|].
    apply (f_equal length) in Hkeys. unfold OMap.keys in Hkeys.
    rewrite !length_fmap in Hkeys. exact Hkeys. }
  intros provider2 w2 Hm2 Hh2 Hi2 Hk2. eexists. split.
  - apply Hrun.
    + rewrite Hm2. exact Hm.
    + intros i. unfold path, hdPath, startIndex. rewrite Hh2, Hi2. reflexivity.
  - subst pool. cbn [this wallets with_wallets]. rewrite !keys_hdPool, Hk2. reflexivity.
Qed.

(** The mnemonic block when the derivation at position [i] throws. *)
Lemma initializeFromMnemonic_stop_run (E : Ethers) (provider : Provider)
    (w : World) (mnemonic : string) (kp : nat -> KeyPair) (i : nat) (e : Thrown) :
  truthy (cfg_mnemonic (config (this w))) = Some mnemonic ->
  (i < 10)%nat ->
  (forall j, (j < i)%nat ->
             HDNodeWallet_fromMnemonic E mnemonic (path (config (this w)) j) = Ok (kp j)) ->
  HDNodeWallet_fromMnemonic E mnemonic (path (config (this w)) i) = Throw e ->
  initializeFromMnemonic E provider w
  = (Ok tt,
     {| this := with_wallets (this w)
                  (hdPool provider mnemonic (config (this w)) kp (seq 0 i) (wallets (this w)));
        logger := logger w ++ (hdLog (config (this w)) kp <$> seq 0 i) ++ [hdFailure e];
        submitted := submitted w |}).
Proof.
  intros Hm Hi Hpre Hfail.
  rewrite initializeFromMnemonic_unfold, Hm.
  replace (seq 0 10) with (seq 0 i ++ i :: seq (S i) (10 - S i)).
  2:{ change (i :: seq (S i) (10 - S i)) with (seq i (S (10 - S i))).
      change i with (0 + i)%nat at 2. rewrite <- seq_app. f_equal. lia. }
  unfold try_catch. destruct w as [[ps ws cf cur] lg sb].
  rewrite (hd_loop_fail E provider mnemonic _ kp (seq 0 i) i _ e).
  - unfold log. simpl. rewrite <- app_assoc. reflexivity.
  - intros j Hj. apply Hpre. apply elem_of_seq in Hj. lia.
  - exact Hfail.
Qed.

(** C10. The HD loop is inside one [try]: when the derivation at position
    [i] throws, the wallets derived at positions 0..i-1 stay in the pool, the
    failure is logged once, and the block adds at most [i] (fewer than ten) HD
    wallets. Nothing is derived for the positions after [i]: the outcome is
    the same whatever ethers would derive there. *)
Theorem initializeFromMnemonic_stops_at_first_failure (E : Ethers) (provider : Provider)
    (w : World) (mnemonic : string) (kp : nat -> KeyPair) (i : nat) (e : Thrown) :
  let cfg := config (this w) in
  let pool := hdPool provider mnemonic cfg kp (seq 0 i) (wallets (this w)) in
  let w' := {| this := with_wallets (this w) pool;
               logger := logger w ++ (hdLog cfg kp <$> seq 0 i) ++ [hdFailure e];
               submitted := submitted w |} in
  truthy (cfg_mnemonic cfg) = Some mnemonic ->
  (i < 10)%nat ->
  (forall j, (j < i)%nat ->
             HDNodeWallet_fromMnemonic E mnemonic (path cfg j) = Ok (kp j)) ->
  HDNodeWallet_fromMnemonic E mnemonic (path cfg i) = Throw e ->
  initializeFromMnemonic E provider w = (Ok tt, w')
  /\ (forall j, (j < i)%nat -> holds provider (kp_address (kp j)) w')
  /\ (length pool <= length (wallets (this w)) + i)%nat
  /\ (length pool < length (wallets (this w)) + 10)%nat
  /\ (forall E' : Ethers,
        (forall j, (j <= i)%nat ->
                   HDNodeWallet_fromMnemonic E' mnemonic (path cfg j)
                   = HDNodeWallet_fromMnemonic E mnemonic (path cfg j)) ->
        initializeFromMnemonic E' provider w = (Ok tt, w')).
Proof.
  intros cfg pool w' Hm Hi Hpre Hfail.
  assert (Hlen : (length pool <= length (wallets (this w)) + i)%nat).
  { subst pool. etransitivity; [apply length_hdPool|]. rewrite length_seq. lia. }
  split; [|split; [|split; [exact Hlen | split; [lia|]]]].
  - apply initializeFromMnemonic_stop_run; assumption.
  - intros j Hj. subst w'. apply hdPool_holds. apply elem_of_seq. lia.
  - intros E' Hsame. apply initializeFromMnemonic_stop_run; [assumption | assumption | |].
    + intros j Hj. fold cfg. rewrite Hsame by lia. apply Hpre, Hj.
    + fold cfg. rewrite Hsame by lia. exact Hfail.
Qed.

(** ** The keys of the wallet pool are unique *)

(** The hypothesis [NoDup (OMap.keys (wallets _))] of the statements above
    holds of every client: the pool starts empty and is only changed by
    [set]. *)

Lemma keyBody_unique E provider entry w : unique_after w (keyBody E provider entry w).2.
Proof.
  destruct entry as [index privateKey].
  unfold keyBody, try_catch, new_Wallet, unique_after. run.
  destruct (Wallet_keys E privateKey); simpl; auto using NoDup_keys_set.
Qed.

Lemma hdBody_unique E provider mnemonic cfg i w :
  unique_after w (hdBody E provider mnemonic cfg i w).2.
Proof.
  unfold hdBody, fromMnemonic, unique_after. run.
  destruct (HDNodeWallet_fromMnemonic E mnemonic (path cfg i)); simpl;
    auto using NoDup_keys_set.
Qed.

Lemma initializeWallets_unique (E : Ethers) (w : World) :
  unique_after w (initializeWallets E w).2.
Proof.
  assert (Hrefl : forall w0, unique_after w0 w0) by (intros w0 H; exact H).
  assert (Htrans : forall w1 w2 w3,
             unique_after w1 w2 -> unique_after w2 w3 -> unique_after w1 w3)
    by (intros w1 w2 w3 H1 H2 H; exact (H2 (H1 H))).
  unfold initializeWallets, bind. rewrite getProvider_current.
  destruct (providers (this w) !! currentNetwork (this w)) as [provider|]; [|apply Hrefl].
  assert (Hkeys : unique_after w (initializeFromPrivateKeys E provider w).2).
  { rewrite initializeFromPrivateKeys_unfold.
    destruct (cfg_privateKeys (config (this w))) as [privateKeys|]; [|apply Hrefl].
    case_bool_decide; [|apply Hrefl].
    apply forM__preserves; auto using keyBody_unique. }
  destruct (initializeFromPrivateKeys_returns E provider w) as (w1 & Hk & _).
  rewrite Hk in *. simpl in Hkeys.
  eapply Htrans; [exact Hkeys|].
  rewrite initializeFromMnemonic_unfold.
  destruct (truthy (cfg_mnemonic (config (this w1)))) as [mnemonic|]; [|apply Hrefl].
  pose proof (forM__preserves unique_after (seq 0 10)
                (hdBody E provider mnemonic (config (this w1))) Hrefl Htrans
                (hdBody_unique E provider mnemonic (config (this w1))) w1) as Hloop.
  unfold try_catch.
  destruct (forM_ (seq 0 10) (hdBody E provider mnemonic (config (this w1))) w1)
    as [[[]|e] w2]; exact Hloop.
Qed.

Lemma new_EVMClient_unique (E : Ethers) (cfg : EVMConfig) :
  NoDup (OMap.keys (wallets (this (new_EVMClient E cfg).2))).
Proof.
  unfold new_EVMClient, constructor, bind. rewrite initializeProviders_fresh.
  apply initializeWallets_unique. apply NoDup_nil_2.
Qed.

Lemma rebind_keys (p : Provider) (ws : list (string * Wallet)) :
  OMap.keys (rebind p ws) = OMap.keys ws.
Proof.
  unfold rebind, OMap.keys. rewrite <- list_fmap_compose.
  apply list_fmap_ext. intros i [a wallet] _. reflexivity.
Qed.

Lemma switchNetwork_unique (w : World) (n : string) :
  NoDup (OMap.keys (wallets (this w))) -> unique_after w (switchNetwork n w).2.
Proof.
  intros Hnd _. rewrite (switchNetwork_run w n Hnd).
  destruct (providers (this w) !! n); simpl; [rewrite rebind_keys|]; exact Hnd.
Qed.

(** * The client on concrete inputs *)

(** ** C1 on the request with both fee models *)

Lemma sendTransaction_fee_selection_witness :
  providers (this Scenario.client) !! currentNetwork (this Scenario.client)
  = Some Scenario.mainnet
  /\ selectWallet None (wallets (this Scenario.client)) = Some Scenario.signer
  /\ submitted (sendTransaction Stub.ethers Scenario.request Scenario.client).2
     = [(Scenario.signer, Scenario.built)]
  /\ tx_gasPrice Scenario.built = None
  /\ submitted (sendTransaction Stub.ethers Scenario.legacy Scenario.client).2
     = [(Scenario.signer, Scenario.builtLegacy)]
  /\ submitted (sendTransaction Stub.ethers (Scenario.transfer None) Scenario.client).2
     = [(Scenario.signer, Scenario.builtPlain)].
Proof.
  assert (H1 : providers (this Scenario.client) !! currentNetwork (this Scenario.client)
               = Some Scenario.mainnet) by (vm_compute; reflexivity).
  assert (H2 : selectWallet None (wallets (this Scenario.client)) = Some Scenario.signer)
    by (vm_compute; reflexivity).
  assert (Hv : forall request, req_value request = Some "0.1" ->
                 valueOf Stub.ethers (req_value request) Scenario.client
                 = (Ok 100000000000000000, Scenario.client)).
  { intros request ->. reflexivity. }
  assert (Hnone : forall f, f = None -> converted Stub.ethers f None).
  { intros f ->. reflexivity. }
  assert (Hsome : forall f s n, f = Some s -> Stub.bigint s = Ok n -> s <> "" ->
                    converted Stub.ethers f (Some n)).
  { intros f s n -> Hn Hs. unfold converted. destruct s as [|c s]; [congruence|].
    exists n. split; [exact Hn | reflexivity]. }
  destruct (sendTransaction_fee_selection Stub.ethers Scenario.request Scenario.client
              Scenario.mainnet Scenario.signer 100000000000000000 None
              H1 H2 (Hv Scenario.request eq_refl) (Hnone _ eq_refl)) as (Hpair & _ & _).
  destruct (sendTransaction_fee_selection Stub.ethers Scenario.legacy Scenario.client
              Scenario.mainnet Scenario.signer 100000000000000000 (Some 21000)
              H1 H2 (Hv Scenario.legacy eq_refl)
              (Hsome _ "21000" 21000 eq_refl eq_refl ltac:(discriminate)))
    as (_ & Hlegacy & _).
  destruct (sendTransaction_fee_selection Stub.ethers (Scenario.transfer None) Scenario.client
              Scenario.mainnet Scenario.signer 100000000000000000 None
              H1 H2 (Hv (Scenario.transfer None) eq_refl) (Hnone _ eq_refl))
    as (_ & _ & Hplain).
  split; [exact H1|]. split; [exact H2|].
  split; [rewrite (Hpair 10 1 (Hsome _ "10" 10 eq_refl eq_refl ltac:(discriminate))
                     (Hsome _ "1" 1 eq_refl eq_refl ltac:(discriminate)));
          vm_compute; reflexivity|].
  split; [reflexivity|].
  split.
  - rewrite (Hlegacy 5); [vm_compute; reflexivity | |].
    + intros [_ [x Hx]]. discriminate Hx.
    + exact (Hsome _ "5" 5 eq_refl eq_refl ltac:(discriminate)).
  - rewrite Hplain; [vm_compute; reflexivity | |].
    + intros [[x Hx] _]. discriminate Hx.
    + intros [x Hx]. discriminate Hx.
Defined.

(** ** C2 on a switch to polygon *)

Lemma switchNetwork_spec_witness :
  NoDup (OMap.keys (wallets (this Scenario.client)))
  /\ (switchNetwork "polygon" Scenario.client).1 = Ok tt
  /\ currentNetwork (this (switchNetwork "polygon" Scenario.client).2) = "polygon"
  /\ wallets (this (switchNetwork "polygon" Scenario.client).2)
     = rebind Scenario.polygon (wallets (this Scenario.client)).
Proof.
  assert (Hnd : NoDup (OMap.keys (wallets (this Scenario.client)))).
  { refine (bool_decide_unpack _ _). vm_compute. exact I. }
  destruct (switchNetwork_spec Scenario.client "polygon" Hnd) as [Heq _].
  assert (Hp : providers (this Scenario.client) !! "polygon" = Some Scenario.polygon)
    by (vm_compute; reflexivity).
  rewrite Hp in Heq. rewrite Heq.
  split; [exact Hnd|]. split; [reflexivity|]. split; reflexivity.
Defined.

(** ** C3 on overridden endpoints *)

(** The provider of the default network cannot be constructed, because the
    chain id configured for "mainnet" is not a safe integer: the failure is
    caught and logged, the pool has no provider for "mainnet", and
    [new EVMClient] throws. It also throws when the default network is not
    registered at all. *)
Lemma constructor_aborts_without_default_provider :
  rejected Stub.ethers (Scenario.broken "Mainnet" "https://eth.llamarpc.com")
  = Some (JsError "TypeError" "overflow")
  /\ providers (this (new_EVMClient Stub.ethers Scenario.brokenMainnetConfig).2) !! "mainnet"
     = None
  /\ (new_EVMClient Stub.ethers Scenario.brokenMainnetConfig).1
     = Throw (Error "Provider not found for network: mainnet")
  /\ (new_EVMClient Stub.ethers Scenario.brokenMainnetConfig).1 <> Ok tt
  /\ (new_EVMClient Stub.ethers Scenario.unregisteredDefaultConfig).1
     = Throw (Error "Provider not found for network: goerli").
Proof.
  split; [vm_compute; reflexivity|].
  split; [vm_compute; reflexivity|].
  split; [vm_compute; reflexivity|].
  split; [vm_compute; discriminate | vm_compute; reflexivity].
Qed.

Lemma constructor_tolerates_other_networks_witness :
  NoDup (OMap.keys (default [] (cfg_networks Scenario.brokenPolygonConfig)))
  /\ (new_EVMClient Stub.ethers Scenario.brokenPolygonConfig).1 = Ok tt
  /\ providers (this (new_EVMClient Stub.ethers Scenario.brokenPolygonConfig).2) !! "polygon"
     = None
  /\ providerFailure (Scenario.broken "Polygon" "https://polygon-rpc.com")
       (JsError "TypeError" "overflow")
     ∈ logger (new_EVMClient Stub.ethers Scenario.brokenPolygonConfig).2.
Proof.
  assert (Hnd : NoDup (OMap.keys (default [] (cfg_networks Scenario.brokenPolygonConfig)))).
  { refine (bool_decide_unpack _ _). vm_compute. exact I. }
  destruct (constructor_tolerates_other_networks Stub.ethers Scenario.brokenPolygonConfig Hnd)
    as [Hpool Hres].
  specialize (Hpool "polygon" (Scenario.broken "Polygon" "https://polygon-rpc.com")).
  split; [exact Hnd|]. split; [exact Hres|].
  apply Hpool. vm_compute. reflexivity.
Defined.

(** ** C4 on a client without wallets *)

(** With an empty pool and no from-address, [sendTransaction] throws "No
    wallet available" while [estimateGas] returns the node's estimate. *)
Lemma estimateGas_returns_with_empty_pool :
  wallets (this Scenario.emptyClient) = []
  /\ selectWallet (req_from (Scenario.transfer None)) (wallets (this Scenario.emptyClient))
     = None
  /\ (sendTransaction Stub.ethers (Scenario.transfer None) Scenario.emptyClient).1
     = Throw (Error "No wallet available for sending transaction")
  /\ (estimateGas Stub.ethers (Scenario.transfer None) Scenario.emptyClient).1
     = Ok {| ge_gasLimit := "21000"; ge_gasPrice := None;
             ge_maxFeePerGas := Some "40000000000";
             ge_maxPriorityFeePerGas := Some "1000000000";
             ge_estimatedCost := "0.00084" |}
  /\ ~ (exists e, (estimateGas Stub.ethers (Scenario.transfer None) Scenario.emptyClient).1
                  = Throw e).
Proof.
  split; [vm_compute; reflexivity|].
  split; [vm_compute; reflexivity|].
  split; [vm_compute; reflexivity|].
  split; [vm_compute; reflexivity|].
  intros [e He]. vm_compute in He. discriminate He.
Qed.

Lemma estimateGas_ignores_identity_pool_witness :
  providers (this Scenario.client) !! currentNetwork (this Scenario.client)
  = Some Scenario.mainnet
  /\ valueOf Stub.ethers (req_value (Scenario.transfer None)) Scenario.client
     = (Ok 100000000000000000, Scenario.client)
  /\ exists estimation,
       ge_gasLimit estimation = "21000"
       /\ (estimateGas Stub.ethers (Scenario.transfer None)
             {| this := with_wallets (this Scenario.client) [];
                logger := logger Scenario.client;
                submitted := submitted Scenario.client |}).1
          = Ok estimation.
Proof.
  assert (H1 : providers (this Scenario.client) !! currentNetwork (this Scenario.client)
               = Some Scenario.mainnet) by (vm_compute; reflexivity).
  assert (H2 : valueOf Stub.ethers (req_value (Scenario.transfer None)) Scenario.client
               = (Ok 100000000000000000, Scenario.client)) by (vm_compute; reflexivity).
  destruct (estimateGas_ignores_identity_pool Stub.ethers (Scenario.transfer None)
              Scenario.client Scenario.mainnet 100000000000000000 21000
              {| fd_gasPrice := Some 20000000000; fd_maxFeePerGas := Some 40000000000;
                 fd_maxPriorityFeePerGas := Some 1000000000 |}
              H1 H2 eq_refl eq_refl) as (estimation & Hgl & Hrun).
  split; [exact H1|]. split; [exact H2|].
  exists estimation. split; [exact Hgl|]. rewrite (Hrun []). reflexivity.
Defined.

(** ** C5 on a lower-case from-address *)

(** The pool holds the wallet of account 0 under its checksummed address;
    a request from the same address in lower case finds no wallet. *)
Lemma lowercase_from_finds_no_wallet :
  OMap.get Scenario.checksummed (wallets (this Scenario.client)) = Some Scenario.signer
  /\ Scenario.lower Scenario.checksummed = Scenario.lower Scenario.lowercased
  /\ selectWallet (Some Scenario.lowercased) (wallets (this Scenario.client)) = None
  /\ (sendTransaction Stub.ethers (Scenario.transfer (Some Scenario.lowercased))
        Scenario.client).1
     = Throw (Error "No wallet available for sending transaction").
Proof.
  split; [vm_compute; reflexivity|].
  split; [vm_compute; reflexivity|].
  split; vm_compute; reflexivity.
Qed.

Lemma sendTransaction_exact_address_lookup_witness :
  providers (this Scenario.client) !! currentNetwork (this Scenario.client)
  = Some Scenario.mainnet
  /\ Scenario.checksummed <> ""
  /\ (Scenario.checksummed, Scenario.signer) ∈ wallets (this Scenario.client)
  /\ NoDup (OMap.keys (wallets (this Scenario.client)))
  /\ selectWallet (req_from (Scenario.transfer (Some Scenario.checksummed)))
       (wallets (this Scenario.client))
     = Some Scenario.signer.
Proof.
  assert (H1 : providers (this Scenario.client) !! currentNetwork (this Scenario.client)
               = Some Scenario.mainnet) by (vm_compute; reflexivity).
  assert (H3 : Scenario.checksummed <> "") by discriminate.
  assert (Hin : (Scenario.checksummed, Scenario.signer) ∈ wallets (this Scenario.client)).
  { vm_compute. apply list_elem_of_here. }
  assert (Hnd : NoDup (OMap.keys (wallets (this Scenario.client)))).
  { refine (bool_decide_unpack _ _). vm_compute. exact I. }
  destruct (sendTransaction_exact_address_lookup Stub.ethers
              (Scenario.transfer (Some Scenario.checksummed))
              Scenario.client Scenario.mainnet Scenario.checksummed H1 eq_refl)
    as (_ & Hsel & _).
  split; [exact H1|]. split; [exact H3|]. split; [exact Hin|]. split; [exact Hnd|].
  exact (Hsel H3 Scenario.signer Hin Hnd).
Defined.

(** ** C6 on an account index two below 2^31 *)

(** A mnemonic is supplied and construction completes, but the pool holds
    two identities, not ten: the path component 2^31 at the third position
    is not a valid index, so that derivation throws and ends the loop. *)
Lemma mnemonic_derives_fewer_than_ten :
  truthy (cfg_mnemonic Scenario.lastIndicesConfig) = Some Stub.mnemonic
  /\ path Scenario.lastIndicesConfig 2 = "m/44'/60'/0'/0/2147483648"
  /\ HDNodeWallet_fromMnemonic Stub.ethers Stub.mnemonic (path Scenario.lastIndicesConfig 2)
     = Throw (JsError "TypeError" "invalid path index: m/44'/60'/0'/0/2147483648")
  /\ (new_EVMClient Stub.ethers Scenario.lastIndicesConfig).1 = Ok tt
  /\ length (wallets (this (new_EVMClient Stub.ethers Scenario.lastIndicesConfig).2)) = 2%nat
  /\ length (wallets (this (new_EVMClient Stub.ethers Scenario.lastIndicesConfig).2))
     <> 10%nat.
Proof.
  split; [reflexivity|]. split; [vm_compute; reflexivity|].
  split; [vm_compute; reflexivity|]. split; [vm_compute; reflexivity|].
  split; [vm_compute; reflexivity | vm_compute; discriminate].
Qed.

(** ** C6 on the test mnemonic *)

Lemma initializeFromMnemonic_derives_ten_witness :
  truthy (cfg_mnemonic (config (this Scenario.hdStart))) = Some Stub.mnemonic
  /\ (forall i, (i < 10)%nat ->
                HDNodeWallet_fromMnemonic Stub.ethers Stub.mnemonic
                  (path (config (this Scenario.hdStart)) i)
                = Ok (Scenario.hdKeys (config (this Scenario.hdStart)) i))
  /\ (initializeFromMnemonic Stub.ethers Scenario.mainnet Scenario.hdStart).1 = Ok tt
  /\ OMap.keys (wallets (this (initializeFromMnemonic Stub.ethers Scenario.mainnet
                                  Scenario.hdStart).2))
     = [ "0xf39Fd6e51aad88F6F4ce6aB8827279cffFb92266";
         "0x70997970C51812dc3A010C7d01b50e0d17dc79C8";
         "0x3C44CdDdB6a900fa2b585dd299e03d12FA4293BC";
         "0x90F79bf6EB2c4f870365E785982E1f101E93b906";
         "0x15d34AAf54267DB7D7c367839AAf71A00a2C6A65";
         "0x9965507D1a55bcC2695C58ba16FB37d819B0A4dc";
         "0x976EA74026E726554dB657fA54763abd0C3a0aa9";
         "0x14dC79964da2C08b23698B3D3cc7Ca32193d9955";
         "0x23618e81E3f5cdF7f54C3d65f7FBc0aBf5B21E8f";
         "0xa0Ee7A142d267C1f36714E4a8F75612F20a79720" ].
Proof.
  assert (H1 : truthy (cfg_mnemonic (config (this Scenario.hdStart))) = Some Stub.mnemonic)
    by reflexivity.
  assert (H2 : forall i, (i < 10)%nat ->
                 HDNodeWallet_fromMnemonic Stub.ethers Stub.mnemonic
                   (path (config (this Scenario.hdStart)) i)
                 = Ok (Scenario.hdKeys (config (this Scenario.hdStart)) i)).
  { intros i Hi. do 10 (destruct i as [|i]; [vm_compute; reflexivity|]). lia. }
  destruct (initializeFromMnemonic_derives_ten Stub.ethers Scenario.mainnet
              Scenario.hdStart Stub.mnemonic
              (Scenario.hdKeys (config (this Scenario.hdStart))) H1 H2)
    as (Hrun & _ & _ & Hkeys & _).
  destruct Hkeys as [Hkeys _]; [reflexivity | |].
  { refine (bool_decide_unpack _ _). vm_compute. exact I. }
  split; [exact H1|]. split; [exact H2|].
  rewrite Hrun. split; [reflexivity|].
  cbn [snd this wallets with_wallets]. rewrite Hkeys. vm_compute. reflexivity.
Defined.

(** The same addresses, at the end of [new EVMClient]. *)
Example new_EVMClient_hd_addresses :
  (new_EVMClient Stub.ethers Scenario.hdConfig).1 = Ok tt
  /\ OMap.keys (wallets (this (new_EVMClient Stub.ethers Scenario.hdConfig).2))
     = (fun i => kp_address (Scenario.hdKeys Scenario.hdConfig i)) <$> seq 0 10.
Proof. split; vm_compute; reflexivity. Qed.

(** ** C7 on a client without wallets *)


(** ** C8 on two good keys around a malformed one *)

Lemma initializeWallets_skips_bad_keys_witness :
  providers (this Scenario.keysStart) !! currentNetwork (this Scenario.keysStart)
  = Some Scenario.mainnet
  /\ cfg_privateKeys (config (this Scenario.keysStart))
     = Some [kp_privateKey Stub.account0; "0x1234"; kp_privateKey Stub.account1]
  /\ truthy (cfg_mnemonic (config (this Scenario.keysStart))) = None
  /\ exists w',
       initializeWallets Stub.ethers Scenario.keysStart = (Ok tt, w')
       /\ OMap.keys (wallets (this w'))
          = [kp_address Stub.account0; kp_address Stub.account1]
       /\ holds Scenario.mainnet (kp_address Stub.account0) w'
       /\ holds Scenario.mainnet (kp_address Stub.account1) w'
       /\ keyFailure (JsError "TypeError" "invalid private key") ∈ logger w'.
Proof.
  assert (H1 : providers (this Scenario.keysStart) !! currentNetwork (this Scenario.keysStart)
               = Some Scenario.mainnet) by (vm_compute; reflexivity).
  assert (H2 : cfg_privateKeys (config (this Scenario.keysStart))
               = Some [kp_privateKey Stub.account0; "0x1234"; kp_privateKey Stub.account1])
    by reflexivity.
  assert (H3 : truthy (cfg_mnemonic (config (this Scenario.keysStart))) = None)
    by reflexivity.
  destruct (initializeWallets_skips_bad_keys Stub.ethers Scenario.keysStart Scenario.mainnet
              _ H1 H2) as (_ & w' & Hrun & _ & Hfinal & Hgood & Hbad).
  split; [exact H1|]. split; [exact H2|]. split; [exact H3|].
  exists w'. split; [exact Hrun|].
  split; [rewrite (Hfinal H3); vm_compute; reflexivity|].
  split; [|split].
  - apply (Hgood (kp_privateKey Stub.account0) Stub.account0);
      [apply list_elem_of_here | reflexivity].
  - apply (Hgood (kp_privateKey Stub.account1) Stub.account1);
      [do 2 apply list_elem_of_further; apply list_elem_of_here | reflexivity].
  - apply (Hbad "0x1234");
      [apply list_elem_of_further, list_elem_of_here | reflexivity].
Defined.

(** ** C9 on an unreachable name *)



(** ** C10 on an account index two below 2^31 *)

Lemma initializeFromMnemonic_stops_at_first_failure_witness :
  truthy (cfg_mnemonic (config (this Scenario.lastIndicesStart))) = Some Stub.mnemonic
  /\ (forall j, (j < 2)%nat ->
                HDNodeWallet_fromMnemonic Stub.ethers Stub.mnemonic
                  (path (config (this Scenario.lastIndicesStart)) j)
                = Ok (Scenario.hdKeys (config (this Scenario.lastIndicesStart)) j))
  /\ HDNodeWallet_fromMnemonic Stub.ethers Stub.mnemonic
       (path (config (this Scenario.lastIndicesStart)) 2)
     = Throw (JsError "TypeError" "invalid path index: m/44'/60'/0'/0/2147483648")
  /\ (initializeFromMnemonic Stub.ethers Scenario.mainnet Scenario.lastIndicesStart).1 = Ok tt
  /\ OMap.keys (wallets (this (initializeFromMnemonic Stub.ethers Scenario.mainnet
                                  Scenario.lastIndicesStart).2))
     = [ "0x1CBd3b2770909D4e10f157cABC84C7264073C9Ec";
         "0xdF3e18d64BC6A983f673Ab319CCaE4f1a57C7097" ].
Proof.
  assert (H1 : truthy (cfg_mnemonic (config (this Scenario.lastIndicesStart)))
               = Some Stub.mnemonic) by reflexivity.
  assert (H2 : forall j, (j < 2)%nat ->
                 HDNodeWallet_fromMnemonic Stub.ethers Stub.mnemonic
                   (path (config (this Scenario.lastIndicesStart)) j)
                 = Ok (Scenario.hdKeys (config (this Scenario.lastIndicesStart)) j)).
  { intros j Hj. do 2 (destruct j as [|j]; [vm_compute; reflexivity|]). lia. }
  assert (H3 : HDNodeWallet_fromMnemonic Stub.ethers Stub.mnemonic
                 (path (config (this Scenario.lastIndicesStart)) 2)
               = Throw (JsError "TypeError" "invalid path index: m/44'/60'/0'/0/2147483648"))
    by (vm_compute; reflexivity).
  assert (H4 : (2 < 10)%nat) by lia.
  destruct (initializeFromMnemonic_stops_at_first_failure Stub.ethers Scenario.mainnet
              Scenario.lastIndicesStart Stub.mnemonic
              (Scenario.hdKeys (config (this Scenario.lastIndicesStart))) 2 _ H1 H4 H2 H3)
    as (Hrun & _).
  split; [exact H1|]. split; [exact H2|]. split; [exact H3|].
  rewrite Hrun. split; [reflexivity|]. vm_compute. reflexivity.
Defined.

(** The same two wallets, and the failure as the last log entry, at the end
    of [new EVMClient]. *)
Example new_EVMClient_last_indices :
  (new_EVMClient Stub.ethers Scenario.lastIndicesConfig).1 = Ok tt
  /\ length (wallets (this (new_EVMClient Stub.ethers Scenario.lastIndicesConfig).2)) = 2%nat
  /\ last (logger (new_EVMClient Stub.ethers Scenario.lastIndicesConfig).2)
     = Some (hdFailure (JsError "TypeError" "invalid path index: m/44'/60'/0'/0/2147483648")).
Proof. repeat split; vm_compute; reflexivity. Qed.

(** * Further properties *)

(** ** Methods that only read *)

Ltac cases_of_run :=
  repeat match goal with
         | |- context [match ?x with _ => _ end] =>
             lazymatch x with
             | context [match _ with _ => _ end] => fail
             | _ => destruct x eqn:?; simpl
             end
         end.

Ltac run_method :=
  unfold getNetwork, getBalance, estimateGas, getBlock, getTransaction, getLogs,
    resolveENS, getWalletAddresses, callContract, getGasPrices, waitForTransaction,
    signMessage, verifyMessage, sendContractTransaction, deployContract, createWallet,
    importWallet, getProvider, valueOf, new_Contract, new_ContractFactory, new_Wallet,
    try_catch;
  run; cases_of_run.

(** X1. The methods that query the node or the pool leave the whole state as it
    is, whatever they return or throw: no provider, wallet or cursor changes,
    nothing is logged and nothing is submitted. *)
Theorem queries_change_nothing (E : Ethers) (N : Node) (w : World) :
  (forall network, (getProvider network w).2 = w)
  /\ (getNetwork N w).2 = w
  /\ (forall address, (getBalance E N address w).2 = w)
  /\ (forall request, (estimateGas E request w).2 = w)
  /\ (forall blockNumber, (getBlock N blockNumber w).2 = w)
  /\ (forall hash, (getTransaction N hash w).2 = w)
  /\ (forall filter, (getLogs N filter w).2 = w)
  /\ (forall name, (resolveENS E name w).2 = w)
  /\ (getWalletAddresses w).2 = w
  /\ (forall address abi method params, (callContract E address abi method params w).2 = w)
  /\ (getGasPrices E w).2 = w
  /\ (forall hash confirmations, (waitForTransaction N hash confirmations w).2 = w)
  /\ (forall message address, (signMessage N message address w).2 = w)
  /\ (forall message signature, (verifyMessage N message signature w).2 = w).
Proof.
  repeat split; intros; run_method; reflexivity.
Qed.

(** ** Methods that send *)

(** [sendTransaction], by cases. *)
Lemma sendTransaction_world (E : Ethers) (request : TransactionRequest) (w : World) :
  exists r w',
    sendTransaction E request w = (r, w')
    /\ this w' = this w
    /\ logger w `prefix_of` logger w'
    /\ ((submitted w' = submitted w /\ exists e, r = Throw e)
        \/ exists wallet tx,
             selectWallet (req_from request) (wallets (this w)) = Some wallet
             /\ buildTransaction E request w = (Ok tx, w)
             /\ submitted w' = submitted w ++ [(wallet, tx)]).
Proof.
  pose proof (buildTransaction_world E request w) as Hworld.
  unfold sendTransaction, bind at 1. rewrite getProvider_current.
  destruct (providers (this w) !! currentNetwork (this w)) as [provider|] eqn:Hp.
  2:{ eexists _, w. split; [reflexivity|]. split; [reflexivity|]. split; [reflexivity|].
      left. eauto. }
  unfold bind at 1, get_this at 1.
  destruct (selectWallet (req_from request) (wallets (this w))) as [wallet|] eqn:Hw.
  2:{ eexists _, w. split; [reflexivity|]. split; [reflexivity|]. split; [reflexivity|].
      left. eauto. }
  unfold bind at 1.
  destruct (buildTransaction E request w) as [[tx|e] w1] eqn:Hb; simpl in Hworld; subst w1.
  2:{ eexists _, w. split; [reflexivity|]. split; [reflexivity|]. split; [reflexivity|].
      left. eauto. }
  run.
  destruct (wallet_sendTransaction E wallet tx) as [txResponse|e]; simpl;
    [destruct (st_wait txResponse)|]; simpl;
    (eexists _, _; split; [reflexivity|]; simpl; split; [reflexivity|]; split;
     [repeat apply prefix_app_r; reflexivity | right; exists wallet, tx; auto]).
Qed.

(** X2. [sendTransaction] never changes the client object, and it hands at most
    one transaction to a signer: either nothing is submitted (and the call
    has thrown), or exactly the transaction built from the request is
    submitted once to the wallet selected for it. The two contract methods
    that send do not change the client object either. *)
Theorem sending_keeps_the_client (E : Ethers) (w : World) :
  (forall request,
     this (sendTransaction E request w).2 = this w
     /\ ((submitted (sendTransaction E request w).2 = submitted w
          /\ exists e, (sendTransaction E request w).1 = Throw e)
         \/ exists wallet tx,
              selectWallet (req_from request) (wallets (this w)) = Some wallet
              /\ buildTransaction E request w = (Ok tx, w)
              /\ submitted (sendTransaction E request w).2 = submitted w ++ [(wallet, tx)]))
  /\ (forall address abi method params from value gasLimit,
        this (sendContractTransaction E address abi method params from value gasLimit w).2
        = this w)
  /\ (forall abi bytecode params from gasLimit,
        this (deployContract E abi bytecode params from gasLimit w).2 = this w).
Proof.
  split; [|split].
  - intros request.
    destruct (sendTransaction_world E request w) as (r & w' & -> & Hthis & _ & Hsub).
    simpl. split; [exact Hthis | exact Hsub].
  - intros. run_method; reflexivity.
  - intros. run_method; reflexivity.
Qed.

(** ** What no method changes *)

Lemma frame_refl w : frame w w.
Proof. unfold frame. auto. Qed.

Lemma frame_trans w1 w2 w3 : frame w1 w2 -> frame w2 w3 -> frame w1 w3.
Proof.
  unfold frame. intros (? & ? & ? & ?) (? & ? & ? & ?).
  repeat split; try congruence; etrans; eassumption.
Qed.

Ltac frame_of_run :=
  unfold frame; simpl; repeat split; try reflexivity;
  repeat apply prefix_app_r; reflexivity.

Lemma switchNetwork_frame (w : World) (n : string) : frame w (switchNetwork n w).2.
Proof.
  unfold switchNetwork. unfold bind at 1, get_this at 1.
  destruct (providers (this w) !! n) as [p|] eqn:Hp; [|apply frame_refl].
  unfold set_currentNetwork, set_this, log, getProvider, bind, get_this. simpl.
  change (orElse None n) with n. rewrite Hp. unfold ret.
  match goal with
  | |- frame _ (forM_ _ _ ?w1).2 =>
      apply (frame_trans _ w1);
        [frame_of_run
        |apply (forM__preserves frame); [apply frame_refl | apply frame_trans |]]
  end.
  intros [address wallet] w1. unfold set_wallets, set_this. frame_of_run.
Qed.

Lemma calls_frame (E : Ethers) (N : Node) (w w' : World) : calls E N w w' -> frame w w'.
Proof.
  destruct 1; try (run_method; frame_of_run).
  - apply switchNetwork_frame.
  - destruct (sendTransaction_world E request w) as (r & w' & -> & Hthis & Hlog & Hsub).
    unfold frame. simpl. rewrite Hthis. repeat split; [exact Hlog|].
    destruct Hsub as [[-> _]|(wallet & tx & _ & _ & ->)];
      [reflexivity | apply prefix_app_r; reflexivity].
Qed.

(** X3. After construction, the connection pool and the configuration of a
    client never change, whatever methods are called on it and whether they
    return or throw; the log and the list of submitted transactions only
    grow at the end. *)
Theorem reachable_frame (E : Ethers) (N : Node) (w : World) :
  reachable E N w ->
  exists cfg,
    (new_EVMClient E cfg).1 = Ok tt
    /\ providers (this w) = providers (this (new_EVMClient E cfg).2)
    /\ config (this w) = config (this (new_EVMClient E cfg).2)
    /\ logger (new_EVMClient E cfg).2 `prefix_of` logger w
    /\ submitted (new_EVMClient E cfg).2 `prefix_of` submitted w.
Proof.
  induction 1 as [cfg Hok|w w' _ (cfg & Hok & IH) Hcall].
  - exists cfg. repeat split; [exact Hok|reflexivity|reflexivity].
  - exists cfg. split; [exact Hok|].
    apply calls_frame in Hcall. exact (frame_trans _ _ _ IH Hcall).
Qed.

(** ** The pool follows the current network *)

Lemma elem_of_set {V} (k a : string) (v x : V) (m : list (string * V)) :
  (a, x) ∈ OMap.set k v m -> (a, x) = (k, v) \/ (a, x) ∈ m.
Proof.
  induction m as [|[k0 v0] m IH]; simpl; intros Hin.
  - apply list_elem_of_singleton in Hin. auto.
  - case_decide as Hk.
    + apply elem_of_cons in Hin as [Heq|Hin]; [auto|].
      right. apply elem_of_cons. auto.
    + apply elem_of_cons in Hin as [Heq|Hin].
      * right. apply elem_of_cons. auto.
      * destruct (IH Hin) as [Heq|Hm]; [auto|]. right. apply elem_of_cons. auto.
Qed.

Lemma attached_set (p : Provider) (wallet : Wallet) (ws : list (string * Wallet)) :
  w_provider wallet = Some p ->
  attached p ws -> attached p (OMap.set (w_address wallet) wallet ws).
Proof.
  intros Hp Hws a x Hin. apply elem_of_set in Hin as [Heq|Hin]; [|auto].
  injection Heq as -> ->. auto.
Qed.

Lemma attached_rebind (p p' : Provider) (ws : list (string * Wallet)) :
  attached p ws -> attached p' (rebind p' ws).
Proof.
  intros Hws a x Hin. unfold rebind in Hin.
  apply list_elem_of_fmap in Hin as ([a0 x0] & Heq & Hin).
  injection Heq as -> ->. destruct (Hws _ _ Hin) as [Ha _]. simpl. auto.
Qed.

(** Connecting the wallets to the provider they are on changes nothing. *)
Lemma rebind_attached (p : Provider) (ws : list (string * Wallet)) :
  attached p ws -> rebind p ws = ws.
Proof.
  unfold rebind. induction ws as [|[a x] ws IH]; intros Hws; [reflexivity|].
  simpl. f_equal.
  - destruct (Hws a x) as [_ Hp]; [apply elem_of_cons; auto|].
    unfold prod_map, connect. simpl. rewrite <- Hp. destruct x; reflexivity.
  - apply IH. intros a' x' Hin. apply Hws. apply elem_of_cons. auto.
Qed.

Lemma rebind_rebind (p p' : Provider) (ws : list (string * Wallet)) :
  rebind p' (rebind p ws) = rebind p' ws.
Proof.
  unfold rebind. rewrite <- list_fmap_compose.
  apply list_fmap_ext. intros i [a x] _. reflexivity.
Qed.

Lemma keyBody_attached E provider entry w :
  attached provider (wallets (this w)) ->
  attached provider (wallets (this (keyBody E provider entry w).2)).
Proof.
  destruct entry as [index privateKey].
  unfold keyBody, try_catch, new_Wallet. run.
  destruct (Wallet_keys E privateKey) as [kp|e]; simpl; [|auto].
  intros Hws.
  apply (attached_set provider
           {| w_address := kp_address kp; w_privateKey := kp_privateKey kp;
              w_publicKey := kp_publicKey kp; w_path := None; w_mnemonic := None;
              w_provider := Some provider |}); auto.
Qed.

Lemma hdBody_attached E provider mnemonic cfg i w :
  attached provider (wallets (this w)) ->
  attached provider (wallets (this (hdBody E provider mnemonic cfg i w).2)).
Proof.
  unfold hdBody, fromMnemonic. run.
  destruct (HDNodeWallet_fromMnemonic E mnemonic (path cfg i)) as [kp|e]; simpl; [|auto].
  intros Hws.
  apply (attached_set provider
           (connect {| w_address := kp_address kp; w_privateKey := kp_privateKey kp;
                       w_publicKey := kp_publicKey kp; w_path := Some (path cfg i);
                       w_mnemonic := Some mnemonic; w_provider := None |} provider)); auto.
Qed.

Lemma initializeWallets_attached (E : Ethers) (w : World) (provider : Provider) :
  providers (this w) !! currentNetwork (this w) = Some provider ->
  attached provider (wallets (this w)) ->
  attached provider (wallets (this (initializeWallets E w).2)).
Proof.
  intros Hp.
  pose (keeps := fun w1 w2 : World =>
                   attached provider (wallets (this w1)) ->
                   attached provider (wallets (this w2))).
  assert (Hrefl : forall w0, keeps w0 w0) by (intros w0 H; exact H).
  assert (Htrans : forall w1 w2 w3, keeps w1 w2 -> keeps w2 w3 -> keeps w1 w3)
    by (intros w1 w2 w3 H1 H2 H; exact (H2 (H1 H))).
  change (keeps w (initializeWallets E w).2).
  unfold initializeWallets, bind. rewrite getProvider_current, Hp.
  assert (Hkeys : keeps w (initializeFromPrivateKeys E provider w).2).
  { rewrite initializeFromPrivateKeys_unfold.
    destruct (cfg_privateKeys (config (this w))) as [privateKeys|]; [|apply Hrefl].
    case_bool_decide; [|apply Hrefl].
    apply (forM__preserves keeps); auto. intros x w0. exact (keyBody_attached E provider x w0). }
  destruct (initializeFromPrivateKeys_returns E provider w) as (w1 & Hk & _).
  rewrite Hk in *. simpl in Hkeys.
  eapply Htrans; [exact Hkeys|].
  rewrite initializeFromMnemonic_unfold.
  destruct (truthy (cfg_mnemonic (config (this w1)))) as [mnemonic|]; [|apply Hrefl].
  pose proof (forM__preserves keeps (seq 0 10)
                (hdBody E provider mnemonic (config (this w1))) Hrefl Htrans
                (hdBody_attached E provider mnemonic (config (this w1))) w1) as Hloop.
  unfold try_catch.
  destruct (forM_ (seq 0 10) (hdBody E provider mnemonic (config (this w1))) w1)
    as [[[]|e] w2]; exact Hloop.
Qed.

Lemma bound_new (E : Ethers) (cfg : EVMConfig) :
  (new_EVMClient E cfg).1 = Ok tt -> bound (new_EVMClient E cfg).2.
Proof.
  intros Hok. split; [apply new_EVMClient_unique|].
  revert Hok. unfold new_EVMClient, constructor, bind. rewrite initializeProviders_fresh.
  pose proof (initializeWallets_returns E (connected E cfg)) as Hret.
  pose proof (initializeWallets_attached E (connected E cfg)) as Hatt.
  destruct (providers (this (connected E cfg)) !! currentNetwork (this (connected E cfg)))
    as [provider|] eqn:Hp.
  - destruct Hret as (w1 & w' & _ & _ & Hw & Hext1 & Hext2).
    specialize (Hatt provider eq_refl). rewrite Hw in *. simpl in Hatt. simpl fst. simpl snd.
    intros _. exists provider.
    destruct (extends_trans _ _ _ Hext1 Hext2) as (Hps & Hcur & _).
    rewrite Hps, Hcur. split; [exact Hp|].
    apply Hatt. intros a x Hin. apply elem_of_nil in Hin as [].
  - rewrite Hret. simpl. discriminate.
Qed.

(** What a call does to the client object: nothing, a network switch, or
    one wallet set under its address, connected to the current provider. *)
Lemma calls_step (E : Ethers) (N : Node) (w w' : World) :
  calls E N w w' ->
  this w' = this w
  \/ (exists n, w' = (switchNetwork n w).2)
  \/ (exists p wallet,
        providers (this w) !! currentNetwork (this w) = Some p
        /\ w_provider wallet = Some p
        /\ this w'
           = with_wallets (this w) (OMap.set (w_address wallet) wallet (wallets (this w)))).
Proof.
  destruct 1; try (left; run_method; reflexivity).
  - right. left. eauto.
  - left. destruct (sendTransaction_world E request w) as (r & w' & -> & Hthis & _).
    exact Hthis.
  - unfold createWallet, bind. rewrite getProvider_current.
    destruct (providers (this w) !! currentNetwork (this w)) as [p|] eqn:Hp; simpl;
      [|left; reflexivity].
    right. right. exists p, (connect random p).
    split; [reflexivity|]. split; reflexivity.
  - unfold importWallet, new_Wallet, bind. rewrite getProvider_current.
    destruct (providers (this w) !! currentNetwork (this w)) as [p|] eqn:Hp; simpl;
      [|left; reflexivity].
    unfold call. destruct (Wallet_keys E privateKey) as [kp|e]; simpl; [|left; reflexivity].
    right. right.
    exists p, {| w_address := kp_address kp; w_privateKey := kp_privateKey kp;
                 w_publicKey := kp_publicKey kp; w_path := None; w_mnemonic := None;
                 w_provider := Some p |}.
    split; [reflexivity|]. split; reflexivity.
Qed.

Lemma calls_bound (E : Ethers) (N : Node) (w w' : World) :
  bound w -> calls E N w w' -> bound w'.
Proof.
  intros [Hnd (p & Hp & Hws)] Hcall.
  destruct (calls_step E N w w' Hcall) as [Hthis|[[n ->]|(p' & wallet & Hp' & Hwp & Hthis)]].
  - unfold bound. rewrite Hthis. eauto.
  - rewrite (switchNetwork_run w n Hnd).
    destruct (providers (this w) !! n) as [pn|] eqn:Hpn; simpl.
    + split; simpl; [rewrite rebind_keys; exact Hnd|].
      exists pn. split; [exact Hpn|]. exact (attached_rebind p pn _ Hws).
    + split; eauto.
  - unfold bound. rewrite Hthis. simpl. split; [apply NoDup_keys_set, Hnd|].
    exists p. split; [exact Hp|]. apply attached_set; [congruence | exact Hws].
Qed.

(** X4. In every state of a constructed client, whatever methods were called on
    it: the current network has a provider, the pool holds each wallet once,
    under the wallet's own address, and every wallet is connected to the
    provider of the current network. *)
Theorem reachable_bound (E : Ethers) (N : Node) (w : World) :
  reachable E N w ->
  NoDup (OMap.keys (wallets (this w)))
  /\ exists provider,
       getProvider None w = (Ok provider, w)
       /\ forall address wallet,
            OMap.get address (wallets (this w)) = Some wallet ->
            w_address wallet = address /\ w_provider wallet = Some provider.
Proof.
  intros Hr.
  assert (Hb : bound w).
  { induction Hr as [cfg Hok|w w' _ IH Hcall];
      [exact (bound_new E cfg Hok) | exact (calls_bound E N w w' IH Hcall)]. }
  destruct Hb as [Hnd (p & Hp & Hws)]. split; [exact Hnd|].
  exists p. rewrite getProvider_current, Hp. split; [reflexivity|].
  intros a x Hget. apply Hws. apply get_Some_elem, Hget.
Qed.

(** ** Switching networks, composed *)

(** X5. Of two switches in a row, the second decides: the client object is the
    one the second switch alone would give. *)
Theorem switchNetwork_last_wins (w : World) (a b : string) :
  NoDup (OMap.keys (wallets (this w))) ->
  is_Some (providers (this w) !! a) ->
  is_Some (providers (this w) !! b) ->
  (switchNetwork b (switchNetwork a w).2).1 = Ok tt
  /\ this (switchNetwork b (switchNetwork a w).2).2 = this (switchNetwork b w).2.
Proof.
  intros Hnd [pa Ha] [pb Hb].
  rewrite (switchNetwork_run w a Hnd), Ha. simpl.
  rewrite switchNetwork_run by (simpl; rewrite rebind_keys; exact Hnd).
  rewrite (switchNetwork_run w b Hnd). simpl. rewrite Hb. simpl.
  rewrite rebind_rebind. split; reflexivity.
Qed.

(** X6. Switching to another configured network and back restores the client
    object: cursor, pool, and every wallet with the provider it was on. *)
Theorem switchNetwork_round_trip (w : World) (n : string) :
  bound w ->
  is_Some (providers (this w) !! n) ->
  (switchNetwork (currentNetwork (this w)) (switchNetwork n w).2).1 = Ok tt
  /\ this (switchNetwork (currentNetwork (this w)) (switchNetwork n w).2).2 = this w.
Proof.
  intros [Hnd (p & Hp & Hws)] [pn Hn].
  rewrite (switchNetwork_run w n Hnd), Hn. simpl.
  rewrite switchNetwork_run by (simpl; rewrite rebind_keys; exact Hnd).
  simpl. rewrite Hp. simpl. rewrite rebind_rebind, (rebind_attached p) by exact Hws.
  split; [reflexivity|]. destruct (this w); reflexivity.
Qed.

(** ** Adding wallets *)

(** The client object after [m.set(k, v)] on the pool. *)
Lemma get_set_other {V} (k a : string) (v : V) (m : list (string * V)) :
  a <> k -> OMap.get a (OMap.set k v m) = OMap.get a m.
Proof. intros Hne. rewrite get_set. case_decide; congruence. Qed.

Lemma keys_set {V} (k : string) (v : V) (m : list (string * V)) :
  OMap.keys (OMap.set k v m)
  = if decide (k ∈ OMap.keys m) then OMap.keys m else OMap.keys m ++ [k].
Proof. case_decide; [apply keys_set_old | apply keys_set_new]; assumption. Qed.

Lemma set_set {V} (k : string) (v : V) (m : list (string * V)) :
  OMap.set k v (OMap.set k v m) = OMap.set k v m.
Proof.
  induction m as [|[k0 v0] m IH]; simpl.
  - case_decide; congruence.
  - case_decide as Hk; simpl; case_decide; try congruence.
Qed.

(** X7. [importWallet] either throws and leaves the whole state as it is, or
    sets one wallet: the wallet of the key, connected to the provider of the
    current network, stored under its address; every other entry of the pool
    is as before, the address list is the old one (with the address at the
    end when it is new), nothing is logged, and importing the same key again
    changes nothing. *)
Theorem importWallet_sets_one_wallet (E : Ethers) (privateKey : string) (w : World) :
  (forall e, (importWallet E privateKey w).1 = Throw e -> (importWallet E privateKey w).2 = w)
  /\ (forall info w',
        importWallet E privateKey w = (Ok info, w') ->
        exists provider wallet,
          providers (this w) !! currentNetwork (this w) = Some provider
          /\ OMap.get (wi_address info) (wallets (this w')) = Some wallet
          /\ w_address wallet = wi_address info
          /\ Some (w_privateKey wallet) = wi_privateKey info
          /\ w_provider wallet = Some provider
          /\ (forall address, address <> wi_address info ->
                OMap.get address (wallets (this w')) = OMap.get address (wallets (this w)))
          /\ OMap.keys (wallets (this w'))
             = (if decide (wi_address info ∈ OMap.keys (wallets (this w)))
                then OMap.keys (wallets (this w))
                else OMap.keys (wallets (this w)) ++ [wi_address info])
          /\ providers (this w') = providers (this w)
          /\ currentNetwork (this w') = currentNetwork (this w)
          /\ logger w' = logger w
          /\ submitted w' = submitted w
          /\ importWallet E privateKey w' = (Ok info, w')).
Proof.
  unfold importWallet, new_Wallet, bind. rewrite getProvider_current.
  destruct (providers (this w) !! currentNetwork (this w)) as [p|] eqn:Hp; simpl;
    [|split; [reflexivity | discriminate]].
  unfold call. destruct (Wallet_keys E privateKey) as [kp|e] eqn:Hkp; simpl;
    [|split; [reflexivity | discriminate]].
  split; [discriminate|]. intros info w' Heq. injection Heq as <- <-. simpl.
  eexists p, _. split; [reflexivity|]. split; [rewrite get_set, decide_True; reflexivity|].
  simpl. split; [reflexivity|]. split; [reflexivity|]. split; [reflexivity|].
  split; [intros a Ha; apply get_set_other, Ha|].
  split; [apply keys_set|]. split; [reflexivity|]. split; [reflexivity|].
  split; [reflexivity|]. split; [reflexivity|].
  rewrite getProvider_current. simpl. rewrite Hp. simpl. rewrite set_set.
  destruct w as [[ps ws cf cur] lg sb]. reflexivity.
Qed.

(** X8. [createWallet] throws only when the current network has no provider,
    and then leaves the state as it is. Otherwise it returns the address,
    the private key and the mnemonic of the new wallet, and the pool holds
    that wallet under its address, connected to the provider of the current
    network, every other entry being as before; nothing is logged. *)
Theorem createWallet_sets_one_wallet (random : Wallet) (w : World) :
  match providers (this w) !! currentNetwork (this w) with
  | None =>
      createWallet random w
      = (Throw (Error ("Provider not found for network: " +:+ currentNetwork (this w))), w)
  | Some provider =>
      exists info w',
        createWallet random w = (Ok info, w')
        /\ wi_address info = w_address random
        /\ wi_privateKey info = Some (w_privateKey random)
        /\ wi_mnemonic info = w_mnemonic random
        /\ OMap.get (w_address random) (wallets (this w')) = Some (connect random provider)
        /\ (forall address, address <> w_address random ->
              OMap.get address (wallets (this w')) = OMap.get address (wallets (this w)))
        /\ OMap.keys (wallets (this w'))
           = (if decide (w_address random ∈ OMap.keys (wallets (this w)))
              then OMap.keys (wallets (this w))
              else OMap.keys (wallets (this w)) ++ [w_address random])
        /\ providers (this w') = providers (this w)
        /\ currentNetwork (this w') = currentNetwork (this w)
        /\ logger w' = logger w
        /\ submitted w' = submitted w
  end.
Proof.
  unfold createWallet, bind. rewrite getProvider_current.
  destruct (providers (this w) !! currentNetwork (this w)) as [p|] eqn:Hp; simpl;
    [|reflexivity].
  eexists _, _. split; [reflexivity|]. simpl.
  split; [reflexivity|]. split; [reflexivity|]. split; [reflexivity|].
  split; [rewrite get_set, decide_True; reflexivity|].
  split; [intros a Ha; apply get_set_other, Ha|].
  split; [apply keys_set|]. auto.
Qed.

(** ** The address list *)

Lemma reachable_is_bound (E : Ethers) (N : Node) (w : World) : reachable E N w -> bound w.
Proof.
  induction 1 as [cfg Hok|w w' _ IH Hcall];
    [exact (bound_new E cfg Hok) | exact (calls_bound E N w w' IH Hcall)].
Qed.

(** X9. No method removes or reorders an address: after any call, the address
    list starts with the addresses held before, in the same order. The
    wallet used when a request names no sender is therefore, from the first
    wallet on, always the one of the same address. *)
Theorem addresses_only_grow (E : Ethers) (N : Node) (w w' : World) :
  reachable E N w ->
  calls E N w w' ->
  OMap.keys (wallets (this w)) `prefix_of` OMap.keys (wallets (this w'))
  /\ (wallets (this w) <> [] ->
      w_address <$> selectWallet None (wallets (this w'))
      = w_address <$> selectWallet None (wallets (this w))).
Proof.
  intros Hr Hcall.
  pose proof (reachable_is_bound E N w Hr) as Hb.
  pose proof (calls_bound E N w w' Hb Hcall) as Hb'.
  assert (Hpre : OMap.keys (wallets (this w)) `prefix_of` OMap.keys (wallets (this w'))).
  { destruct Hb as [Hnd _].
    destruct (calls_step E N w w' Hcall) as [Hthis|[[n ->]|(p & wallet & _ & _ & Hthis)]].
    - rewrite Hthis. reflexivity.
    - rewrite (switchNetwork_run w n Hnd).
      destruct (providers (this w) !! n); simpl; [rewrite rebind_keys|]; reflexivity.
    - rewrite Hthis. simpl. rewrite keys_set.
      case_decide; [reflexivity | apply prefix_app_r; reflexivity]. }
  split; [exact Hpre|]. intros Hne.
  assert (Hhead : forall w0, bound w0 ->
            w_address <$> selectWallet None (wallets (this w0))
            = head (OMap.keys (wallets (this w0)))).
  { intros w0 [_ (p & _ & Hws)]. unfold selectWallet, OMap.values, OMap.keys. simpl.
    destruct (wallets (this w0)) as [|[a x] ws]; [reflexivity|]. simpl.
    destruct (Hws a x) as [-> _]; [apply elem_of_cons; auto | reflexivity]. }
  rewrite !Hhead by assumption.
  destruct Hpre as [more ->].
  destruct (wallets (this w)) as [|[a x] ws]; [congruence | reflexivity].
Qed.

(** ** What construction leaves *)

Lemma fold_addProvider_Some (E : Ethers) (nets : list (string * NetworkConfig)) :
  forall ps k p,
    fold_left (addProvider E) nets ps !! k = Some p ->
    ps !! k = Some p
    \/ exists network,
         (k, network) ∈ nets /\ rejected E network = None /\ p = providerOf network.
Proof.
  induction nets as [|[k0 n0] nets IH]; intros ps k p Hk; simpl in Hk; [auto|].
  destruct (IH _ _ _ Hk) as [Hps|(network & Hin & Hrej & ->)].
  - unfold addProvider in Hps. simpl in Hps.
    destruct (rejected E n0) eqn:Hrej; [auto|].
    destruct (decide (k = k0)) as [->|Hne].
    + rewrite lookup_insert_eq in Hps. injection Hps as <-.
      right. exists n0. split; [apply elem_of_cons; auto | auto].
    + rewrite lookup_insert_ne in Hps by congruence. auto.
  - right. exists network. split; [apply elem_of_cons; auto | auto].
Qed.

(** The client object after construction, whether it completed or threw,
    apart from the pool of wallets. *)
Lemma new_EVMClient_extends (E : Ethers) (cfg : EVMConfig) :
  extends (connected E cfg) (new_EVMClient E cfg).2.
Proof.
  unfold new_EVMClient, constructor, bind. rewrite initializeProviders_fresh.
  pose proof (initializeWallets_returns E (connected E cfg)) as Hret.
  destruct (providers (this (connected E cfg)) !! currentNetwork (this (connected E cfg))).
  - destruct Hret as (w1 & w' & _ & _ & -> & Hext1 & Hext2).
    exact (extends_trans _ _ _ Hext1 Hext2).
  - rewrite Hret. apply extends_refl.
Qed.

(** X10. Construction, whether it completes or throws, creates providers only
    for registered networks: each provider in the pool is the one of a
    network registered under its key whose provider could be constructed. It
    submits no transaction, sets the cursor to the default network (or
    "mainnet"), and changes the configuration only by completing a supplied
    network table with the common networks. *)
Theorem construction_leaves (E : Ethers) (cfg : EVMConfig) :
  (forall key provider,
     providers (this (new_EVMClient E cfg).2) !! key = Some provider ->
     exists network,
       (key, network) ∈ registry cfg
       /\ rejected E network = None
       /\ provider = providerOf network)
  /\ submitted (new_EVMClient E cfg).2 = []
  /\ currentNetwork (this (new_EVMClient E cfg).2) = orElse (cfg_defaultNetwork cfg) "mainnet"
  /\ config (this (new_EVMClient E cfg).2)
     = match cfg_networks cfg with
       | Some _ => with_networks cfg (Some (registry cfg))
       | None => cfg
       end.
Proof.
  destruct (new_EVMClient_extends E cfg) as (Hps & Hcur & Hcfg & Hsub & _).
  rewrite Hps, Hcur, Hcfg, Hsub. split; [|auto].
  intros key provider Hk. simpl in Hk.
  apply fold_addProvider_Some in Hk as [Hk|Hk]; [|exact Hk].
  rewrite lookup_empty in Hk. discriminate.
Qed.

(** A loop whose iterations add at most one wallet each adds at most as
    many wallets as it has iterations. *)
Lemma forM__adds_at_most {A} (l : list A) (body : A -> M unit) :
  (forall x w, (length (wallets (this (body x w).2)) <= S (length (wallets (this w))))%nat) ->
  forall w, (length (wallets (this (forM_ l body w).2))
             <= length l + length (wallets (this w)))%nat.
Proof.
  intros Hb. induction l as [|x l IH]; intros w; simpl; [lia|].
  unfold bind. specialize (Hb x w). destruct (body x w) as [[[]|e] w1]; simpl in *.
  - specialize (IH w1). lia.
  - lia.
Qed.

Lemma length_set {V} (k : string) (v : V) (m : list (string * V)) :
  (length (OMap.set k v m) <= S (length m))%nat.
Proof.
  induction m as [|[k0 v0] m IH]; simpl; [lia|]. case_decide; simpl; lia.
Qed.

Lemma keyBody_adds_at_most E provider entry w :
  (length (wallets (this (keyBody E provider entry w).2)) <= S (length (wallets (this w))))%nat.
Proof.
  destruct entry as [index key]. unfold keyBody, try_catch, new_Wallet. run.
  destruct (Wallet_keys E key); simpl; [apply length_set | lia].
Qed.

Lemma hdBody_adds_at_most E provider mnemonic cfg i w :
  (length (wallets (this (hdBody E provider mnemonic cfg i w).2))
   <= S (length (wallets (this w))))%nat.
Proof.
  unfold hdBody, fromMnemonic. run.
  destruct (HDNodeWallet_fromMnemonic E mnemonic (path cfg i)); simpl;
    [apply length_set | lia].
Qed.

(** X11. Construction creates at most one wallet per configured private key and
    at most ten from the mnemonic. *)
Theorem construction_wallet_count (E : Ethers) (cfg : EVMConfig) :
  (length (wallets (this (new_EVMClient E cfg).2))
   <= length (default [] (cfg_privateKeys cfg))
      + match truthy (cfg_mnemonic cfg) with Some _ => 10 | None => 0 end)%nat.
Proof.
  unfold new_EVMClient, constructor, bind. rewrite initializeProviders_fresh.
  unfold initializeWallets, bind. rewrite getProvider_current.
  destruct (providers (this (connected E cfg)) !! currentNetwork (this (connected E cfg)))
    as [provider|]; [|simpl; lia].
  assert (Hpk : cfg_privateKeys (config (this (connected E cfg))) = cfg_privateKeys cfg).
  { simpl. destruct (cfg_networks cfg); reflexivity. }
  assert (Hmn : cfg_mnemonic (config (this (connected E cfg))) = cfg_mnemonic cfg).
  { simpl. destruct (cfg_networks cfg); reflexivity. }
  assert (Hkeys : (length (wallets (this (initializeFromPrivateKeys E provider
                                             (connected E cfg)).2))
                   <= length (default [] (cfg_privateKeys cfg)))%nat).
  { rewrite initializeFromPrivateKeys_unfold, Hpk.
    destruct (cfg_privateKeys cfg) as [privateKeys|]; [|simpl; lia].
    case_bool_decide; [|simpl; lia].
    etrans; [apply forM__adds_at_most, keyBody_adds_at_most|].
    rewrite length_imap. simpl. lia. }
  destruct (initializeFromPrivateKeys_returns E provider (connected E cfg))
    as (w1 & Hk & (_ & _ & Hc1 & _)).
  rewrite Hk in Hkeys |- *. cbn [fst snd] in Hkeys.
  rewrite initializeFromMnemonic_unfold. rewrite Hc1, Hmn.
  destruct (truthy (cfg_mnemonic cfg)) as [mnemonic|]; [|cbn [fst snd]; lia].
  pose proof (forM__adds_at_most (seq 0 10)
                (hdBody E provider mnemonic (config (this (connected E cfg))))
                (hdBody_adds_at_most E provider mnemonic _) w1) as Hloop.
  unfold try_catch.
  destruct (forM_ (seq 0 10) (hdBody E provider mnemonic (config (this (connected E cfg)))) w1)
    as [[[]|e] w2]; cbn [fst snd length seq] in Hloop |- *; [lia|].
  unfold log. cbn [fst snd this]. lia.
Qed.

(** ** The network table *)

Lemma get_addCommon (common nets : list (string * NetworkConfig)) (k : string) :
  OMap.get k (fold_left (fun nets '(key, network) =>
                           match OMap.get key nets with
                           | None => OMap.set key network nets
                           | Some _ => nets
                           end) common nets)
  = match OMap.get k nets with
    | Some n => Some n
    | None => OMap.get k common
    end.
Proof.
  revert nets. induction common as [|[k0 n0] common IH]; intros nets; simpl.
  - destruct (OMap.get k nets); reflexivity.
  - rewrite IH. destruct (OMap.get k0 nets) as [n|] eqn:Hk0.
    + destruct (OMap.get k nets) eqn:Hk; [reflexivity|].
      case_decide; [congruence | reflexivity].
    + rewrite get_set. case_decide as Hk.
      * subst k. rewrite Hk0. reflexivity.
      * reflexivity.
Qed.

Lemma addCommon_prefix (common nets : list (string * NetworkConfig)) :
  nets `prefix_of` fold_left (fun nets '(key, network) =>
                                match OMap.get key nets with
                                | None => OMap.set key network nets
                                | Some _ => nets
                                end) common nets.
Proof.
  revert nets. induction common as [|[k0 n0] common IH]; intros nets; simpl; [reflexivity|].
  etrans; [|apply IH].
  destruct (OMap.get k0 nets) eqn:Hk0; [reflexivity|].
  assert (Hset : forall m : list (string * NetworkConfig),
             OMap.get k0 m = None -> OMap.set k0 n0 m = m ++ [(k0, n0)]).
  { induction m as [|[k1 n1] m IHm]; simpl; [reflexivity|].
    case_decide; [discriminate|]. intros Hm. f_equal. apply IHm. exact Hm. }
  rewrite Hset by exact Hk0. apply prefix_app_r. reflexivity.
Qed.

(** X12. The networks a client registers: an entry of the configuration takes
    precedence over the common network of the same key, the common networks
    fill the other keys, and the configured entries come first, in their
    order. *)
Theorem registry_lookup (cfg : EVMConfig) (key : string) :
  OMap.get key (registry cfg)
  = match OMap.get key (default [] (cfg_networks cfg)) with
    | Some network => Some network
    | None => OMap.get key COMMON_NETWORKS
    end
  /\ default [] (cfg_networks cfg) `prefix_of` registry cfg.
Proof.
  unfold registry, addCommonNetworks. split; [apply get_addCommon | apply addCommon_prefix].
Qed.

Lemma set_new {V} (k : string) (v : V) (m : list (string * V)) :
  OMap.get k m = None -> OMap.set k v m = m ++ [(k, v)].
Proof.
  induction m as [|[k0 v0] m IH]; simpl; [reflexivity|].
  case_decide; [discriminate|]. intros Hm. f_equal. apply IH, Hm.
Qed.

Lemma get_insertIndex {V} (i : N) (k k' : string) (v : V) (o : list (string * V)) :
  OMap.get k' o = None ->
  OMap.get k (insertIndex i k' v o) = if decide (k = k') then Some v else OMap.get k o.
Proof.
  induction o as [|[k0 v0] o IH]; simpl; [reflexivity|].
  destruct (decide (k' = k0)) as [->|Hne]; [discriminate|]. intros Hget.
  destruct (arrayIndex k0) as [j|]; [case_bool_decide|]; simpl; try reflexivity.
  rewrite (IH Hget).
  destruct (decide (k = k0)) as [->|]; [|reflexivity].
  rewrite decide_False by congruence. reflexivity.
Qed.

Lemma get_define {V} (k k' : string) (v : V) (o : list (string * V)) :
  OMap.get k (define k' v o) = if decide (k = k') then Some v else OMap.get k o.
Proof.
  unfold define. destruct (OMap.get k' o) eqn:Hget; [apply get_set|].
  destruct (arrayIndex k'); [apply get_insertIndex, Hget|].
  rewrite <- (set_new _ _ _ Hget). apply get_set.
Qed.

Lemma get_spread {V} (base over : list (string * V)) (k : string) :
  NoDup (OMap.keys over) ->
  OMap.get k (spread base over)
  = match OMap.get k over with
    | Some v => Some v
    | None => OMap.get k base
    end.
Proof.
  unfold spread, OMap.keys. revert base.
  induction over as [|[k0 v0] over IH]; intros base Hnd; simpl; [reflexivity|].
  apply NoDup_cons in Hnd as [Hk0 Hnd]. rewrite (IH _ Hnd). rewrite get_define.
  destruct (decide (k = k0)) as [->|Hne].
  - assert (Hg : OMap.get k0 over = None) by (apply get_None; exact Hk0).
    rewrite Hg. reflexivity.
  - reflexivity.
Qed.

(** X13. The table [getNetwork] searches and the registry the providers are
    created from define the same network under every key, although they
    list the networks in a different order. *)
Theorem getNetwork_table_is_registry (cfg : EVMConfig) (key : string) :
  NoDup (OMap.keys (default [] (cfg_networks cfg))) ->
  OMap.get key (spread COMMON_NETWORKS (default [] (cfg_networks cfg)))
  = OMap.get key (registry cfg).
Proof.
  intros Hnd. rewrite (get_spread _ _ _ Hnd).
  unfold registry, addCommonNetworks. rewrite get_addCommon. reflexivity.
Qed.

(** X14. [getNetwork] answers with a network of the table that has the chain id
    the node reports, and with [null] only when the table has none; which
    network is current plays no part in the search. *)
Theorem getNetwork_finds_chain (N : Node) (w w' : World) (r : option NetworkConfig) :
  getNetwork N w = (Ok r, w') ->
  exists provider chainId,
    providers (this w) !! currentNetwork (this w) = Some provider
    /\ provider_getNetwork N provider = Ok chainId
    /\ match r with
       | Some network =>
           net_chainId network = chainId
           /\ exists key,
                (key, network)
                ∈ spread COMMON_NETWORKS (default [] (cfg_networks (config (this w))))
       | None =>
           forall key network,
             (key, network)
             ∈ spread COMMON_NETWORKS (default [] (cfg_networks (config (this w)))) ->
             net_chainId network <> chainId
       end.
Proof.
  unfold getNetwork, bind. rewrite getProvider_current.
  destruct (providers (this w) !! currentNetwork (this w)) as [provider|]; [|discriminate].
  unfold call. destruct (provider_getNetwork N provider) as [chainId|e] eqn:Hn;
    [|discriminate].
  unfold get_this, ret. intros Heq. injection Heq as <- <-.
  exists provider, chainId. split; [reflexivity|]. split; [exact Hn|].
  generalize (spread COMMON_NETWORKS (default [] (cfg_networks (config (this w))))).
  intros table.
  destruct (find _ _) as [network|] eqn:Hfind.
  - apply find_some in Hfind as [Hin Hid]. apply bool_decide_eq_true in Hid.
    split; [exact Hid|]. apply list_elem_of_In in Hin. unfold OMap.values in Hin.
    apply list_elem_of_fmap in Hin as ([key n] & -> & Hin). eauto.
  - intros key network Hin Hid.
    pose proof (find_none _ _ Hfind network) as Hnone. simpl in Hnone.
    rewrite bool_decide_eq_false in Hnone. apply Hnone; [|exact Hid].
    apply list_elem_of_In. unfold OMap.values. apply list_elem_of_fmap.
    exists (key, network). auto.
Qed.

(** ** Blocks and transactions *)

(** X15. Block number 0 is falsy: for it, as for an omitted number, the node is
    asked for the latest block, so the genesis block is never requested;
    every other number is passed on as it is. *)
Theorem getBlock_zero_is_latest (N : Node) (w : World) :
  getBlock N (Some 0) w = getBlock N None w
  /\ (forall blockNumber, blockTag blockNumber <> BlockNumber 0)
  /\ (forall n, n <> 0 -> blockTag (Some n) = BlockNumber n).
Proof.
  split; [reflexivity|]. split.
  - intros [[]|]; unfold blockTag; simpl; congruence.
  - intros [] Hn; unfold blockTag; simpl; congruence.
Qed.

(** X16. The record [sendTransaction] returns is the one [getTransaction] gives
    for its hash afterwards, when the node returns the same transaction. *)
Theorem sendTransaction_then_getTransaction (E : Ethers) (N : Node)
    (request : TransactionRequest) (w w' : World) (r : TransactionResponse) :
  sendTransaction E request w = (Ok r, w') ->
  exists provider wallet tx sent receipt,
    providers (this w) !! currentNetwork (this w) = Some provider
    /\ selectWallet (req_from request) (wallets (this w)) = Some wallet
    /\ buildTransaction E request w = (Ok tx, w)
    /\ wallet_sendTransaction E wallet tx = Ok sent
    /\ st_wait sent = Ok receipt
    /\ r = responseOf sent receipt
    /\ (provider_getTransaction N provider (res_hash r) = Ok (Some sent) ->
        getTransaction N (res_hash r) w' = (Ok (Some r), w')).
Proof.
  pose proof (buildTransaction_world E request w) as Hworld.
  unfold sendTransaction, bind at 1. rewrite getProvider_current.
  destruct (providers (this w) !! currentNetwork (this w)) as [provider|] eqn:Hp;
    [|discriminate].
  unfold bind at 1, get_this at 1.
  destruct (selectWallet (req_from request) (wallets (this w))) as [wallet|];
    [|discriminate].
  unfold bind at 1.
  destruct (buildTransaction E request w) as [[tx|e] w1]; simpl in Hworld; subst w1;
    [|discriminate].
  run.
  destruct (wallet_sendTransaction E wallet tx) as [sent|e] eqn:Hsent; simpl;
    [|discriminate].
  destruct (st_wait sent) as [receipt|e] eqn:Hwait; simpl; [|discriminate].
  intros Heq. injection Heq as <- <-.
  exists provider, wallet, tx, sent, receipt.
  split; [reflexivity|]. split; [reflexivity|]. split; [reflexivity|].
  split; [exact Hsent|]. split; [exact Hwait|].
  split; [reflexivity|]. simpl. intros Hget.
  unfold getTransaction, bind. rewrite getProvider_current. simpl. rewrite Hp.
  unfold call. rewrite Hget, Hwait. reflexivity.
Qed.

(** ** The fee report of an estimate *)

Lemma truthyZ_Some (o : option Z) (z : Z) : truthyZ o = Some z -> o = Some z /\ z <> 0.
Proof. destruct o as [[]|]; simpl; intros H; inversion H; split; congruence. Qed.

(** A returned estimate, by cases of the fee data. *)
Lemma estimateGas_reports_one_fee_model_run (E : Ethers) (request : TransactionRequest)
    (w w' : World) (estimation : GasEstimation) :
  estimateGas E request w = (Ok estimation, w') ->
  exists provider value gasLimit feeData,
    providers (this w) !! currentNetwork (this w) = Some provider
    /\ provider_estimateGas E provider (estimateRequest request value) = Ok gasLimit
    /\ provider_getFeeData E provider = Ok feeData
    /\ ge_gasLimit estimation = pretty gasLimit
    /\ match ge_maxFeePerGas estimation, ge_maxPriorityFeePerGas estimation,
             ge_gasPrice estimation with
       | Some maxFee, Some maxPriority, None =>
           exists a b,
             a <> 0 /\ b <> 0
             /\ fd_maxFeePerGas feeData = Some a /\ fd_maxPriorityFeePerGas feeData = Some b
             /\ maxFee = pretty a /\ maxPriority = pretty b
             /\ ge_estimatedCost estimation = formatEther E (gasLimit * a)
       | None, None, Some gasPrice =>
           exists c,
             c <> 0 /\ fd_gasPrice feeData = Some c /\ gasPrice = pretty c
             /\ ge_estimatedCost estimation = formatEther E (gasLimit * c)
             /\ (truthyZ (fd_maxFeePerGas feeData) = None
                 \/ truthyZ (fd_maxPriorityFeePerGas feeData) = None)
       | None, None, None =>
           ge_estimatedCost estimation = "0"
           /\ truthyZ (fd_gasPrice feeData) = None
           /\ (truthyZ (fd_maxFeePerGas feeData) = None
               \/ truthyZ (fd_maxPriorityFeePerGas feeData) = None)
       | _, _, _ => False
       end.
Proof.
  unfold estimateGas, bind at 1. rewrite getProvider_current.
  destruct (providers (this w) !! currentNetwork (this w)) as [provider|]; [|discriminate].
  unfold bind at 1.
  assert (Hvalue : (valueOf E (req_value request) w).2 = w)
    by (unfold valueOf; run; cases_of_run; reflexivity).
  destruct (valueOf E (req_value request) w) as [[value|e] w1]; simpl in Hvalue; subst w1;
    [|discriminate].
  fold (estimateRequest request value). run.
  destruct (provider_estimateGas E provider (estimateRequest request value))
    as [gasLimit|e] eqn:Hg; simpl; [|discriminate].
  destruct (provider_getFeeData E provider) as [feeData|e] eqn:Hf; simpl; [|discriminate].
  intros Heq. exists provider, value, gasLimit, feeData.
  split; [reflexivity|]. split; [exact Hg|]. split; [exact Hf|].
  destruct (truthyZ (fd_maxFeePerGas feeData)) as [a|] eqn:Ha;
    [destruct (truthyZ (fd_maxPriorityFeePerGas feeData)) as [b|] eqn:Hb|];
    [|destruct (truthyZ (fd_gasPrice feeData)) as [c|] eqn:Hc ..];
    injection Heq as <- <-; simpl; (split; [reflexivity|]).
  - apply truthyZ_Some in Ha as [Ha Ha0], Hb as [Hb Hb0]. exists a, b. auto 10.
  - apply truthyZ_Some in Hc as [Hc Hc0]. exists c. auto 10.
  - auto.
  - apply truthyZ_Some in Hc as [Hc Hc0]. exists c. auto 10.
  - auto.
Qed.

(** X17. A returned estimate reports one fee model, never both: either the fee
    pair, both parts and no gas price, when the node gives both parts
    non-zero, or else the gas price alone when the node gives one that is
    not zero, or else no fee at all and the cost "0". A fee of zero counts
    as absent. *)
Theorem estimateGas_reports_one_fee_model (E : Ethers) (request : TransactionRequest)
    (w w' : World) (estimation : GasEstimation) :
  estimateGas E request w = (Ok estimation, w') ->
  exists provider value gasLimit feeData,
    providers (this w) !! currentNetwork (this w) = Some provider
    /\ provider_estimateGas E provider (estimateRequest request value) = Ok gasLimit
    /\ provider_getFeeData E provider = Ok feeData
    /\ ge_gasLimit estimation = pretty gasLimit
    /\ match ge_maxFeePerGas estimation, ge_maxPriorityFeePerGas estimation,
             ge_gasPrice estimation with
       | Some maxFee, Some maxPriority, None =>
           exists a b,
             a <> 0 /\ b <> 0
             /\ fd_maxFeePerGas feeData = Some a /\ fd_maxPriorityFeePerGas feeData = Some b
             /\ maxFee = pretty a /\ maxPriority = pretty b
             /\ ge_estimatedCost estimation = formatEther E (gasLimit * a)
       | None, None, Some gasPrice =>
           exists c,
             c <> 0 /\ fd_gasPrice feeData = Some c /\ gasPrice = pretty c
             /\ ge_estimatedCost estimation = formatEther E (gasLimit * c)
             /\ (truthyZ (fd_maxFeePerGas feeData) = None
                 \/ truthyZ (fd_maxPriorityFeePerGas feeData) = None)
       | None, None, None =>
           ge_estimatedCost estimation = "0"
           /\ truthyZ (fd_gasPrice feeData) = None
           /\ (truthyZ (fd_maxFeePerGas feeData) = None
               \/ truthyZ (fd_maxPriorityFeePerGas feeData) = None)
       | _, _, _ => False
       end.
Proof. exact (estimateGas_reports_one_fee_model_run E request w w' estimation). Qed.

(** ** Contract transactions *)

(** X18. [sendContractTransaction] always returns a record. Without an error, the
    record carries the hash of the transaction the selected wallet sent and
    its receipt. With an error it is the empty record for the contract
    address: no hash and no receipt are reported, also when the transaction
    was sent and only waiting for its receipt failed. *)
Theorem sendContractTransaction_outcome (E : Ethers) (address : string) (abi : list any)
    (method : string) (params : list any) (from value gasLimit : option string) (w : World) :
  exists r w',
    sendContractTransaction E address abi method params from value gasLimit w = (Ok r, w')
    /\ match ctr_error r with
       | None =>
           exists wallet options tx receipt,
             selectWallet from (wallets (this w)) = Some wallet
             /\ contract_send E wallet address abi method params options = Ok tx
             /\ ct_wait tx = Ok (Some receipt)
             /\ ctr_hash r = ct_hash tx
             /\ ctr_receipt r = Some receipt
       | Some message =>
           ctr_hash r = "" /\ ctr_from r = "" /\ ctr_to r = address
           /\ ctr_value r = "0" /\ ctr_data r = "0x" /\ ctr_receipt r = None
           /\ (selectWallet from (wallets (this w)) = None ->
               message = "No wallet available for sending transaction")
           /\ (forall wallet options tx e,
                 selectWallet from (wallets (this w)) = Some wallet ->
                 Contract_rejects E address abi = None ->
                 match truthy value with
                 | Some v => exists z, parseEther E v = Ok z /\ opt_value options = Some z
                 | None => opt_value options = None
                 end ->
                 match truthy gasLimit with
                 | Some g => exists z, BigInt E g = Ok z /\ opt_gasLimit options = Some z
                 | None => opt_gasLimit options = None
                 end ->
                 contract_send E wallet address abi method params options = Ok tx ->
                 ct_wait tx = Throw e ->
                 message = errorMessage e)
       end.
Proof.
  unfold sendContractTransaction, try_catch, new_Contract. run.
  destruct (selectWallet from (wallets (this w))) as [wallet|] eqn:Hw; simpl.
  2:{ eexists _, _. split; [reflexivity|]. simpl. repeat split; try reflexivity.
      intros; discriminate. }
  destruct (Contract_rejects E address abi) as [e0|] eqn:Hc; simpl.
  { eexists _, _. split; [reflexivity|]. simpl. repeat split; try reflexivity;
      intros; discriminate. }
  destruct (truthy value) as [v|] eqn:Hv; simpl;
    [destruct (parseEther E v) as [zv|ev] eqn:Hpv; simpl|];
    (destruct (truthy gasLimit) as [g|] eqn:Hgl; simpl;
     [destruct (BigInt E g) as [zg|eg] eqn:Hpg; simpl|]);
    try (eexists _, _; split; [reflexivity|]; simpl; repeat split; try reflexivity;
         try (intros; discriminate);
         intros wallet' options tx e Hw' _ Hov Hog; intros;
         repeat match goal with
                | H : exists _, _ |- _ => destruct H as (? & ? & ?)
                end; congruence);
    match goal with
    | |- context [contract_send E wallet address abi method params ?o] =>
        destruct (contract_send E wallet address abi method params o) as [tx|e1] eqn:Hs; simpl;
          [destruct (ct_wait tx) as [[receipt|]|e2] eqn:Hwt; simpl|];
          (eexists _, _; split; [reflexivity|]; simpl);
          try (exists wallet, o, tx, receipt; auto);
          (repeat split; try reflexivity; try (intros; discriminate);
           intros wallet' options tx' e Hw' _ Hov Hog Hs' Hwt';
           injection Hw' as <-;
           repeat match goal with
                  | H : exists _, _ |- _ => destruct H as (? & ? & ?)
                  end;
           assert (options = o) by (destruct options; simpl in *; congruence);
           subst options; congruence)
    end.
Qed.

(** ** Contract calls and deployments *)

(** X19. [callContract] always returns a record and changes nothing. When the
    current network has a provider, the contract is constructed and the
    method returns, the record carries the returned value, raw and decoded,
    and no error; a record without error arises in no other way. In every
    other case the record carries an error and no value; the error is the
    provider guard's when the current network has no provider, and the
    thrown error's message when the method throws. *)
Theorem callContract_outcome (E : Ethers) (address : string) (abi : list any)
    (method : string) (params : list any) (w : World) :
  exists r,
    callContract E address abi method params w = (Ok r, w)
    /\ (forall provider result,
          providers (this w) !! currentNetwork (this w) = Some provider ->
          Contract_rejects E address abi = None ->
          contract_call E provider address abi method params = Ok result ->
          r = {| ccr_result := result; ccr_decoded := Some result; ccr_error := None |})
    /\ match ccr_error r with
       | None =>
           exists provider result,
             providers (this w) !! currentNetwork (this w) = Some provider
             /\ Contract_rejects E address abi = None
             /\ contract_call E provider address abi method params = Ok result
             /\ ccr_result r = result
             /\ ccr_decoded r = Some result
       | Some message =>
           ccr_result r = Null /\ ccr_decoded r = None
           /\ (providers (this w) !! currentNetwork (this w) = None ->
               message = "Provider not found for network: " +:+ currentNetwork (this w))
           /\ (forall provider e,
                 providers (this w) !! currentNetwork (this w) = Some provider ->
                 Contract_rejects E address abi = Some e ->
                 message = errorMessage e)
           /\ (forall provider e,
                 providers (this w) !! currentNetwork (this w) = Some provider ->
                 Contract_rejects E address abi = None ->
                 contract_call E provider address abi method params = Throw e ->
                 message = errorMessage e)
       end.
Proof.
  unfold callContract, try_catch, bind. rewrite getProvider_current.
  destruct (providers (this w) !! currentNetwork (this w)) as [provider|] eqn:Hp; simpl.
  2:{ eexists. split; [reflexivity|]. split; [intros; discriminate|].
      simpl. repeat split; try reflexivity; intros; discriminate. }
  unfold new_Contract.
  destruct (Contract_rejects E address abi) as [e0|] eqn:Hc; simpl.
  { eexists. split; [reflexivity|]. split; [intros; discriminate|].
    simpl. split; [reflexivity|]. split; [reflexivity|]. split; [intros; discriminate|].
    split; [|intros; discriminate].
    intros provider' e' _ He. injection He as <-. reflexivity. }
  unfold call. destruct (contract_call E provider address abi method params)
    as [result|e] eqn:Hcall; simpl.
  - eexists. split; [reflexivity|]. split.
    + intros provider' result' Hp' _ Hcall'. injection Hp' as <-.
      rewrite Hcall in Hcall'. injection Hcall' as <-. reflexivity.
    + simpl. exists provider, result. auto.
  - eexists. split; [reflexivity|]. split.
    + intros provider' result' Hp' _ Hcall'. injection Hp' as <-. congruence.
    + simpl. split; [reflexivity|]. split; [reflexivity|]. split; [intros; discriminate|].
      split; [intros; discriminate|].
      intros provider' e' Hp' _ Hcall'. injection Hp' as <-. congruence.
Qed.


(** ** Using an imported wallet *)

(** X21. After a wallet is imported, naming its address selects it: a message
    signed for that address is signed by the imported wallet, and a
    transaction sent from that address is handed to it. *)
Theorem imported_wallet_signs (E : Ethers) (N : Node) (privateKey message : string)
    (w w' : World) (info : WalletInfo) :
  importWallet E privateKey w = (Ok info, w') ->
  wi_address info <> "" ->
  exists wallet,
    w_address wallet = wi_address info
    /\ Some (w_privateKey wallet) = wi_privateKey info
    /\ signMessage N message (Some (wi_address info)) w'
       = (wallet_signMessage N wallet message, w')
    /\ forall request tx,
         req_from request = Some (wi_address info) ->
         buildTransaction E request w' = (Ok tx, w') ->
         submitted (sendTransaction E request w').2 = submitted w' ++ [(wallet, tx)].
Proof.
  unfold importWallet, new_Wallet, bind. rewrite getProvider_current.
  destruct (providers (this w) !! currentNetwork (this w)) as [p|] eqn:Hp; simpl;
    [|discriminate].
  unfold call. destruct (Wallet_keys E privateKey) as [kp|e]; simpl; [|discriminate].
  intros Heq. injection Heq as <- <-. simpl. intros Hne.
  assert (Hsel : forall ws,
            selectWallet (Some (kp_address kp))
              (OMap.set (kp_address kp)
                 {| w_address := kp_address kp; w_privateKey := kp_privateKey kp;
                    w_publicKey := kp_publicKey kp; w_path := None; w_mnemonic := None;
                    w_provider := Some p |} ws)
            = Some {| w_address := kp_address kp; w_privateKey := kp_privateKey kp;
                      w_publicKey := kp_publicKey kp; w_path := None; w_mnemonic := None;
                      w_provider := Some p |}).
  { intros ws. unfold selectWallet.
    destruct (kp_address kp) as [|a s] eqn:Ha; [congruence|]. simpl.
    rewrite get_set, decide_True; reflexivity. }
  eexists. split; [|split; [|split]].
  3:{ unfold signMessage, bind, get_this. simpl. rewrite Hsel. reflexivity. }
  - reflexivity.
  - reflexivity.
  - intros request tx Hfrom Hb.
    match type of Hb with
    | buildTransaction E request ?w1 = _ =>
        pose proof (sendTransaction_submits E request w1 p) as Hs
    end.
    cbn [providers this currentNetwork with_wallets wallets submitted] in Hs.
    rewrite Hfrom in Hs. apply Hs; [exact Hp | apply Hsel | exact Hb].
Qed.

(** ** Agreement between methods *)

(** X22. [estimateGas] and [getGasPrices] read the same fee data, and the
    fees of an estimate are determined by what [getGasPrices] reports on the
    same node answer. The estimate carries the fee pair, with the strings
    [getGasPrices] reports, exactly when [getGasPrices] reports both parts
    and neither is "0"; it then carries no gas price, also when
    [getGasPrices] reports one. Otherwise it carries no part of the pair,
    and it carries the gas price [getGasPrices] reports exactly when that is
    not "0". *)
Theorem estimateGas_fees_are_gas_prices (E : Ethers) (request : TransactionRequest)
    (w w1 w2 : World) (estimation : GasEstimation) (prices : GasPrices) :
  estimateGas E request w = (Ok estimation, w1) ->
  getGasPrices E w = (Ok prices, w2) ->
  let pair := nonzeroFee (gp_maxFeePerGas prices)
              && nonzeroFee (gp_maxPriorityFeePerGas prices) in
  ge_maxFeePerGas estimation = (if pair then gp_maxFeePerGas prices else None)
  /\ ge_maxPriorityFeePerGas estimation
     = (if pair then gp_maxPriorityFeePerGas prices else None)
  /\ ge_gasPrice estimation
     = (if pair then None
        else if nonzeroFee (gp_gasPrice prices) then gp_gasPrice prices else None).
Proof.
  intros Hest Hprices.
  destruct (estimateGas_reports_one_fee_model_run E request w w1 estimation Hest)
    as (provider & value & gasLimit & feeData & Hp & _ & Hf & _ & Hcase).
  revert Hprices. unfold getGasPrices, bind. rewrite getProvider_current, Hp.
  unfold call. rewrite Hf. unfold ret. intros Heq. injection Heq as <- _.
  cbn [gp_gasPrice gp_maxFeePerGas gp_maxPriorityFeePerGas].
  assert (Hfee : forall o : option Z,
            nonzeroFee (pretty <$> o) = match truthyZ o with Some _ => true | None => false end).
  { intros [z|]; [|reflexivity]. cbn [fmap option_fmap option_map nonzeroFee].
    destruct (decide (z = 0)) as [->|Hz]; [reflexivity|].
    rewrite bool_decide_eq_true_2.
    - destruct z; [congruence | reflexivity | reflexivity].
    - change "0" with (pretty 0). intros Heq. apply (inj pretty) in Heq. congruence. }
  rewrite !Hfee.
  destruct (ge_maxFeePerGas estimation) as [mf|], (ge_maxPriorityFeePerGas estimation) as [mp|],
    (ge_gasPrice estimation) as [gp|]; try contradiction.
  - destruct Hcase as (a & b & Ha0 & Hb0 & Ha & Hb & -> & -> & _). rewrite Ha, Hb.
    destruct a; [congruence| |]; (destruct b; [congruence| |]); repeat split.
  - destruct Hcase as (c & Hc0 & Hc & -> & _ & Hpair). rewrite Hc.
    destruct c; [congruence| |];
      (destruct Hpair as [->| ->];
       [|destruct (truthyZ (fd_maxFeePerGas feeData))]; repeat split).
  - destruct Hcase as (_ & -> & [->| ->]);
      [|destruct (truthyZ (fd_maxFeePerGas feeData))]; repeat split.
Qed.

(** X23. What [sendTransaction] submits is what [estimateGas] estimates: both
    convert the same value, send to the same address and default the data
    to "0x". They differ in the sender, which the transaction to sign never
    names (the selected wallet decides) and the estimate passes on as given,
    and in nonce and chain id, which only the transaction to sign carries. *)
Theorem sendTransaction_sends_what_is_estimated (E : Ethers) (request : TransactionRequest)
    (w w' : World) (tx : EthersTx) :
  buildTransaction E request w = (Ok tx, w') ->
  exists value,
    valueOf E (req_value request) w = (Ok value, w)
    /\ tx_to tx = tx_to (estimateRequest request value)
    /\ tx_value tx = tx_value (estimateRequest request value)
    /\ tx_data tx = tx_data (estimateRequest request value)
    /\ tx_from tx = None
    /\ tx_from (estimateRequest request value) = req_from request
    /\ tx_nonce tx = req_nonce request
    /\ tx_chainId tx = req_chainId request.
Proof.
  unfold buildTransaction, bind at 1.
  assert (Hvalue : (valueOf E (req_value request) w).2 = w)
    by (unfold valueOf; run; cases_of_run; reflexivity).
  destruct (valueOf E (req_value request) w) as [[value|e] w1]; simpl in Hvalue; subst w1;
    [|discriminate].
  intros Hb. exists value. split; [reflexivity|]. revert Hb. run.
  destruct (truthy (req_gasLimit request)) as [g|]; simpl;
    [destruct (BigInt E g); simpl; [|discriminate]|];
    (destruct (truthy (req_maxFeePerGas request)) as [mf|],
       (truthy (req_maxPriorityFeePerGas request)) as [mp|]; simpl;
     [destruct (BigInt E mf); simpl; [|discriminate];
      destruct (BigInt E mp); simpl; [|discriminate]
     |destruct (truthy (req_gasPrice request)) as [gp|]; simpl;
      [destruct (BigInt E gp); simpl; [|discriminate]|] ..]);
    intros Hb; injection Hb as <- _; simpl; auto 10.
Qed.

(** ** Empty strings *)

(** X24. An empty string counts as an omitted argument: an empty network name
    means the current network, an empty sender or signer address means the
    first wallet of the pool, and an empty gas limit or value means none. *)
Theorem empty_string_counts_as_absent (E : Ethers) (N : Node) (w : World) :
  getProvider (Some "") w = getProvider None w
  /\ (forall message, signMessage N message (Some "") w = signMessage N message None w)
  /\ (forall address abi method params,
        sendContractTransaction E address abi method params (Some "") (Some "") (Some "") w
        = sendContractTransaction E address abi method params None None None w)
  /\ (forall abi bytecode params,
        deployContract E abi bytecode params (Some "") (Some "") w
        = deployContract E abi bytecode params None None w)
  /\ (forall network, network <> "" ->
        getProvider (Some network) w
        = match providers (this w) !! network with
          | Some provider => (Ok provider, w)
          | None => (Throw (Error ("Provider not found for network: " +:+ network)), w)
          end).
Proof.
  split; [reflexivity|]. split; [reflexivity|]. split; [reflexivity|].
  split; [reflexivity|].
  intros network Hne. unfold getProvider, bind, get_this.
  destruct network as [|a s]; [congruence|].
  change (orElse (Some (String a s)) (currentNetwork (this w))) with (String a s).
  destruct (providers (this w) !! String a s); reflexivity.
Qed.

(** * The plugin *)

(** ** Tool parameters from a JSON schema *)

Lemma orElse_nonempty (o : option string) (d : string) : d <> "" -> orElse o d <> "".
Proof. unfold orElse. destruct o as [[|a s]|]; simpl; congruence. Qed.

Lemma append_nonempty (s t : string) : s <> "" -> s +:+ t <> "".
Proof. intros Hs. destruct s; [congruence|]. cbn. discriminate. Qed.

(** X25. The converter gives one parameter per property of the schema, in the
    order of the properties, with the property's name, type and default; a
    parameter is required exactly when its name is listed as required. Its
    description is the property's description, or "Parameter <name>" when
    the property has none or an empty one, followed, for a property with an
    [enum], by " (Allowed values: ...)" with the values joined by ", "; it is
    never empty. A missing schema, or one without properties, gives no
    parameter. *)
Theorem convertOpenAISchemaToToolParameters_spec (schema : option OpenAISchema) :
  let properties := default [] (schema ≫= os_properties) in
  let required := default [] (schema ≫= os_required) in
  let result := convertOpenAISchemaToToolParameters schema in
  tp_name <$> result = OMap.keys properties
  /\ Forall2 (fun entry parameter =>
                tp_name parameter = entry.1
                /\ tp_type parameter = sp_type entry.2
                /\ tp_default parameter = sp_default entry.2
                /\ (tp_required parameter = true <-> entry.1 ∈ required)
                /\ (exists description,
                      match sp_description entry.2 with
                      | Some given =>
                          if decide (given = "") then description = "Parameter " +:+ entry.1
                          else description = given
                      | None => description = "Parameter " +:+ entry.1
                      end
                      /\ match sp_enum entry.2 with
                         | Some values =>
                             tp_description parameter
                             = description +:+ " (Allowed values: "
                                 +:+ String.concat ", " values +:+ ")"
                         | None => tp_description parameter = description
                         end)
                /\ tp_description parameter <> "")
             properties result.
Proof.
  destruct schema as [[type [properties|] required]|]; simpl;
    [|split; [reflexivity | constructor] ..].
  induction properties as [|[name prop] properties [IHn IHf]]; simpl;
    [split; [reflexivity | constructor]|].
  split; [f_equal; exact IHn|].
  constructor; [|exact IHf]. simpl.
  split; [reflexivity|]. split; [reflexivity|]. split; [reflexivity|].
  split; [apply bool_decide_eq_true|].
  split.
  - exists (orElse (sp_description prop) ("Parameter " +:+ name)). split.
    + unfold orElse. destruct (sp_description prop) as [[|c given]|]; reflexivity.
    + destruct (sp_enum prop); reflexivity.
  - assert (Hd : orElse (sp_description prop) ("Parameter " +:+ name) <> "")
      by (apply orElse_nonempty; discriminate).
    destruct (sp_enum prop); [apply append_nonempty, Hd | exact Hd].
Qed.

(** ** The tool registry *)

Section FoldSet.
Context {A V : Type} (key : A -> string) (val : A -> V).

Lemma get_fold_set_other (l : list A) (m : list (string * V)) (k : string) :
  k ∉ key <$> l ->
  OMap.get k (fold_left (fun m d => OMap.set (key d) (val d) m) l m) = OMap.get k m.
Proof.
  revert m. induction l as [|d l IH]; intros m Hk; simpl; [reflexivity|].
  rewrite fmap_cons in Hk. apply not_elem_of_cons in Hk as [Hne Hk].
  rewrite IH by exact Hk. apply get_set_other, Hne.
Qed.

Lemma get_fold_set (l : list A) (m : list (string * V)) (d : A) :
  NoDup (key <$> l) -> d ∈ l ->
  OMap.get (key d) (fold_left (fun m d => OMap.set (key d) (val d) m) l m) = Some (val d).
Proof.
  revert m. induction l as [|d0 l IH]; intros m Hnd Hin; [apply elem_of_nil in Hin as []|].
  rewrite fmap_cons in Hnd. apply NoDup_cons in Hnd as [Hd0 Hnd]. simpl.
  apply elem_of_cons in Hin as [->|Hin]; [|apply IH; assumption].
  rewrite get_fold_set_other by exact Hd0. rewrite get_set, decide_True; reflexivity.
Qed.

Lemma set_same (k : string) (v : V) (m : list (string * V)) :
  OMap.get k m = Some v -> OMap.set k v m = m.
Proof.
  induction m as [|[k0 v0] m IH]; simpl; [discriminate|].
  destruct (decide (k = k0)) as [->|Hne].
  - intros Heq. injection Heq as ->. reflexivity.
  - intros Hget. f_equal. apply IH, Hget.
Qed.

Lemma fold_set_same (l : list A) (m : list (string * V)) :
  (forall d, d ∈ l -> OMap.get (key d) m = Some (val d)) ->
  fold_left (fun m d => OMap.set (key d) (val d) m) l m = m.
Proof.
  induction l as [|d l IH]; intros Hm; simpl; [reflexivity|].
  rewrite set_same by (apply Hm, elem_of_cons; auto).
  apply IH. intros d' Hin. apply Hm, elem_of_cons. auto.
Qed.
End FoldSet.

(** [initializeTools], run. *)
Lemma initializeTools_run (functionDefs : list FunctionDefinition) (p : EVMPlugin) :
  initializeTools functionDefs p
  = let tools := fold_left (fun m d => OMap.set (fn_name d) (toolOf d) m)
                   functionDefs (plg_tools p) in
    {| plg_client := plg_client p;
       plg_evmConfig := plg_evmConfig p;
       plg_tools := tools;
       plg_functionDefinitions :=
         fold_left (fun m d => OMap.set (fn_name d) d m) functionDefs
           (plg_functionDefinitions p);
       plg_config_tools := OMap.values tools |}.
Proof.
  unfold initializeTools. revert p.
  induction functionDefs as [|d defs IH]; intros p; simpl; [reflexivity|].
  rewrite IH. reflexivity.
Qed.

(** X26. [initializeTools] (re)sets the plugin's own tools and nothing else: each
    function definition has its tool under its name, a tool registered under
    another name is kept, the published tool list is the content of the
    registry, and running it again, as [init] does, changes nothing. *)
Theorem initializeTools_resets (functionDefs : list FunctionDefinition) (p : EVMPlugin) :
  NoDup (fn_name <$> functionDefs) ->
  (forall funcDef, funcDef ∈ functionDefs ->
     getTool (fn_name funcDef) (initializeTools functionDefs p) = Some (toolOf funcDef))
  /\ (forall name, name ∉ fn_name <$> functionDefs ->
        getTool name (initializeTools functionDefs p) = getTool name p)
  /\ plg_config_tools (initializeTools functionDefs p)
     = getTools (initializeTools functionDefs p)
  /\ initializeTools functionDefs (initializeTools functionDefs p)
     = initializeTools functionDefs p.
Proof.
  intros Hnd. unfold getTool, getTools. rewrite !initializeTools_run. cbn zeta.
  cbn [plg_tools plg_config_tools plg_client plg_evmConfig plg_functionDefinitions].
  split; [intros d Hin; apply (get_fold_set fn_name toolOf); assumption|].
  split; [intros name Hin; apply (get_fold_set_other fn_name toolOf); assumption|].
  split; [reflexivity|].
  rewrite (fold_set_same fn_name toolOf functionDefs
             (fold_left (fun m d => OMap.set (fn_name d) (toolOf d) m)
                functionDefs (plg_tools p)))
    by (intros d Hin; apply (get_fold_set fn_name toolOf); assumption).
  pose proof (fold_set_same fn_name (fun d => d) functionDefs
                (fold_left (fun m d => OMap.set (fn_name d) d m)
                   functionDefs (plg_functionDefinitions p))) as Hdefs.
  cbn beta in Hdefs. rewrite Hdefs; [reflexivity|].
  intros d Hin. apply (get_fold_set fn_name (fun d => d)); assumption.
Qed.

Lemma get_delete {V} (k a : string) (m : list (string * V)) :
  a <> k -> OMap.get a (omap_delete k m) = OMap.get a m.
Proof.
  intros Hne. induction m as [|[k0 v0] m IH]; simpl; [reflexivity|].
  destruct (decide (k = k0)) as [->|Hk]; simpl.
  - rewrite decide_False by exact Hne. reflexivity.
  - rewrite IH. reflexivity.
Qed.

Lemma get_delete_same {V} (k : string) (m : list (string * V)) :
  NoDup (OMap.keys m) -> OMap.get k (omap_delete k m) = None.
Proof.
  unfold OMap.keys. induction m as [|[k0 v0] m IH]; simpl; intros Hnd; [reflexivity|].
  apply NoDup_cons in Hnd as [Hk0 Hnd].
  destruct (decide (k = k0)) as [->|Hk]; simpl.
  - apply get_None. exact Hk0.
  - rewrite decide_False by exact Hk. apply IH, Hnd.
Qed.

Lemma delete_set_new {V} (k : string) (v : V) (m : list (string * V)) :
  OMap.get k m = None -> omap_delete k (OMap.set k v m) = m.
Proof.
  induction m as [|[k0 v0] m IH]; simpl; intros Hget.
  - rewrite decide_True; reflexivity.
  - destruct (decide (k = k0)) as [->|Hk]; [discriminate|]. simpl.
    rewrite decide_False by exact Hk. f_equal. apply IH, Hget.
Qed.

Lemma length_set_has {V} (k : string) (v : V) (m : list (string * V)) :
  length (OMap.set k v m) = if OMap.has k m then length m else S (length m).
Proof.
  unfold OMap.has. induction m as [|[k0 v0] m IH]; simpl; [reflexivity|].
  destruct (decide (k = k0)) as [->|Hk]; simpl; [reflexivity|].
  rewrite IH. destruct (OMap.get k m); reflexivity.
Qed.

(** X27. The registry behaves as a map from names to tools: a registered tool is
    found under its name and replaces the tool of that name without adding
    an entry; [removeTool] reports whether the name was registered, removes
    it and undoes the registration of a new tool; other names are not
    affected; and after every change the published tool list is the content
    of the registry. *)
Theorem tool_registry_laws (tool : Plugin) (name : string) (p : EVMPlugin) :
  getTool (pl_name tool) (registerTool tool p) = Some tool
  /\ (name <> pl_name tool -> getTool name (registerTool tool p) = getTool name p)
  /\ getToolCount (registerTool tool p)
     = (if hasTool (pl_name tool) p then getToolCount p else S (getToolCount p))
  /\ (removeTool name p).1 = hasTool name p
  /\ (NoDup (OMap.keys (plg_tools p)) -> hasTool name (removeTool name p).2 = false)
  /\ (name <> pl_name tool ->
      getTool (pl_name tool) (removeTool name p).2 = getTool (pl_name tool) p)
  /\ (hasTool (pl_name tool) p = false ->
      plg_tools (removeTool (pl_name tool) (registerTool tool p)).2 = plg_tools p)
  /\ plg_config_tools (registerTool tool p) = getTools (registerTool tool p)
  /\ plg_config_tools (removeTool name p).2 = getTools (removeTool name p).2.
Proof.
  unfold getTool, hasTool, getToolCount, getTools, registerTool, removeTool. simpl.
  split; [rewrite get_set, decide_True; reflexivity|].
  split; [intros Hne; apply get_set_other, Hne|].
  split; [apply length_set_has|].
  split; [reflexivity|].
  split; [intros Hnd; unfold OMap.has; rewrite get_delete_same by exact Hnd; reflexivity|].
  split; [intros Hne; apply get_delete; congruence|].
  split; [|split; reflexivity].
  unfold OMap.has. intros Hhas. apply delete_set_new.
  destruct (OMap.get (pl_name tool) (plg_tools p)); [discriminate | reflexivity].
Qed.

(** ** Tools and the cases of [execute] *)

(** X28. The plugin registers one tool per function definition, in order, and
    its tools and the cases of the [switch] in [execute] correspond one to
    one: the i-th tool takes the i-th case, so no tool of the plugin reaches
    the [default] case and no case is without a tool. *)
Theorem plugin_tools_dispatch (config : EVMConfig) :
  getTools (new_EVMPlugin getFunctionDefinitions config) = toolOf <$> getFunctionDefinitions
  /\ getToolCount (new_EVMPlugin getFunctionDefinitions config) = 18%nat
  /\ plg_config_tools (new_EVMPlugin getFunctionDefinitions config)
     = getTools (new_EVMPlugin getFunctionDefinitions config)
  /\ dispatch <$> (pl_name <$> getTools (new_EVMPlugin getFunctionDefinitions config))
     = Ok <$> OMap.values cases.
Proof.
  split; [vm_compute; reflexivity|]. split; [vm_compute; reflexivity|].
  split; [vm_compute; reflexivity|]. vm_compute. reflexivity.
Qed.

(** * The further properties on concrete inputs *)

Lemma client_reachable : reachable Stub.ethers Chain.node Scenario.client.
Proof. apply (reachable_new _ _ Scenario.keysConfig). vm_compute. reflexivity. Defined.

Lemma onPolygon_reachable : reachable Stub.ethers Chain.node Session.onPolygon.
Proof.
  apply (reachable_call _ _ Scenario.client); [exact client_reachable|].
  apply calls_switchNetwork.
Defined.

Lemma client_unique : NoDup (OMap.keys (wallets (this Scenario.client))).
Proof. refine (bool_decide_unpack _ _). vm_compute. exact I. Defined.

Lemma client_bound : bound Scenario.client.
Proof.
  split; [exact client_unique|]. exists Scenario.mainnet.
  split; [vm_compute; reflexivity|].
  intros address wallet Hin. apply list_elem_of_In in Hin. vm_compute in Hin.
  destruct Hin as [Heq|[Heq|[]]]; injection Heq as <- <-; split; reflexivity.
Defined.

(** ** A switch to polygon, seen from construction *)

Lemma reachable_frame_witness :
  reachable Stub.ethers Chain.node Session.onPolygon
  /\ exists cfg,
       (new_EVMClient Stub.ethers cfg).1 = Ok tt
       /\ providers (this Session.onPolygon) = providers (this (new_EVMClient Stub.ethers cfg).2)
       /\ config (this Session.onPolygon) = config (this (new_EVMClient Stub.ethers cfg).2)
       /\ logger (new_EVMClient Stub.ethers cfg).2 `prefix_of` logger Session.onPolygon
       /\ submitted (new_EVMClient Stub.ethers cfg).2 `prefix_of` submitted Session.onPolygon.
Proof.
  split; [exact onPolygon_reachable|].
  exact (reachable_frame Stub.ethers Chain.node Session.onPolygon onPolygon_reachable).
Defined.

Lemma reachable_bound_witness :
  reachable Stub.ethers Chain.node Session.onPolygon
  /\ NoDup (OMap.keys (wallets (this Session.onPolygon)))
  /\ exists provider,
       getProvider None Session.onPolygon = (Ok provider, Session.onPolygon)
       /\ forall address wallet,
            OMap.get address (wallets (this Session.onPolygon)) = Some wallet ->
            w_address wallet = address /\ w_provider wallet = Some provider.
Proof.
  split; [exact onPolygon_reachable|].
  exact (reachable_bound Stub.ethers Chain.node Session.onPolygon onPolygon_reachable).
Defined.

(** ** Two switches *)

Lemma switchNetwork_last_wins_witness :
  NoDup (OMap.keys (wallets (this Scenario.client)))
  /\ providers (this Scenario.client) !! "polygon" = Some Scenario.polygon
  /\ providers (this Scenario.client) !! "arbitrum" = Some Session.arbitrum
  /\ (switchNetwork "arbitrum" (switchNetwork "polygon" Scenario.client).2).1 = Ok tt
  /\ this (switchNetwork "arbitrum" (switchNetwork "polygon" Scenario.client).2).2
     = this (switchNetwork "arbitrum" Scenario.client).2.
Proof.
  assert (Hp : providers (this Scenario.client) !! "polygon" = Some Scenario.polygon)
    by (vm_compute; reflexivity).
  assert (Ha : providers (this Scenario.client) !! "arbitrum" = Some Session.arbitrum)
    by (vm_compute; reflexivity).
  split; [exact client_unique|]. split; [exact Hp|]. split; [exact Ha|].
  apply (switchNetwork_last_wins Scenario.client "polygon" "arbitrum" client_unique).
  - exists Scenario.polygon. exact Hp.
  - exists Session.arbitrum. exact Ha.
Defined.

Lemma switchNetwork_round_trip_witness :
  bound Scenario.client
  /\ providers (this Scenario.client) !! "polygon" = Some Scenario.polygon
  /\ currentNetwork (this Scenario.client) = "mainnet"
  /\ (switchNetwork "mainnet" (switchNetwork "polygon" Scenario.client).2).1 = Ok tt
  /\ this (switchNetwork "mainnet" (switchNetwork "polygon" Scenario.client).2).2
     = this Scenario.client.
Proof.
  assert (Hp : providers (this Scenario.client) !! "polygon" = Some Scenario.polygon)
    by (vm_compute; reflexivity).
  split; [exact client_bound|]. split; [exact Hp|]. split; [reflexivity|].
  apply (switchNetwork_round_trip Scenario.client "polygon" client_bound).
  exists Scenario.polygon. exact Hp.
Defined.

(** ** Importing account 1 into a client without wallets *)

Lemma importWallet_sets_one_wallet_witness :
  importWallet Stub.ethers (kp_privateKey Stub.account1) Scenario.emptyClient
  = (Ok Session.imported, Session.afterImport)
  /\ OMap.keys (wallets (this Session.afterImport)) = [kp_address Stub.account1]
  /\ logger Session.afterImport = logger Scenario.emptyClient
  /\ importWallet Stub.ethers (kp_privateKey Stub.account1) Session.afterImport
     = (Ok Session.imported, Session.afterImport).
Proof.
  assert (Hrun : importWallet Stub.ethers (kp_privateKey Stub.account1) Scenario.emptyClient
                 = (Ok Session.imported, Session.afterImport)) by (vm_compute; reflexivity).
  destruct (importWallet_sets_one_wallet Stub.ethers (kp_privateKey Stub.account1)
              Scenario.emptyClient) as [_ Hok].
  destruct (Hok Session.imported Session.afterImport Hrun)
    as (provider & wallet & _ & _ & _ & _ & _ & _ & Hkeys & _ & _ & Hlog & _ & Hagain).
  split; [exact Hrun|]. split; [exact Hkeys|]. split; [exact Hlog | exact Hagain].
Defined.

(** ** Creating a wallet in a client with two *)

Lemma createWallet_sets_one_wallet_witness :
  providers (this Scenario.client) !! currentNetwork (this Scenario.client)
  = Some Scenario.mainnet
  /\ OMap.get (w_address Session.random) (wallets (this Session.afterCreate))
     = Some (connect Session.random Scenario.mainnet)
  /\ (kp_address Stub.account0 <> w_address Session.random ->
      OMap.get (kp_address Stub.account0) (wallets (this Session.afterCreate))
      = OMap.get (kp_address Stub.account0) (wallets (this Scenario.client))).
Proof.
  assert (Hp : providers (this Scenario.client) !! currentNetwork (this Scenario.client)
               = Some Scenario.mainnet) by (vm_compute; reflexivity).
  pose proof (createWallet_sets_one_wallet Session.random Scenario.client) as Hcreate.
  rewrite Hp in Hcreate.
  destruct Hcreate as (info & w' & Hrun & _ & _ & _ & Hget & Hother & _).
  unfold Session.afterCreate. rewrite Hrun. cbn [snd].
  split; [exact Hp|]. split; [exact Hget|]. exact (Hother (kp_address Stub.account0)).
Defined.

Lemma addresses_only_grow_witness :
  reachable Stub.ethers Chain.node Scenario.client
  /\ calls Stub.ethers Chain.node Scenario.client Session.afterCreate
  /\ wallets (this Scenario.client) <> []
  /\ OMap.keys (wallets (this Scenario.client))
     `prefix_of` OMap.keys (wallets (this Session.afterCreate))
  /\ w_address <$> selectWallet None (wallets (this Session.afterCreate))
     = w_address <$> selectWallet None (wallets (this Scenario.client)).
Proof.
  assert (Hcall : calls Stub.ethers Chain.node Scenario.client Session.afterCreate)
    by apply calls_createWallet.
  assert (Hne : wallets (this Scenario.client) <> []) by (vm_compute; discriminate).
  destruct (addresses_only_grow Stub.ethers Chain.node Scenario.client Session.afterCreate
              client_reachable Hcall) as [Hpre Hhead].
  split; [exact client_reachable|]. split; [exact Hcall|]. split; [exact Hne|].
  split; [exact Hpre | exact (Hhead Hne)].
Defined.

(** ** Construction with the polygon endpoint overridden *)

Lemma construction_leaves_witness :
  providers (this (new_EVMClient Stub.ethers Scenario.brokenPolygonConfig).2) !! "mainnet"
  = Some Scenario.mainnet
  /\ exists network,
       ("mainnet", network) ∈ registry Scenario.brokenPolygonConfig
       /\ rejected Stub.ethers network = None
       /\ Scenario.mainnet = providerOf network.
Proof.
  assert (Hp : providers (this (new_EVMClient Stub.ethers Scenario.brokenPolygonConfig).2)
                 !! "mainnet" = Some Scenario.mainnet) by (vm_compute; reflexivity).
  destruct (construction_leaves Stub.ethers Scenario.brokenPolygonConfig) as [Hfrom _].
  split; [exact Hp | exact (Hfrom "mainnet" Scenario.mainnet Hp)].
Defined.

Lemma getNetwork_table_is_registry_witness :
  NoDup (OMap.keys (default [] (cfg_networks Scenario.brokenPolygonConfig)))
  /\ OMap.get "polygon"
       (spread COMMON_NETWORKS (default [] (cfg_networks Scenario.brokenPolygonConfig)))
     = OMap.get "polygon" (registry Scenario.brokenPolygonConfig).
Proof.
  assert (Hnd : NoDup (OMap.keys (default [] (cfg_networks Scenario.brokenPolygonConfig)))).
  { refine (bool_decide_unpack _ _). vm_compute. exact I. }
  split; [exact Hnd|].
  exact (getNetwork_table_is_registry Scenario.brokenPolygonConfig "polygon" Hnd).
Defined.

(** ** The order of a merged table *)

(** In a merged object the array indices come first, in ascending order,
    wherever they were written. *)
Example spread_enumerates_indices_first :
  OMap.keys (spread [("mainnet", 1%nat); ("polygon", 137%nat)]
               [("goerli", 5%nat); ("10", 10%nat); ("5", 55%nat); ("mainnet", 2%nat);
                ("007", 7%nat)])
  = ["5"; "10"; "mainnet"; "polygon"; "goerli"; "007"].
Proof. vm_compute. reflexivity. Qed.

(** ** Queries on mainnet *)

Lemma getNetwork_finds_chain_witness :
  getNetwork Chain.node Scenario.client = (Ok (Some Session.mainnetConfig), Scenario.client)
  /\ exists provider chainId,
       providers (this Scenario.client) !! currentNetwork (this Scenario.client)
       = Some provider
       /\ provider_getNetwork Chain.node provider = Ok chainId
       /\ net_chainId Session.mainnetConfig = chainId
       /\ exists key,
            (key, Session.mainnetConfig)
            ∈ spread COMMON_NETWORKS
                (default [] (cfg_networks (config (this Scenario.client)))).
Proof.
  assert (Hrun : getNetwork Chain.node Scenario.client
                 = (Ok (Some Session.mainnetConfig), Scenario.client))
    by (vm_compute; reflexivity).
  split; [exact Hrun|].
  exact (getNetwork_finds_chain Chain.node Scenario.client Scenario.client
           (Some Session.mainnetConfig) Hrun).
Defined.

Lemma getBlock_zero_is_latest_witness :
  5 <> 0
  /\ getBlock Chain.node (Some 0) Scenario.client = getBlock Chain.node None Scenario.client
  /\ blockTag (Some 5) = BlockNumber 5.
Proof.
  assert (Hn : 5 <> 0) by lia.
  destruct (getBlock_zero_is_latest Chain.node Scenario.client) as (Hzero & _ & Hother).
  split; [exact Hn|]. split; [exact Hzero | exact (Hother 5 Hn)].
Defined.

Lemma sendTransaction_then_getTransaction_witness :
  sendTransaction Stub.ethers Scenario.request Scenario.client
  = (Ok Session.response, Session.afterSend)
  /\ getTransaction Chain.node (res_hash Session.response) Session.afterSend
     = (Ok (Some Session.response), Session.afterSend).
Proof.
  assert (Hrun : sendTransaction Stub.ethers Scenario.request Scenario.client
                 = (Ok Session.response, Session.afterSend)) by (vm_compute; reflexivity).
  split; [exact Hrun|].
  destruct (sendTransaction_then_getTransaction Stub.ethers Chain.node Scenario.request
              Scenario.client Session.afterSend Session.response Hrun)
    as (provider & wallet & tx & sent & receipt & Hp & Hw & Hb & Hsent & _ & _ & Hget).
  apply Hget.
  vm_compute in Hp. injection Hp as <-.
  vm_compute in Hw. injection Hw as <-.
  vm_compute in Hb. injection Hb as <-.
  vm_compute in Hsent. injection Hsent as <-.
  vm_compute. reflexivity.
Defined.

Lemma estimateGas_reports_one_fee_model_witness :
  estimateGas Stub.ethers Scenario.request Scenario.client
  = (Ok Session.estimation, Scenario.client)
  /\ exists provider value gasLimit feeData,
       providers (this Scenario.client) !! currentNetwork (this Scenario.client)
       = Some provider
       /\ provider_estimateGas Stub.ethers provider
            (estimateRequest Scenario.request value) = Ok gasLimit
       /\ provider_getFeeData Stub.ethers provider = Ok feeData
       /\ ge_gasLimit Session.estimation = pretty gasLimit
       /\ exists a b,
            a <> 0 /\ b <> 0
            /\ fd_maxFeePerGas feeData = Some a /\ fd_maxPriorityFeePerGas feeData = Some b
            /\ "40000000000" = pretty a /\ "1000000000" = pretty b
            /\ ge_estimatedCost Session.estimation = formatEther Stub.ethers (gasLimit * a).
Proof.
  assert (Hrun : estimateGas Stub.ethers Scenario.request Scenario.client
                 = (Ok Session.estimation, Scenario.client)) by (vm_compute; reflexivity).
  split; [exact Hrun|].
  exact (estimateGas_reports_one_fee_model Stub.ethers Scenario.request Scenario.client
           Scenario.client Session.estimation Hrun).
Defined.

(** ** Contracts *)

(** A transfer that is sent, and a method the contract reverts. *)
Lemma sendContractTransaction_outcome_witness :
  (exists r w',
     sendContractTransaction Stub.ethers "0xdAC17F958D2ee523a2206206994597C13D831ec7" []
       "transfer" [] None None None Scenario.client = (Ok r, w')
     /\ ctr_error r = None /\ ctr_hash r = "0x7b")
  /\ (exists r w',
        sendContractTransaction Stub.ethers "0xdAC17F958D2ee523a2206206994597C13D831ec7" []
          "approve" [] None None None Scenario.emptyClient = (Ok r, w')
        /\ ctr_error r = Some "No wallet available for sending transaction"
        /\ ctr_hash r = "").
Proof.
  split.
  - destruct (sendContractTransaction_outcome Stub.ethers
                "0xdAC17F958D2ee523a2206206994597C13D831ec7" [] "transfer" [] None None None
                Scenario.client) as (r & w' & Hrun & Hcase).
    exists r, w'. split; [exact Hrun|].
    vm_compute in Hrun. injection Hrun as <- _. split; reflexivity.
  - destruct (sendContractTransaction_outcome Stub.ethers
                "0xdAC17F958D2ee523a2206206994597C13D831ec7" [] "approve" [] None None None
                Scenario.emptyClient) as (r & w' & Hrun & Hcase).
    exists r, w'. split; [exact Hrun|].
    destruct (ctr_error r) as [message|] eqn:Herr.
    + destruct Hcase as (Hhash & _ & _ & _ & _ & _ & Hnone & _).
      rewrite (Hnone eq_refl). split; [reflexivity | exact Hhash].
    + destruct Hcase as (wallet & _ & _ & _ & Hw & _). vm_compute in Hw. discriminate.
Defined.

Lemma callContract_outcome_witness :
  (exists r,
     callContract Stub.ethers "0xdAC17F958D2ee523a2206206994597C13D831ec7" [] "balanceOf" []
       Scenario.client = (Ok r, Scenario.client)
     /\ r = {| ccr_result := Num 0; ccr_decoded := Some (Num 0); ccr_error := None |})
  /\ (exists r,
        callContract Stub.ethers "0xdAC17F958D2ee523a2206206994597C13D831ec7" [] "name" []
          Scenario.client = (Ok r, Scenario.client)
        /\ ccr_error r = Some "execution reverted").
Proof.
  assert (Hp : providers (this Scenario.client) !! currentNetwork (this Scenario.client)
               = Some Scenario.mainnet) by (vm_compute; reflexivity).
  split.
  - destruct (callContract_outcome Stub.ethers "0xdAC17F958D2ee523a2206206994597C13D831ec7" []
                "balanceOf" [] Scenario.client) as (r & Hrun & Hok & _).
    exists r. split; [exact Hrun|].
    exact (Hok Scenario.mainnet (Num 0) Hp eq_refl eq_refl).
  - destruct (callContract_outcome Stub.ethers "0xdAC17F958D2ee523a2206206994597C13D831ec7" []
                "name" [] Scenario.client) as (r & Hrun & _ & Hcase).
    exists r. split; [exact Hrun|].
    destruct (ccr_error r) as [message|] eqn:Herr.
    + destruct Hcase as (_ & _ & _ & _ & Hthrow).
      rewrite (Hthrow Scenario.mainnet (JsError "Error" "execution reverted") Hp eq_refl
                 eq_refl).
      reflexivity.
    + destruct Hcase as (provider & result & Hp' & _ & Hcall & _).
      rewrite Hp in Hp'. injection Hp' as <-. vm_compute in Hcall. discriminate.
Defined.


(** ** Signing with the imported wallet *)

Lemma imported_wallet_signs_witness :
  importWallet Stub.ethers (kp_privateKey Stub.account1) Scenario.emptyClient
  = (Ok Session.imported, Session.afterImport)
  /\ wi_address Session.imported <> ""
  /\ exists wallet,
       w_address wallet = wi_address Session.imported
       /\ Some (w_privateKey wallet) = wi_privateKey Session.imported
       /\ signMessage Chain.node "hello" (Some (wi_address Session.imported))
            Session.afterImport
          = (wallet_signMessage Chain.node wallet "hello", Session.afterImport).
Proof.
  assert (Hrun : importWallet Stub.ethers (kp_privateKey Stub.account1) Scenario.emptyClient
                 = (Ok Session.imported, Session.afterImport)) by (vm_compute; reflexivity).
  assert (Hne : wi_address Session.imported <> "") by (vm_compute; discriminate).
  split; [exact Hrun|]. split; [exact Hne|].
  destruct (imported_wallet_signs Stub.ethers Chain.node (kp_privateKey Stub.account1) "hello"
              Scenario.emptyClient Session.afterImport Session.imported Hrun Hne)
    as (wallet & Ha & Hk & Hsign & _).
  exists wallet. auto.
Defined.

(** ** The plugin's tools *)

Lemma convertOpenAISchemaToToolParameters_spec_witness :
  tp_name <$> convertOpenAISchemaToToolParameters Session.sendSchema
  = ["to"; "value"; "from"; "data"; "gasLimit"]
  /\ tp_required <$> convertOpenAISchemaToToolParameters Session.sendSchema
     = [true; true; false; false; false]
  /\ tp_description <$> convertOpenAISchemaToToolParameters Session.bareSchema
     = ["Parameter amount (Allowed values: 1, 2)"]
  /\ (tp_description <$> convertOpenAISchemaToToolParameters Session.switchSchema)
     = [("The network to switch to (e.g., " +:+ dquote +:+ "mainnet" +:+ dquote +:+ ", "
          +:+ dquote +:+ "polygon" +:+ dquote +:+ ", " +:+ dquote +:+ "arbitrum" +:+ dquote
          +:+ ")")
          +:+ " (Allowed values: mainnet, sepolia, polygon, arbitrum, optimism, base, "
          +:+ "avalanche, bsc)"].
Proof.
  destruct (convertOpenAISchemaToToolParameters_spec Session.sendSchema) as [Hnames _].
  destruct (convertOpenAISchemaToToolParameters_spec Session.bareSchema) as [_ Hbare].
  destruct (convertOpenAISchemaToToolParameters_spec Session.switchSchema) as [_ Hswitch].
  split; [exact Hnames|]. split; [vm_compute; reflexivity|].
  apply Forall2_cons_1 in Hbare as [(_ & _ & _ & _ & (description & Hd & Ht) & _) _].
  apply Forall2_cons_1 in Hswitch as [(_ & _ & _ & _ & (description' & Hd' & Ht') & _) _].
  vm_compute in Hd, Ht, Hd', Ht'. subst description description'.
  split; [vm_compute; f_equal; exact Ht | vm_compute; f_equal; exact Ht'].
Defined.

Lemma initializeTools_resets_witness :
  NoDup (fn_name <$> getFunctionDefinitions)
  /\ initializeTools getFunctionDefinitions (registerTool Session.echo Session.plugin)
     = registerTool Session.echo Session.plugin
  /\ getTool "echo"
       (initializeTools getFunctionDefinitions (registerTool Session.echo Session.plugin))
     = Some Session.echo.
Proof.
  assert (Hnd : NoDup (fn_name <$> getFunctionDefinitions)).
  { refine (bool_decide_unpack _ _). vm_compute. exact I. }
  destruct (initializeTools_resets getFunctionDefinitions
              (registerTool Session.echo Session.plugin) Hnd) as (_ & Hother & _ & _).
  split; [exact Hnd|]. split; [vm_compute; reflexivity|].
  rewrite Hother; [vm_compute; reflexivity|].
  refine (bool_decide_unpack _ _). vm_compute. exact I.
Defined.

Lemma tool_registry_laws_witness :
  "echo" <> "evm_get_balance"
  /\ hasTool "echo" Session.plugin = false
  /\ getTool "echo" (registerTool Session.echo Session.plugin) = Some Session.echo
  /\ getToolCount (registerTool Session.echo Session.plugin) = 19%nat
  /\ plg_tools (removeTool "echo" (registerTool Session.echo Session.plugin)).2
     = plg_tools Session.plugin
  /\ hasTool "evm_get_balance" (removeTool "evm_get_balance" Session.plugin).2 = false.
Proof.
  assert (Hne : "echo" <> "evm_get_balance") by discriminate.
  assert (Hnew : hasTool "echo" Session.plugin = false) by (vm_compute; reflexivity).
  assert (Hnd : NoDup (OMap.keys (plg_tools Session.plugin))).
  { refine (bool_decide_unpack _ _). vm_compute. exact I. }
  destruct (tool_registry_laws Session.echo "evm_get_balance" Session.plugin)
    as (Hget & _ & Hcount & _ & Hgone & _ & Hundo & _).
  split; [exact Hne|]. split; [exact Hnew|]. split; [exact Hget|].
  split; [rewrite Hcount; vm_compute; reflexivity|].
  split; [exact (Hundo Hnew) | exact (Hgone Hnd)].
Defined.

(** ** Estimates, prices and what is sent *)

Lemma estimateGas_fees_are_gas_prices_witness :
  estimateGas Stub.ethers Scenario.request Scenario.client
  = (Ok Session.estimation, Scenario.client)
  /\ getGasPrices Stub.ethers Scenario.client = (Ok Session.prices, Scenario.client)
  /\ gp_gasPrice Session.prices = Some "20000000000"
  /\ ge_gasPrice Session.estimation = None
  /\ ge_maxFeePerGas Session.estimation = gp_maxFeePerGas Session.prices
  /\ ge_maxPriorityFeePerGas Session.estimation = gp_maxPriorityFeePerGas Session.prices.
Proof.
  assert (Hest : estimateGas Stub.ethers Scenario.request Scenario.client
                 = (Ok Session.estimation, Scenario.client)) by (vm_compute; reflexivity).
  assert (Hprices : getGasPrices Stub.ethers Scenario.client
                    = (Ok Session.prices, Scenario.client)) by (vm_compute; reflexivity).
  destruct (estimateGas_fees_are_gas_prices Stub.ethers Scenario.request Scenario.client
              Scenario.client Scenario.client Session.estimation Session.prices Hest Hprices)
    as (Hmax & Hpriority & Hprice).
  split; [exact Hest|]. split; [exact Hprices|]. split; [reflexivity|].
  split; [exact Hprice|]. split; [exact Hmax | exact Hpriority].
Defined.

Lemma sendTransaction_sends_what_is_estimated_witness :
  buildTransaction Stub.ethers Scenario.request Scenario.client
  = (Ok Scenario.built, Scenario.client)
  /\ exists value,
       valueOf Stub.ethers (req_value Scenario.request) Scenario.client
       = (Ok value, Scenario.client)
       /\ tx_to Scenario.built = tx_to (estimateRequest Scenario.request value)
       /\ tx_value Scenario.built = tx_value (estimateRequest Scenario.request value)
       /\ tx_data Scenario.built = tx_data (estimateRequest Scenario.request value)
       /\ tx_from Scenario.built = None
       /\ tx_from (estimateRequest Scenario.request value) = req_from Scenario.request
       /\ tx_nonce Scenario.built = req_nonce Scenario.request
       /\ tx_chainId Scenario.built = req_chainId Scenario.request.
Proof.
  assert (Hb : buildTransaction Stub.ethers Scenario.request Scenario.client
               = (Ok Scenario.built, Scenario.client)) by (vm_compute; reflexivity).
  split; [exact Hb|].
  exact (sendTransaction_sends_what_is_estimated Stub.ethers Scenario.request Scenario.client
           Scenario.client Scenario.built Hb).
Defined.

Lemma empty_string_counts_as_absent_witness :
  "polygon" <> ""
  /\ getProvider (Some "") Scenario.client = (Ok Scenario.mainnet, Scenario.client)
  /\ getProvider (Some "polygon") Scenario.client = (Ok Scenario.polygon, Scenario.client).
Proof.
  assert (Hne : "polygon" <> "") by discriminate.
  destruct (empty_string_counts_as_absent Stub.ethers Chain.node Scenario.client)
    as (Hempty & _ & _ & _ & Hnamed).
  split; [exact Hne|]. split.
  - rewrite Hempty. vm_compute. reflexivity.
  - rewrite (Hnamed "polygon" Hne). vm_compute. reflexivity.
Defined.
